(** * OCR-MAIN: the adaptive document-recognition pipeline

    A shallow embedding of the Python sources of the repository
    (classifier, output naming and storage, recognition adapters,
    preprocessing, orchestration) and the properties the specification
    states about them.

    Conventions of the embedding.
    - Python [int] is [Z]; a Python [float] is read as the rational it
      denotes ([Q]), so [0.3] is [3#10].  Where the rounding of an
      operation decides what the code does (the true division of two
      ints, NumPy's arithmetic on the angles of detected lines) the
      operation is the IEEE 754 one, as the Standard Library's
      [SpecFloat] defines it.
    - A Python [str] is kept as its UTF-8 encoding, as the literals of
      this file are; its characters are the code points the bytes
      encode.
    - A Python call that may raise returns a [result]; [Raise e] carries
      the exception's class and its [str(e)].
    - External libraries (pdfplumber, PyMuPDF, pdf2image, pytesseract,
      OpenCV) are not part of the repository: their behaviour is supplied
      by oracle records, and the images OpenCV produces are symbolic terms
      that record which primitive was applied to what.
    - The file system is a finite map from paths to nodes; a path is the
      list of its components. *)

From Stdlib Require Import ZArith NArith QArith Qabs String Ascii List Bool.
From Stdlib Require Import Lia Lqa Decimal DecimalNat DecimalString.
From Stdlib Require Import Floats.SpecFloat Sorted Permutation.
From stdpp Require Import base option list gmap strings fin_maps.

Local Open Scope string_scope.

(* ===================================================================== *)
(** * Part I: definitions                                                  *)
(* ===================================================================== *)

(** ** IEEE 754 arithmetic

    A floating-point value is a [spec_float]; an operation of a format is
    the Standard Library's operation at the precision and the exponent
    range of that format, rounding to nearest, ties to even. *)

Module Ieee.

Inductive format : Type := binary32 | binary64.

Definition prec (f : format) : Z :=
  match f with binary32 => 24 | binary64 => 53 end.
Definition emax (f : format) : Z :=
  match f with binary32 => 128 | binary64 => 1024 end.

(** An integer as it is, before any rounding. *)
Definition exact_Z (n : Z) : spec_float :=
  match n with
  | Z0 => S754_zero false
  | Zpos p => S754_finite false p 0
  | Zneg p => S754_finite true p 0
  end.

(** The value of the format nearest to [x]. *)
Definition round (f : format) (x : spec_float) : spec_float :=
  match x with
  | S754_finite s m e => binary_round (prec f) (emax f) s m e
  | _ => x
  end.

Definition of_Z (f : format) (n : Z) : spec_float := round f (exact_Z n).

Definition add (f : format) : spec_float -> spec_float -> spec_float :=
  SFadd (prec f) (emax f).
Definition sub (f : format) : spec_float -> spec_float -> spec_float :=
  SFsub (prec f) (emax f).
Definition mul (f : format) : spec_float -> spec_float -> spec_float :=
  SFmul (prec f) (emax f).
Definition div (f : format) : spec_float -> spec_float -> spec_float :=
  SFdiv (prec f) (emax f).

(** The rational a finite value denotes; zero for the others. *)
Definition to_Q (x : spec_float) : Q :=
  match x with
  | S754_finite s m e =>
      let n := if s then Zneg m else Zpos m in
      match e with
      | Zneg k => Qred (n # Pos.pow 2 k)
      | _ => inject_Z (n * 2 ^ e)
      end
  | _ => 0
  end.

End Ieee.

(** ** Python values shared by all modules *)

Module Py.

(** The exception classes of [domain/exceptions.py]; everything raised by
    the interpreter or by an external library is [Builtin name]. *)
Inductive exn_class : Type :=
| DomainError
| ConfigurationError
| OCRError
| DocumentError
| ProcessingError
| StorageError
| Builtin (name : string).

Record exn : Type := mkExn { exn_cls : exn_class; exn_str : string }.

(** The outcome of a call.  [OutOfFuel] is not a Python outcome: it is what
    the bounded model of a [while] loop answers when its bound is
    exhausted, and no [except] clause catches it. *)
Inductive result (A : Type) : Type :=
| Return (a : A)
| Raise (e : exn)
| OutOfFuel.
Arguments Return {A} a.
Arguments Raise {A} e.
Arguments OutOfFuel {A}.

Definition bind {A B} (r : result A) (k : A -> result B) : result B :=
  match r with
  | Return a => k a
  | Raise e => Raise e
  | OutOfFuel => OutOfFuel
  end.

Definition is_return {A} (r : result A) : bool :=
  match r with Return _ => true | _ => false end.

Definition raised_class {A} (r : result A) : option exn_class :=
  match r with Raise e => Some (exn_cls e) | _ => None end.

(** [x > y] and [x < y] on floats read as rationals. *)
Definition Qlt_bool (x y : Q) : bool := negb (Qle_bool y x).
Definition Qgt_bool (x y : Q) : bool := Qlt_bool y x.

(** [a / b] on two ints: the double nearest to the quotient, and
    [ZeroDivisionError] on [b = 0].  A quotient beyond the doubles, where
    Python raises [OverflowError], takes an operand of more than a
    thousand bits; no length and no count is one (they stay below 2^63),
    and the model hands such a quotient over as it is. *)
Definition truediv (a b : Z) : result Q :=
  if (b =? 0)%Z
  then Raise (mkExn (Builtin "ZeroDivisionError") "division by zero")
  else
    match Ieee.div Ieee.binary64 (Ieee.exact_Z a) (Ieee.exact_Z b) with
    | S754_infinity _ => Return (inject_Z a / inject_Z b)%Q
    | quotient => Return (Ieee.to_Q quotient)
    end.

(** The characters of a string: the code points its bytes encode.  In
    [decode pending acc s], [pending] continuation bytes are still to
    come for the character whose leading bits are [acc].  A byte that is
    out of place, which the encoding of a [str] never has, is read as a
    character of its own. *)
Fixpoint decode (pending : nat) (acc : N) (s : string) : list N :=
  match s with
  | EmptyString => match pending with O => [] | S _ => [acc] end
  | String c rest =>
      let b := N_of_ascii c in
      let start :=
        if (b <? 192)%N then b :: decode 0 0%N rest
        else if (b <? 224)%N then decode 1 (b - 192)%N rest
        else if (b <? 240)%N then decode 2 (b - 224)%N rest
        else decode 3 (b - 240)%N rest in
      match pending with
      | O => start
      | S p =>
          if ((128 <=? b) && (b <? 192))%N then
            let acc := (acc * 64 + (b - 128))%N in
            match p with
            | O => acc :: decode 0 0%N rest
            | S _ => decode p acc rest
            end
          else acc :: start
      end
  end.

Definition code_points (s : string) : list N := decode 0 0%N s.

(** [len(s)]: the number of characters. *)
Definition len (s : string) : Z := Z.of_nat (List.length (code_points s)).

(** [str.isspace] on one character: the white space of Unicode. *)
Definition isspace (c : N) : bool :=
  (((9 <=? c) && (c <=? 13)) || ((28 <=? c) && (c <=? 32))
   || (c =? 133) || (c =? 160) || (c =? 5760)
   || ((8192 <=? c) && (c <=? 8202))
   || (c =? 8232) || (c =? 8233) || (c =? 8239) || (c =? 8287)
   || (c =? 12288))%N.

(** The truth value of [text.strip()]: some character is not blank. *)
Definition strip_nonempty (s : string) : bool :=
  existsb (fun c => negb (isspace c)) (code_points s).

(** [needle in haystack] on strings. *)
Fixpoint contains (needle haystack : string) : bool :=
  String.prefix needle haystack ||
  match haystack with
  | EmptyString => false
  | String _ rest => contains needle rest
  end.

(** [sep.join(parts)]. *)
Fixpoint join (sep : string) (parts : list string) : string :=
  match parts with
  | [] => ""
  | [p] => p
  | p :: rest => p ++ sep ++ join sep rest
  end.

End Py.

(** [result] is a monad; stdpp's [x ← r; k] sequences two calls and
    stops at the first exception. *)
#[global] Instance result_bind : MBind Py.result := fun _ _ k r => Py.bind r k.
#[global] Instance result_ret : MRet Py.result := fun _ a => Py.Return a.

(** ** application/services/pdf_analyzer.py *)

Module PdfAnalyzer.
Import Py.

Inductive PDFType : Type :=
| SCANNED | NATIVE_TEXT | MIXED | TABLE_HEAVY | IMAGE_HEAVY.

(** The [metrics] dictionary: a fixed set of nine keys. *)
Record PDFMetrics : Type := mkMetrics {
  total_pages : Z;
  text_extractable_pages : Z;
  total_text_length : Z;
  total_images : Z;
  total_tables : Z;
  avg_text_per_page : Q;
  has_fonts : bool;
  image_to_page_ratio : Q;
  table_to_page_ratio : Q
}.

(** What pdfplumber yields for a page: [extract_text()] (possibly [None])
    and [extract_tables()] (possibly [None]); a table is a grid of
    cells. *)
Record plumber_page : Type := mkPlumberPage {
  extract_text : option string;
  extract_tables : option (list (list (list string)))
}.

(** What PyMuPDF yields for a page: [get_images()] and [get_fonts()]. *)
Record fitz_page : Type := mkFitzPage {
  get_images : list nat;
  get_fonts : list string
}.

(** What evaluating [pdfplumber.open(pdf_path)] and [fitz.open(pdf_path)]
    gives in the module's namespace: the pages, or whatever is raised on
    the way (looking up the name included). *)
Record readers : Type := mkReaders {
  pdfplumber_open : list string -> result (list plumber_page);
  fitz_open : list string -> result (list fitz_page)
}.

(** The module's own [import] lines bind neither [pdfplumber] nor [fitz];
    until a caller binds them, looking either name up raises. *)
Definition unbound_name (name : string) : exn :=
  mkExn (Builtin "NameError") ("name '" ++ name ++ "' is not defined").

Definition unbound_readers : readers :=
  mkReaders (fun _ => Raise (unbound_name "pdfplumber"))
            (fun _ => Raise (unbound_name "fitz")).

Definition initial_metrics : PDFMetrics :=
  mkMetrics 0 0 0 0 0 0 false 0 0.

(** One iteration of [for page in pdf.pages]. *)
Definition plumber_step (metrics : PDFMetrics) (page : plumber_page)
  : PDFMetrics :=
  let text_ok :=
    match extract_text page with
    | Some text => negb (String.eqb text "") && strip_nonempty text
    | None => false
    end in
  let text_len :=
    match extract_text page with
    | Some text => len text
    | None => 0%Z
    end in
  let ntables :=
    match extract_tables page with
    | Some tables => if decide (tables = []) then 0%Z
                     else Z.of_nat (List.length tables)
    | None => 0%Z
    end in
  mkMetrics
    (total_pages metrics)
    (if text_ok then text_extractable_pages metrics + 1
     else text_extractable_pages metrics)%Z
    (if text_ok then total_text_length metrics + text_len
     else total_text_length metrics)%Z
    (total_images metrics)
    (total_tables metrics + ntables)%Z
    (avg_text_per_page metrics)
    (has_fonts metrics)
    (image_to_page_ratio metrics)
    (table_to_page_ratio metrics).

(** One iteration of [for page in doc]. *)
Definition fitz_step (metrics : PDFMetrics) (page : fitz_page)
  : PDFMetrics :=
  mkMetrics
    (total_pages metrics)
    (text_extractable_pages metrics)
    (total_text_length metrics)
    (total_images metrics + Z.of_nat (List.length (get_images page)))%Z
    (total_tables metrics)
    (avg_text_per_page metrics)
    (if decide (get_fonts page = []) then has_fonts metrics else true)
    (image_to_page_ratio metrics)
    (table_to_page_ratio metrics).

Definition set_total_pages (metrics : PDFMetrics) (n : Z) : PDFMetrics :=
  mkMetrics n
    (text_extractable_pages metrics) (total_text_length metrics)
    (total_images metrics) (total_tables metrics)
    (avg_text_per_page metrics) (has_fonts metrics)
    (image_to_page_ratio metrics) (table_to_page_ratio metrics).

Definition set_ratios (metrics : PDFMetrics) (avg img tbl : Q)
  : PDFMetrics :=
  mkMetrics (total_pages metrics)
    (text_extractable_pages metrics) (total_text_length metrics)
    (total_images metrics) (total_tables metrics)
    avg (has_fonts metrics) img tbl.

(** The derived values at the end of [_extract_pdf_metrics]: the three
    divisions happen only under [total_pages > 0], and each gives a
    double. *)
Definition derive (metrics : PDFMetrics) : result PDFMetrics :=
  if (total_pages metrics >? 0)%Z then
    avg ← truediv (total_text_length metrics) (total_pages metrics);
    img ← truediv (total_images metrics) (total_pages metrics);
    tbl ← truediv (total_tables metrics) (total_pages metrics);
    Return (set_ratios metrics avg img tbl)
  else Return metrics.

Definition _extract_pdf_metrics (rd : readers) (pdf_path : list string)
  : result PDFMetrics :=
  pages ← pdfplumber_open rd pdf_path;
  let metrics :=
    fold_left plumber_step pages
      (set_total_pages initial_metrics (Z.of_nat (List.length pages))) in
  doc ← fitz_open rd pdf_path;
  let metrics := fold_left fitz_step doc metrics in
  derive metrics.

Definition _classify_pdf_type (metrics : PDFMetrics) : PDFType :=
  if negb (has_fonts metrics)
     && Qlt_bool (inject_Z (text_extractable_pages metrics))
                 (inject_Z (total_pages metrics) * (3 # 10))
     && Qgt_bool (image_to_page_ratio metrics) (1 # 2)
  then SCANNED
  else if Qgt_bool (table_to_page_ratio metrics) (4 # 5)
  then TABLE_HEAVY
  else if Qgt_bool (image_to_page_ratio metrics) (3 # 2)
  then IMAGE_HEAVY
  else if has_fonts metrics
          && Qgt_bool (inject_Z (text_extractable_pages metrics))
                      (inject_Z (total_pages metrics) * (4 # 5))
          && Qgt_bool (avg_text_per_page metrics) (100 # 1)
  then NATIVE_TEXT
  else MIXED.

Definition analyze_pdf (rd : readers) (pdf_path : list string)
  : result (PDFType * PDFMetrics) :=
  metrics ← _extract_pdf_metrics rd pdf_path;
  let pdf_type := _classify_pdf_type metrics in
  Return (pdf_type, metrics).

(** The page loops touch neither the page count nor the three ratios. *)
Definition same_frame (m m' : PDFMetrics) : Prop :=
  total_pages m' = total_pages m
  /\ avg_text_per_page m' = avg_text_per_page m
  /\ image_to_page_ratio m' = image_to_page_ratio m
  /\ table_to_page_ratio m' = table_to_page_ratio m.

End PdfAnalyzer.

(** ** pathlib paths and the file system *)

Module Fs.
Import Py.

(** A file name: a string that pathlib takes as one component, being
    neither empty nor a dot entry and holding neither a separator nor a
    null character. *)
Definition is_component (s : string) : bool :=
  negb (String.eqb s "") && negb (String.eqb s ".")
  && negb (String.eqb s "..")
  && negb (contains "/" s) && negb (contains (String "000" "") s).

(** A path is the list of its components.  [p / s] is taken at a file
    name [s], where pathlib appends it. *)
Definition div (p : list string) (s : string) : list string :=
  (p ++ [s])%list.
Definition name (p : list string) : string := List.last p "".
Definition parent (p : list string) : list string := removelast p.

(** [PurePath.stem]: the final component without its last suffix; a dot in
    first or last position does not start a suffix. *)
Fixpoint rfind_dot (s : string) (i : nat) (found : option nat) : option nat :=
  match s with
  | EmptyString => found
  | String c s' =>
      rfind_dot s' (S i) (if Ascii.eqb c "."%char then Some i else found)
  end.

Definition stem (p : list string) : string :=
  let n := name p in
  match rfind_dot n 0 None with
  | Some i =>
      if ((0 <? i) && (i <? String.length n - 1))%nat
      then String.substring 0 i n
      else n
  | None => n
  end.

(** A table is a grid of cell strings. *)
Definition table : Type := list (list string).

(** The JSON object written as [<name>_metadata.json]. *)
Record metadata : Type := mkMetadata {
  md_id : option string;
  md_name : string;
  md_text_length : Z;
  md_tables_count : Z;
  md_confidence : option Q;
  md_processing_time : option Q
}.

(** What a regular file holds. *)
Inductive content : Type :=
| Text (s : string)
| TablesJson (tables : list table)
| MetadataJson (md : metadata)
| Bytes (blob : list nat).

Inductive node : Type :=
| Dir
| File (c : content).

(** The file system: the paths that exist, each with its node.  Failures
    of the operating system itself (permissions, a full disk) are not part
    of it. *)
Abbreviation FS := (gmap (list string) node).

Definition exists_ (fs : FS) (p : list string) : bool :=
  bool_decide (is_Some (fs !! p)).

(** The proper prefixes of a path and the path itself, shortest first. *)
Definition ancestors (p : list string) : list (list string) :=
  map (fun n => take n p) (seq 1 (List.length p)).

(** The file system once [p] and its missing ancestors are directories;
    what exists is left as it is. *)
Definition ensure_dirs (p : list string) (fs : FS) : FS :=
  fs ∪ list_to_map (map (fun q => (q, Dir)) (ancestors p)).

(** Whether a regular file stands at [p]; the working directory, the
    empty path, is a directory. *)
Definition is_file (fs : FS) (p : list string) : bool :=
  match p with
  | [] => false
  | _ => match fs !! p with Some (File _) => true | _ => false end
  end.

(** [str(p)]. *)
Definition fspath (p : list string) : string := join "/" p.

(** [p.mkdir(parents=True, exist_ok=True)]: [os.mkdir] fails with
    [NotADirectoryError] when a regular file stands where an ancestor of
    [p] should be, and with [FileExistsError] when [p] is a regular file;
    pathlib lets both through.  Otherwise the missing directories are
    created. *)
Definition mkdir (p : list string) (fs : FS) : result unit * FS :=
  if existsb (is_file fs) (ancestors (parent p)) then
    (Raise (mkExn (Builtin "NotADirectoryError")
              ("[Errno 20] Not a directory: '" ++ fspath p ++ "'")), fs)
  else if is_file fs p then
    (Raise (mkExn (Builtin "FileExistsError")
              ("[Errno 17] File exists: '" ++ fspath p ++ "'")), fs)
  else (Return tt, ensure_dirs p fs).

(** [open(p, "w")] followed by a write. *)
Definition write (p : list string) (c : content) (fs : FS) : FS :=
  <[p := File c]> fs.

End Fs.

(** ** domain/entities/document.py *)

Module Entities.
Import Py Fs.

(** The entity handed to storage.  The two timestamps and the free-form
    [metadata] dictionary play no part in what follows and are left out;
    the identifier is the UUID drawn by the constructor. *)
Record Document : Type := mkDocument {
  id : string;
  name : string;
  text : string;
  tables : list table;
  source_path : option (list string);
  confidence : option Q;
  output_directory : option (list string);
  generated_files : option (list (list string));
  processing_time : option Q
}.

(** [Document(name=..., text=..., tables=..., source_path=...)]. *)
Definition Document_init (uuid4 : string) (name : string) (text : string)
    (tables : list table) (source_path : option (list string)) : Document :=
  mkDocument uuid4 name text tables source_path None None None None.

End Entities.

(** ** infrastructure/adapters/storage/file_storage.py *)

Module FileStorage.
Import Py Fs.

Record FileStorage : Type := mkFileStorage { output_dir : list string }.

(** [FileStorage(output_dir)] creates the output root. *)
Definition __init__ (output_dir : list string) (fs : FS)
  : result FileStorage * FS :=
  let self := mkFileStorage output_dir in
  match mkdir output_dir fs with
  | (Return _, fs) => (Return self, fs)
  | (Raise e, fs) => (Raise e, fs)
  | (OutOfFuel, fs) => (OutOfFuel, fs)
  end.

(** [f"{counter:02d}"]: decimal, padded with zeros to width two. *)
Definition fmt_02d (counter : nat) : string :=
  let s := NilEmpty.string_of_uint (Nat.to_uint counter) in
  if (String.length s <? 2)%nat then "0" ++ s else s.

(** Reading a counter back from its decimal form, leading zeros allowed. *)
Definition parse_counter (s : string) : option nat :=
  option_map Nat.of_uint (NilEmpty.uint_of_string s).

(** [f"{base_name}_{counter:02d}"]. *)
Definition numbered (base_name : string) (counter : nat) : string :=
  base_name ++ "_" ++ fmt_02d counter.

(** The names the loop tries, in order: the base name itself, then the base
    name with counter 1, 2, ... *)
Definition candidate (base_name : string) (k : nat) : string :=
  match k with
  | O => base_name
  | S _ => numbered base_name k
  end.

Definition candidate_path (self : FileStorage) (base_name : string) (k : nat)
  : list string :=
  div (output_dir self) (candidate base_name k).

(** The [while unique_dir.exists()] loop, entered with the current
    candidate and counter; [fuel] bounds the number of iterations. *)
Fixpoint unique_loop (fuel : nat) (self : FileStorage) (fs : FS)
    (base_name : string) (unique_dir : list string) (counter : nat)
  : result (list string) :=
  if exists_ fs unique_dir then
    match fuel with
    | O => OutOfFuel
    | S fuel' =>
        let unique_name := numbered base_name counter in
        unique_loop fuel' self fs base_name
          (div (output_dir self) unique_name) (S counter)
    end
  else Return unique_dir.

(** One iteration per existing path is more than the loop can use. *)
Definition _create_unique_dir (self : FileStorage) (base_name : string)
    (fs : FS) : result (list string) * FS :=
  match unique_loop (size fs) self fs base_name
          (div (output_dir self) base_name) 1 with
  | Return unique_dir =>
      match mkdir unique_dir fs with
      | (Return _, fs) => (Return unique_dir, fs)
      | (Raise e, fs) => (Raise e, fs)
      | (OutOfFuel, fs) => (OutOfFuel, fs)
      end
  | Raise e => (Raise e, fs)
  | OutOfFuel => (OutOfFuel, fs)
  end.

(** *** The same method, one call at a time

    Between two calls that touch the file system another run may make
    its own.  An allocation is about to test a candidate, or about to
    create the directory it chose, or over. *)
Inductive allocation : Type :=
| Testing (unique_dir : list string) (counter : nat)
| Creating (unique_dir : list string)
| Returned (unique_dir : list string)
| Raised (e : exn).

Definition allocation_start (self : FileStorage) (base_name : string)
  : allocation :=
  Testing (div (output_dir self) base_name) 1.

(** One call: [unique_dir.exists()], or [unique_dir.mkdir(...)]. *)
Definition allocation_step (self : FileStorage) (base_name : string)
    (a : allocation) (fs : FS) : allocation * FS :=
  match a with
  | Testing unique_dir counter =>
      if exists_ fs unique_dir then
        let unique_name := numbered base_name counter in
        (Testing (div (output_dir self) unique_name) (S counter), fs)
      else (Creating unique_dir, fs)
  | Creating unique_dir =>
      match mkdir unique_dir fs with
      | (Return _, fs) => (Returned unique_dir, fs)
      | (Raise e, fs) => (Raised e, fs)
      | (OutOfFuel, fs) => (a, fs)
      end
  | Returned _ | Raised _ => (a, fs)
  end.

(** Two runs on one file system; the schedule tells whose call comes
    next. *)
Inductive turn : Type := First | Second.

Fixpoint interleave (schedule : list turn) (self : FileStorage)
    (base1 base2 : string) (a1 a2 : allocation) (fs : FS)
  : allocation * allocation * FS :=
  match schedule with
  | [] => (a1, a2, fs)
  | First :: rest =>
      let '(a1, fs) := allocation_step self base1 a1 fs in
      interleave rest self base1 base2 a1 a2 fs
  | Second :: rest =>
      let '(a2, fs) := allocation_step self base2 a2 fs in
      interleave rest self base1 base2 a1 a2 fs
  end.

(** [shutil.copy2(src, dst)] for a source that exists. *)
Definition copy2 (src dst : list string) (fs : FS) : result unit * FS :=
  match fs !! src with
  | Some (File c) => (Return tt, write dst c fs)
  | Some Dir =>
      (Raise (mkExn (Builtin "IsADirectoryError") "Is a directory"), fs)
  | None =>
      (Raise (mkExn (Builtin "FileNotFoundError") "No such file"), fs)
  end.

Definition save_document (self : FileStorage) (document : Entities.Document)
    (fs : FS) : result (list (list string)) * FS :=
  match _create_unique_dir self (Entities.name document) fs with
  | (Return doc_dir, fs) =>
      let generated_files : list (list string) := [] in
      (* the extracted text *)
      let text_file := div doc_dir (name doc_dir ++ "_texto.txt") in
      let fs := write text_file (Text (Entities.text document)) fs in
      let generated_files := (generated_files ++ [text_file])%list in
      (* the tables, if there are any *)
      let tables_file := div doc_dir (name doc_dir ++ "_tablas.json") in
      let '(generated_files, fs) :=
        if decide (Entities.tables document = [])
        then (generated_files, fs)
        else ((generated_files ++ [tables_file])%list,
              write tables_file (TablesJson (Entities.tables document)) fs)
      in
      (* the metadata, written after the optional copy of the source *)
      let metadata :=
        mkMetadata (Some (Entities.id document))
                   (Entities.name document)
                   (len (Entities.text document))
                   (Z.of_nat (List.length (Entities.tables document)))
                   (Entities.confidence document)
                   (Entities.processing_time document) in
      let metadata_file := div doc_dir (name doc_dir ++ "_metadata.json") in
      let finish (generated_files : list (list string)) (fs : FS) :=
        (Return (generated_files ++ [metadata_file])%list,
         write metadata_file (MetadataJson metadata) fs) in
      (* the copy of the source PDF, if it exists *)
      match Entities.source_path document with
      | Some pdf_path =>
          if exists_ fs pdf_path then
            let pdf_copy := div doc_dir (name doc_dir ++ "_original.pdf") in
            match copy2 pdf_path pdf_copy fs with
            | (Return _, fs) => finish (generated_files ++ [pdf_copy])%list fs
            | (Raise e, fs) => (Raise e, fs)
            | (OutOfFuel, fs) => (OutOfFuel, fs)
            end
          else finish generated_files fs
      | None => finish generated_files fs
      end
  | (Raise e, fs) => (Raise e, fs)
  | (OutOfFuel, fs) => (OutOfFuel, fs)
  end.

(** [generated_files[0].parent if generated_files else None]. *)
Definition first_parent (generated_files : list (list string))
  : option (list string) :=
  match generated_files with
  | first :: _ => Some (parent first)
  | [] => None
  end.

(** The compatibility method [save]. *)
Definition save (self : FileStorage) (uuid4 : string) (doc_name : string)
    (extracted_text : string) (tables : list table)
    (pdf_path : list string) (fs : FS)
  : result (option (list string) * list (list string)) * FS :=
  let document :=
    Entities.Document_init uuid4 doc_name extracted_text tables
      (Some pdf_path) in
  match save_document self document fs with
  | (Return generated_files, fs) =>
      (Return (first_parent generated_files, generated_files), fs)
  | (Raise e, fs) => (Raise e, fs)
  | (OutOfFuel, fs) => (OutOfFuel, fs)
  end.

End FileStorage.

(** ** Images and the external engines *)

Module Cv.
Import Py.

Inductive interpolation : Type := INTER_NEAREST | INTER_LINEAR | INTER_CUBIC.
Inductive border_mode : Type :=
  BORDER_CONSTANT | BORDER_REPLICATE | BORDER_REFLECT.
Inductive morph_op : Type := MORPH_OPEN | MORPH_CLOSE.

(** An image is either a rasterized page or the result of an OpenCV
    primitive applied to an image; the term keeps the primitive and its
    arguments. *)
Inductive image : Type :=
| Page (shape : list nat) (pixels : nat)
| cvtColor_RGB2GRAY (src : image)
| copy (src : image)
| bilateralFilter (src : image) (d sigmaColor sigmaSpace : Z)
| CLAHE_apply (clipLimit : Q) (tileGridSize : Z * Z) (src : image)
| warpAffine (src : image) (center : Z * Z) (angle : spec_float) (scale : Q)
    (dsize : Z * Z) (flags : interpolation) (borderMode : border_mode)
| adaptiveThreshold_GAUSSIAN_BINARY (src : image) (maxValue : Z)
    (blockSize C : Z)
| morphologyEx (src : image) (op : morph_op) (kernel : nat * nat)
| medianBlur (src : image) (ksize : Z).

(** [image.shape]. *)
Fixpoint shape (img : image) : list nat :=
  match img with
  | Page shape _ => shape
  | cvtColor_RGB2GRAY src => take 2 (shape src)
  | copy src => shape src
  | bilateralFilter src _ _ _ => shape src
  | CLAHE_apply _ _ src => shape src
  | warpAffine src _ _ _ _ _ _ => shape src
  | adaptiveThreshold_GAUSSIAN_BINARY src _ _ _ => shape src
  | morphologyEx src _ _ => shape src
  | medianBlur src _ => shape src
  end.

(** The primitives that produced an image, first applied first. *)
Inductive primitive : Type :=
| P_cvtColor | P_copy | P_bilateralFilter | P_CLAHE | P_warpAffine
| P_adaptiveThreshold | P_morph (op : morph_op) | P_medianBlur.

Fixpoint history (img : image) : list primitive :=
  match img with
  | Page _ _ => []
  | cvtColor_RGB2GRAY src => history src ++ [P_cvtColor]
  | copy src => history src ++ [P_copy]
  | bilateralFilter src _ _ _ => history src ++ [P_bilateralFilter]
  | CLAHE_apply _ _ src => history src ++ [P_CLAHE]
  | warpAffine src _ _ _ _ _ _ => history src ++ [P_warpAffine]
  | adaptiveThreshold_GAUSSIAN_BINARY src _ _ _ =>
      history src ++ [P_adaptiveThreshold]
  | morphologyEx src op _ => history src ++ [P_morph op]
  | medianBlur src _ => history src ++ [P_medianBlur]
  end%list.

(** [np.pi], the double nearest to pi: 7074237752028440 * 2^-51. *)
Definition np_pi : spec_float := S754_finite false 7074237752028440 (-51).

(** Everything the adapters ask of pdf2image, pytesseract, OpenCV's
    detectors and NumPy.  [HoughLines] answers [None] or an array of
    lines, each line a one-element array holding the single-precision
    [rho, theta]; [warpAffine_error] tells whether rotating a given image
    raises.  [scalar_format] is the format in which the installed NumPy
    computes with a single-precision scalar and a Python number: single
    precision from NumPy 2 on, double precision before. *)
Record env : Type := mkEnv {
  convert_from_path : list string -> Z -> result (list image);
  image_to_string : image -> string -> result string;
  Canny : image -> Z -> Z -> Z -> result image;
  HoughLines :
    image -> Z -> spec_float -> Z ->
    result (option (list (list (list spec_float))));
  warpAffine_error : image -> option exn;
  scalar_format : Ieee.format;
  get_languages : result (list string);
  get_tesseract_version : result string;
  cv2_version : string
}.

(** Sorting floats, none of them a NaN, by insertion. *)
Fixpoint insert_sorted (x : spec_float) (xs : list spec_float)
  : list spec_float :=
  match xs with
  | [] => [x]
  | y :: ys => if SFleb x y then x :: y :: ys else y :: insert_sorted x ys
  end.

Definition sort (xs : list spec_float) : list spec_float :=
  fold_right insert_sorted [] xs.

(** [np.median] of floats of the format [f], none of them a NaN: the
    middle element of the sorted values, or the mean of the two middle
    ones, which is their sum divided by two. *)
Definition median (f : Ieee.format) (xs : list spec_float) : spec_float :=
  let s := sort xs in
  let n := List.length s in
  if Nat.even n
  then Ieee.div f
         (Ieee.add f (nth (n / 2 - 1)%nat s S754_nan)
                     (nth (n / 2)%nat s S754_nan))
         (Ieee.of_Z f 2)
  else nth (n / 2)%nat s S754_nan.

End Cv.

(** ** infrastructure/adapters/ocr_adapters.py *)

Module OcrAdapters.
Import Py Cv.

(** [for ... in enumerate(images, 1)]: one engine call per page, the text
    appended to [extracted_text]; the first exception ends the loop. *)
Fixpoint page_loop (ocr_page : image -> result string) (images : list image)
    (extracted_text : list string) : result (list string) :=
  match images with
  | [] => Return extracted_text
  | image :: rest =>
      text ← ocr_page image;
      page_loop ocr_page rest (extracted_text ++ [text])%list
  end.

(** *** class TesseractAdapter *)

Module TesseractAdapter.

Record TesseractAdapter : Type := mkTesseractAdapter {
  lang : string;
  dpi : Z
}.

Definition __init__ (lang : string) (dpi : Z) : TesseractAdapter :=
  mkTesseractAdapter lang dpi.

Definition extract_text (self : TesseractAdapter)
    (w : env) (pdf_path : list string) : result string :=
  images ← convert_from_path w pdf_path (dpi self);
  extracted_text ←
    page_loop (fun image => image_to_string w image (lang self))
      images [];
  let final_text := join (String "010" (String "010" "")) extracted_text in
  Return final_text.

End TesseractAdapter.

(** *** class TesseractOpenCVAdapter *)

Module TesseractOpenCVAdapter.

Record TesseractOpenCVAdapter : Type := mkTesseractOpenCVAdapter {
  lang : string;
  dpi : Z;
  enable_deskewing : bool;
  enable_denoising : bool;
  enable_contrast_enhancement : bool
}.

(** [angle = theta * 180 / np.pi - 90], each operation rounded in the
    format [f] of NumPy's scalars, the two ints and [np.pi] brought to
    that format first. *)
Definition line_angle (f : Ieee.format) (theta : spec_float) : spec_float :=
  Ieee.sub f
    (Ieee.div f (Ieee.mul f theta (Ieee.of_Z f 180)) (Ieee.round f np_pi))
    (Ieee.of_Z f 90).

(** The body of the inner [try]: [rho, theta = line[0]] raises
    [IndexError] or [ValueError] on a malformed line, which the loop skips;
    an angle is kept when [abs(angle) < 45]. *)
Definition line_step (f : Ieee.format) (angles : list spec_float)
    (line : list (list spec_float)) : list spec_float :=
  match line with
  | [rho; theta] :: _ =>
      let angle := line_angle f theta in
      if SFltb (SFabs angle) (Ieee.of_Z f 45)
      then (angles ++ [angle])%list
      else angles
  | _ => angles
  end.

(** [np.pi/180], a division of Python floats. *)
Definition theta_resolution : spec_float :=
  Ieee.div Ieee.binary64 np_pi (Ieee.of_Z Ieee.binary64 180).

(** [0.5] in the format [f]. *)
Definition half (f : Ieee.format) : spec_float :=
  Ieee.round f (S754_finite false 1 (-1)).

(** [h, w = image.shape]. *)
Definition unpack_shape (img : image) : result (Z * Z) :=
  match shape img with
  | [h; w] => Return (Z.of_nat h, Z.of_nat w)
  | _ => Raise (mkExn (Builtin "ValueError") "wrong number of values to unpack")
  end.

(** The body of the outer [try] of [_correct_skew]. *)
Definition correct_skew_body (w : env) (image : Cv.image)
  : result Cv.image :=
  edges ← Canny w image 50 150 3;
  lines ← HoughLines w edges 1 theta_resolution 100;
  match lines with
  | Some lines =>
      if (0 <? List.length lines)%nat then
        let f := scalar_format w in
        let angles :=
          fold_left (line_step f)
            (firstn (Nat.min 10 (List.length lines)) lines) [] in
        if decide (angles = []) then Return image
        else
          let rotation_angle := median f angles in
          if SFltb (half f) (SFabs rotation_angle) then
            hw ← unpack_shape image;
            let center := ((snd hw / 2)%Z, (fst hw / 2)%Z) in
            match warpAffine_error w image with
            | Some e => Raise e
            | None =>
                Return (warpAffine image center rotation_angle 1
                          (snd hw, fst hw) INTER_CUBIC BORDER_REPLICATE)
            end
          else Return image
      else Return image
  | None => Return image
  end.

(** [except Exception] logs and falls through to [return image]. *)
Definition _correct_skew (w : env) (image : Cv.image)
  : Cv.image :=
  match correct_skew_body w image with
  | Return rotated => rotated
  | Raise _ => image
  | OutOfFuel => image
  end.

Definition _preprocess_image (self : TesseractOpenCVAdapter) (w : env)
    (image : Cv.image)
  : Cv.image :=
  let gray :=
    if (List.length (shape image) =? 3)%nat
    then cvtColor_RGB2GRAY image
    else copy image in
  let gray :=
    if enable_denoising self then bilateralFilter gray 9 75 75 else gray in
  let gray :=
    if enable_contrast_enhancement self
    then CLAHE_apply 2 (8%Z, 8%Z) gray
    else gray in
  let gray :=
    if enable_deskewing self then _correct_skew w gray else gray in
  let binary := adaptiveThreshold_GAUSSIAN_BINARY gray 255 11 2 in
  let kernel := (1%nat, 1%nat) in
  let binary := morphologyEx binary MORPH_CLOSE kernel in
  let binary := morphologyEx binary MORPH_OPEN kernel in
  binary.

Definition extract_text
    (self : TesseractOpenCVAdapter) (w : env) (pdf_path : list string)
  : result string :=
  images ← convert_from_path w pdf_path (dpi self);
  extracted_text ←
    page_loop
      (fun image =>
         let processed_image := _preprocess_image self w image in
         image_to_string w processed_image (lang self))
      images [];
  let final_text := join (String "010" (String "010" "")) extracted_text in
  Return final_text.

End TesseractOpenCVAdapter.

End OcrAdapters.

(** ** infrastructure/adapters/ocr/ *)

Module Ocr.
Import Py Cv.

(** A value of an engine-information dictionary. *)
Inductive info_value : Type :=
| VStr (s : string)
| VInt (n : Z)
| VBool (b : bool).

(** [try: ... except Exception as e: raise ProcessingError(prefix + str(e))]. *)
Definition wrap_processing_error {A} (prefix : string) (r : result A)
  : result A :=
  match r with
  | Return a => Return a
  | Raise e => Raise (mkExn ProcessingError (prefix ++ exn_str e))
  | OutOfFuel => OutOfFuel
  end.

(** [try: return f() except Exception: return fallback]. *)
Definition or_else {A} (r : result A) (fallback : A) : A :=
  match r with
  | Return a => a
  | _ => fallback
  end.

(** *** tesseract_adapter.py: class TesseractAdapter

    Every method returns its outcome together with the adapter as the call
    leaves it. *)

Module TesseractAdapter.

Record TesseractAdapter : Type := mkTesseractAdapter {
  lang : string;
  dpi : Z;
  last_confidence : Q
}.

Definition __init__ (lang : string) (dpi : Z) : TesseractAdapter :=
  mkTesseractAdapter lang dpi 0.

Definition extract_text (self : TesseractAdapter) (w : env)
    (pdf_path : list string) : result string * TesseractAdapter :=
  (wrap_processing_error "Error en OCR básico: "
     (images ← convert_from_path w pdf_path (dpi self);
      extracted_text ←
        OcrAdapters.page_loop
          (fun image => image_to_string w image (lang self)) images [];
      let final_text :=
        join (String "010" (String "010" "")) extracted_text in
      Return final_text),
   self).

Definition get_confidence (self : TesseractAdapter)
  : Q * TesseractAdapter :=
  (last_confidence self, self).

Definition _get_tesseract_version (self : TesseractAdapter) (w : env)
  : string * TesseractAdapter :=
  (or_else (get_tesseract_version w) "Unknown", self).

Definition get_engine_info (self : TesseractAdapter) (w : env)
  : list (string * info_value) * TesseractAdapter :=
  let '(version, self) := _get_tesseract_version self w in
  ([("name", VStr "Tesseract OCR"); ("version", VStr version);
    ("type", VStr "basic"); ("language", VStr (lang self));
    ("dpi", VInt (dpi self))],
   self).

Definition get_supported_languages (self : TesseractAdapter) (w : env)
  : list string * TesseractAdapter :=
  (or_else
     (output ← get_languages w;
      Return (if decide (output = []) then ["eng"] else output))
     ["eng"],
   self).

End TesseractAdapter.

(** *** tesseract_opencv_adapter.py: class TesseractOpenCVAdapter *)

Module TesseractOpenCVAdapter.

Record TesseractOpenCVAdapter : Type := mkTesseractOpenCVAdapter {
  lang : string;
  dpi : Z;
  last_confidence : Q
}.

Definition __init__ (lang : string) (dpi : Z) : TesseractOpenCVAdapter :=
  mkTesseractOpenCVAdapter lang dpi 0.

(** [cv2.cvtColor(..., COLOR_RGB2GRAY)] without a guard: OpenCV rejects an
    array that has no channel axis. *)
Definition cvtColor_checked (img : image) : result image :=
  if (List.length (shape img) =? 3)%nat
  then Return (cvtColor_RGB2GRAY img)
  else Raise (mkExn (Builtin "cv2.error") "Invalid number of channels").

Definition _preprocess_image (self : TesseractOpenCVAdapter) (image : Cv.image)
  : result Cv.image * TesseractOpenCVAdapter :=
  (gray ← cvtColor_checked image;
   let binary := adaptiveThreshold_GAUSSIAN_BINARY gray 255 11 2 in
   let denoised := medianBlur binary 3 in
   Return denoised,
   self).

(** The page loop of this adapter hands the adapter from page to page. *)
Fixpoint page_loop (w : env) (self : TesseractOpenCVAdapter)
    (images : list image) (extracted_text : list string)
  : result (list string) * TesseractOpenCVAdapter :=
  match images with
  | [] => (Return extracted_text, self)
  | image :: rest =>
      match _preprocess_image self image with
      | (Return processed_image, self) =>
          match image_to_string w processed_image (lang self) with
          | Return text =>
              page_loop w self rest (extracted_text ++ [text])%list
          | Raise e => (Raise e, self)
          | OutOfFuel => (OutOfFuel, self)
          end
      | (Raise e, self) => (Raise e, self)
      | (OutOfFuel, self) => (OutOfFuel, self)
      end
  end.

Definition extract_text (self : TesseractOpenCVAdapter) (w : env)
    (pdf_path : list string) : result string * TesseractOpenCVAdapter :=
  match convert_from_path w pdf_path (dpi self) with
  | Return images =>
      let '(r, self) := page_loop w self images [] in
      (wrap_processing_error "Error en OCR con OpenCV: "
         (extracted_text ← r;
          let final_text :=
            join (String "010" (String "010" "")) extracted_text in
          Return final_text),
       self)
  | Raise e =>
      (wrap_processing_error "Error en OCR con OpenCV: " (Raise e), self)
  | OutOfFuel => (OutOfFuel, self)
  end.

Definition get_confidence (self : TesseractOpenCVAdapter)
  : Q * TesseractOpenCVAdapter :=
  (last_confidence self, self).

Definition _get_tesseract_version (self : TesseractOpenCVAdapter) (w : env)
  : string * TesseractOpenCVAdapter :=
  (or_else (get_tesseract_version w) "Unknown", self).

Definition _get_opencv_version (self : TesseractOpenCVAdapter) (w : env)
  : string * TesseractOpenCVAdapter :=
  (cv2_version w, self).

Definition get_engine_info (self : TesseractOpenCVAdapter) (w : env)
  : list (string * info_value) * TesseractOpenCVAdapter :=
  let '(version, self) := _get_tesseract_version self w in
  let '(opencv_version, self) := _get_opencv_version self w in
  ([("name", VStr "Tesseract + OpenCV"); ("version", VStr version);
    ("type", VStr "opencv"); ("opencv_version", VStr opencv_version);
    ("language", VStr (lang self)); ("dpi", VInt (dpi self));
    ("preprocessing", VBool true)],
   self).

Definition get_supported_languages (self : TesseractOpenCVAdapter) (w : env)
  : list string * TesseractOpenCVAdapter :=
  (or_else
     (output ← get_languages w;
      Return (if decide (output = []) then ["eng"] else output))
     ["eng"],
   self).

End TesseractOpenCVAdapter.

End Ocr.

(** ** domain/models/document.py *)

Module Models.
Import Py Fs.

(** The dataclass returned by the orchestrators, with the attributes they
    attach after construction ([None] until assigned). *)
Record Document : Type := mkDocument {
  name : string;
  source_path : string;
  extracted_text : string;
  tables : list table;
  confidence : option Q;
  output_directory : option (list string);
  generated_files : option (list (list string));
  processing_time : option Q
}.

End Models.

(** ** domain/ports: the interfaces the orchestrators are written against *)

Module Ports.
Import Py Fs Cv.

(** An OCR adapter: an object whose calls may leave it in a new state. *)
Class OCRPort (A : Type) : Type := {
  port_extract_text : A -> env -> list string -> result string * A;
  port_get_confidence : A -> result Q * A
}.

Class TableExtractorPort (T : Type) : Type := {
  port_extract_tables : T -> list string -> result (list table)
}.

End Ports.

(** ** infrastructure/adapters/table_simple.py *)

Module TableSimple.
Import Py Fs Ports.

Inductive SimpleTableAdapter : Type := mkSimpleTableAdapter.

Definition extract_tables (self : SimpleTableAdapter)
    (pdf_path : list string) : result (list table) :=
  Return [].

#[global] Instance SimpleTableAdapter_port
  : TableExtractorPort SimpleTableAdapter :=
  {| port_extract_tables := extract_tables |}.

End TableSimple.

(** ** infrastructure/factories/adapter_factory.py *)

Module AdapterFactory.
Import Py Fs Cv Ports.

Definition ENGINE_TYPE_BASIC : string := "basic".
Definition ENGINE_TYPE_OPENCV : string := "opencv".

(** The fields of [SystemConfig] the factory reads. *)
Record SystemConfig : Type := mkSystemConfig {
  language : string;
  dpi : Z;
  engine_type : string
}.

(** What [create_ocr_adapter] can return. *)
Inductive ocr_adapter : Type :=
| Basic (a : Ocr.TesseractAdapter.TesseractAdapter)
| OpenCV (a : Ocr.TesseractOpenCVAdapter.TesseractOpenCVAdapter).

Definition create_ocr_adapter (config : SystemConfig) : result ocr_adapter :=
  if String.eqb (engine_type config) ENGINE_TYPE_BASIC then
    Return (Basic (Ocr.TesseractAdapter.__init__
                     (language config) (dpi config)))
  else if String.eqb (engine_type config) ENGINE_TYPE_OPENCV then
    Return (OpenCV (Ocr.TesseractOpenCVAdapter.__init__
                      (language config) (dpi config)))
  else
    Raise (mkExn ConfigurationError
             ("Motor OCR no soportado: " ++ engine_type config)).

Definition create_table_extractor : TableSimple.SimpleTableAdapter :=
  TableSimple.mkSimpleTableAdapter.

Definition create_storage_adapter (output_dir : list string) (fs : FS)
  : result FileStorage.FileStorage * FS :=
  FileStorage.__init__ output_dir fs.

(** Method dispatch on the adapter the factory returned. *)
Definition adapter_extract_text (a : ocr_adapter) (w : env)
    (pdf_path : list string) : result string * ocr_adapter :=
  match a with
  | Basic a =>
      let '(r, a) := Ocr.TesseractAdapter.extract_text a w pdf_path in
      (r, Basic a)
  | OpenCV a =>
      let '(r, a) := Ocr.TesseractOpenCVAdapter.extract_text a w pdf_path in
      (r, OpenCV a)
  end.

Definition adapter_get_confidence (a : ocr_adapter)
  : result Q * ocr_adapter :=
  match a with
  | Basic a =>
      let '(c, a) := Ocr.TesseractAdapter.get_confidence a in
      (Return c, Basic a)
  | OpenCV a =>
      let '(c, a) := Ocr.TesseractOpenCVAdapter.get_confidence a in
      (Return c, OpenCV a)
  end.

#[global] Instance ocr_adapter_port : OCRPort ocr_adapter :=
  {| port_extract_text := adapter_extract_text;
     port_get_confidence := adapter_get_confidence |}.

(** The value [get_confidence] reads. *)
Definition adapter_last_confidence (a : ocr_adapter) : Q :=
  match a with
  | Basic a => Ocr.TesseractAdapter.last_confidence a
  | OpenCV a => Ocr.TesseractOpenCVAdapter.last_confidence a
  end.

(** The resolution the adapter rasterizes at. *)
Definition adapter_dpi (a : ocr_adapter) : Z :=
  match a with
  | Basic a => Ocr.TesseractAdapter.dpi a
  | OpenCV a => Ocr.TesseractOpenCVAdapter.dpi a
  end.

(** A call of one of the methods the two classes define. *)
Inductive call : Type :=
| call_extract_text (pdf_path : list string)
| call_get_confidence
| call_get_engine_info
| call_get_supported_languages
| call__get_tesseract_version
| call__get_opencv_version
| call__preprocess_image (image : Cv.image).

(** The adapter after one call; a method the class does not have raises
    [AttributeError] and leaves the object alone. *)
Definition after (w : env) (a : ocr_adapter) (c : call) : ocr_adapter :=
  match a with
  | Basic a =>
      Basic
        match c with
        | call_extract_text pdf_path =>
            snd (Ocr.TesseractAdapter.extract_text a w pdf_path)
        | call_get_confidence => snd (Ocr.TesseractAdapter.get_confidence a)
        | call_get_engine_info => snd (Ocr.TesseractAdapter.get_engine_info a w)
        | call_get_supported_languages =>
            snd (Ocr.TesseractAdapter.get_supported_languages a w)
        | call__get_tesseract_version =>
            snd (Ocr.TesseractAdapter._get_tesseract_version a w)
        | call__get_opencv_version => a
        | call__preprocess_image _ => a
        end
  | OpenCV a =>
      OpenCV
        match c with
        | call_extract_text pdf_path =>
            snd (Ocr.TesseractOpenCVAdapter.extract_text a w pdf_path)
        | call_get_confidence =>
            snd (Ocr.TesseractOpenCVAdapter.get_confidence a)
        | call_get_engine_info =>
            snd (Ocr.TesseractOpenCVAdapter.get_engine_info a w)
        | call_get_supported_languages =>
            snd (Ocr.TesseractOpenCVAdapter.get_supported_languages a w)
        | call__get_tesseract_version =>
            snd (Ocr.TesseractOpenCVAdapter._get_tesseract_version a w)
        | call__get_opencv_version =>
            snd (Ocr.TesseractOpenCVAdapter._get_opencv_version a w)
        | call__preprocess_image image =>
            snd (Ocr.TesseractOpenCVAdapter._preprocess_image a image)
        end
  end.

End AdapterFactory.

(** ** application/use_cases *)

Module UseCases.
Import Py Fs Cv Ports.

(** [str(pdf_path)]. *)
Definition str (p : list string) : string := join "/" p.

(** What one run leaves behind, next to its outcome, is the adapter and the
    file system.  [except Exception as e: raise ProcessingError(...)]. *)
Definition wrap_run {A D} (prefix : string)
    (r : result D * (A * FS)) : result D * (A * FS) :=
  match r with
  | (Return d, st) => (Return d, st)
  | (Raise e, st) => (Raise (mkExn ProcessingError (prefix ++ exn_str e)), st)
  | (OutOfFuel, st) => (OutOfFuel, st)
  end.

(** [output_dir.name] on a value that may be [None]. *)
Definition name_of (output_dir : option (list string)) : result string :=
  match output_dir with
  | Some d => Return (name d)
  | None =>
      Raise (mkExn (Builtin "AttributeError")
               "'NoneType' object has no attribute 'name'")
  end.

(** *** extract_document_text.py *)

Module ExtractDocumentTextUseCase.

Record ExtractDocumentTextUseCase (A : Type) : Type := __init__ { ocr : A }.
Arguments __init__ {A} _.
Arguments ocr {A} _.

Definition execute {A} `{OCRPort A} (self : ExtractDocumentTextUseCase A)
    (w : env) (pdf_path : list string) : result (string * Q) * A :=
  match port_extract_text (ocr self) w pdf_path with
  | (Return extracted_text, ocr) =>
      match port_get_confidence ocr with
      | (Return confidence, ocr) => (Return (extracted_text, confidence), ocr)
      | (Raise e, ocr) => (Raise e, ocr)
      | (OutOfFuel, ocr) => (OutOfFuel, ocr)
      end
  | (Raise e, ocr) => (Raise e, ocr)
  | (OutOfFuel, ocr) => (OutOfFuel, ocr)
  end.

End ExtractDocumentTextUseCase.

(** *** extract_tables.py *)

Module ExtractTablesUseCase.

Record ExtractTablesUseCase (T : Type) : Type :=
  __init__ { table_extractor : T }.
Arguments __init__ {T} _.
Arguments table_extractor {T} _.

Definition execute {T} `{TableExtractorPort T}
    (self : ExtractTablesUseCase T) (pdf_path : list string)
  : result (list table) :=
  tables ← port_extract_tables (table_extractor self) pdf_path;
  Return tables.

End ExtractTablesUseCase.

(** *** save_document.py *)

Module SaveDocumentUseCase.

Record SaveDocumentUseCase : Type :=
  __init__ { storage : FileStorage.FileStorage }.

(** [uuid4] is the identifier the storage entity draws. *)
Definition execute (self : SaveDocumentUseCase)
    (uuid4 : string) (doc_name : string) (extracted_text : string)
    (tables : list table) (pdf_path : list string) (fs : FS)
  : result (option (list string) * list (list string)) * FS :=
  let document :=
    Entities.Document_init uuid4 doc_name extracted_text tables
      (Some pdf_path) in
  match FileStorage.save_document (storage self) document fs with
  | (Return generated_files, fs) =>
      let output_dir := FileStorage.first_parent generated_files in
      (Return (output_dir, generated_files), fs)
  | (Raise e, fs) => (Raise e, fs)
  | (OutOfFuel, fs) => (OutOfFuel, fs)
  end.

End SaveDocumentUseCase.

(** *** process_document.py *)

Module ProcessDocument.

Record ProcessDocument (A T : Type) : Type := mkProcessDocument {
  extract_text_use_case :
    ExtractDocumentTextUseCase.ExtractDocumentTextUseCase A;
  extract_tables_use_case : ExtractTablesUseCase.ExtractTablesUseCase T;
  save_document_use_case : SaveDocumentUseCase.SaveDocumentUseCase
}.
Arguments mkProcessDocument {A T} _ _ _.
Arguments extract_text_use_case {A T} _.
Arguments extract_tables_use_case {A T} _.
Arguments save_document_use_case {A T} _.

Definition __init__ {A T} (ocr : A) (table_extractor : T)
    (storage : FileStorage.FileStorage) : ProcessDocument A T :=
  mkProcessDocument
    (ExtractDocumentTextUseCase.__init__ ocr)
    (ExtractTablesUseCase.__init__ table_extractor)
    (SaveDocumentUseCase.__init__ storage).

(** The [try] body of [execute]; [elapsed] is the measured duration. *)
Definition execute_body {A T} `{OCRPort A} `{TableExtractorPort T}
    (self : ProcessDocument A T) (w : env) (uuid4 : string) (elapsed : Q)
    (pdf_path : list string) (fs : FS)
  : result Models.Document * (A * FS) :=
  match ExtractDocumentTextUseCase.execute (extract_text_use_case self)
          w pdf_path with
  | (Return (extracted_text, confidence), ocr) =>
      match ExtractTablesUseCase.execute (extract_tables_use_case self)
              pdf_path with
      | Return tables =>
          let doc_name := stem pdf_path in
          match SaveDocumentUseCase.execute (save_document_use_case self)
                  uuid4 doc_name extracted_text tables pdf_path fs with
          | (Return (output_dir, generated_files), fs) =>
              match name_of output_dir with
              | Return unique_name =>
                  (Return
                     (Models.mkDocument unique_name (str pdf_path)
                        extracted_text tables (Some confidence) output_dir
                        (Some generated_files) (Some elapsed)),
                   (ocr, fs))
              | Raise e => (Raise e, (ocr, fs))
              | OutOfFuel => (OutOfFuel, (ocr, fs))
              end
          | (Raise e, fs) => (Raise e, (ocr, fs))
          | (OutOfFuel, fs) => (OutOfFuel, (ocr, fs))
          end
      | Raise e => (Raise e, (ocr, fs))
      | OutOfFuel => (OutOfFuel, (ocr, fs))
      end
  | (Raise e, ocr) => (Raise e, (ocr, fs))
  | (OutOfFuel, ocr) => (OutOfFuel, (ocr, fs))
  end.

Definition execute {A T} `{OCRPort A} `{TableExtractorPort T}
    (self : ProcessDocument A T) (w : env) (uuid4 : string) (elapsed : Q)
    (pdf_path : list string) (fs : FS)
  : result Models.Document * (A * FS) :=
  wrap_run ("Error procesando " ++ str pdf_path ++ ": ")
    (execute_body self w uuid4 elapsed pdf_path fs).

End ProcessDocument.

End UseCases.

(** ** application/services/document_processor.py *)

Module DocumentProcessor.
Import Py Fs Cv Ports UseCases.

Record DocumentProcessor (A T : Type) : Type := __init__ {
  ocr : A;
  table_extractor : T;
  storage : FileStorage.FileStorage
}.
Arguments __init__ {A T} _ _ _.
Arguments ocr {A T} _.
Arguments table_extractor {A T} _.
Arguments storage {A T} _.

(** The [try] body of [process]. *)
Definition process_body {A T} `{OCRPort A} `{TableExtractorPort T}
    (self : DocumentProcessor A T) (w : env) (uuid4 : string)
    (pdf_path : list string) (fs : FS)
  : result Models.Document * (A * FS) :=
  match port_extract_text (ocr self) w pdf_path with
  | (Return text, ocr) =>
      match port_get_confidence ocr with
      | (Return confidence, ocr) =>
          match port_extract_tables (table_extractor self) pdf_path with
          | Return tables =>
              let doc_name := stem pdf_path in
              match FileStorage.save (storage self) uuid4 doc_name text
                      tables pdf_path fs with
              | (Return (output_dir, generated_files), fs) =>
                  match name_of output_dir with
                  | Return unique_name =>
                      (Return
                         (Models.mkDocument unique_name (str pdf_path)
                            text tables (Some confidence) output_dir
                            (Some generated_files) None),
                       (ocr, fs))
                  | Raise e => (Raise e, (ocr, fs))
                  | OutOfFuel => (OutOfFuel, (ocr, fs))
                  end
              | (Raise e, fs) => (Raise e, (ocr, fs))
              | (OutOfFuel, fs) => (OutOfFuel, (ocr, fs))
              end
          | Raise e => (Raise e, (ocr, fs))
          | OutOfFuel => (OutOfFuel, (ocr, fs))
          end
      | (Raise e, ocr) => (Raise e, (ocr, fs))
      | (OutOfFuel, ocr) => (OutOfFuel, (ocr, fs))
      end
  | (Raise e, ocr) => (Raise e, (ocr, fs))
  | (OutOfFuel, ocr) => (OutOfFuel, (ocr, fs))
  end.

Definition process {A T} `{OCRPort A} `{TableExtractorPort T}
    (self : DocumentProcessor A T) (w : env) (uuid4 : string)
    (pdf_path : list string) (fs : FS)
  : result Models.Document * (A * FS) :=
  wrap_run "Error procesando documento: "
    (process_body self w uuid4 pdf_path fs).

End DocumentProcessor.

(** ** The classification rules, in the words of the specification *)

Module ClassifierSpec.
Import Py PdfAnalyzer.







End ClassifierSpec.


(** ** The recognition adapters, side by side *)

Module OcrSpec.
Import Py Cv.

(** The repository has two pairs of recognition adapters: the pair the
    factory wires ([adapters/ocr/]) and the pair of [ocr_adapters.py]. *)
Inductive recognition_adapter : Type :=
| Wired (a : AdapterFactory.ocr_adapter)
| LegacyBasic (a : OcrAdapters.TesseractAdapter.TesseractAdapter)
| LegacyOpenCV (a : OcrAdapters.TesseractOpenCVAdapter.TesseractOpenCVAdapter).

Definition extract_text_of (x : recognition_adapter) (w : env)
    (pdf_path : list string) : result string :=
  match x with
  | Wired a => fst (AdapterFactory.adapter_extract_text a w pdf_path)
  | LegacyBasic a => OcrAdapters.TesseractAdapter.extract_text a w pdf_path
  | LegacyOpenCV a =>
      OcrAdapters.TesseractOpenCVAdapter.extract_text a w pdf_path
  end.

Definition dpi_of (x : recognition_adapter) : Z :=
  match x with
  | Wired a => AdapterFactory.adapter_dpi a
  | LegacyBasic a => OcrAdapters.TesseractAdapter.dpi a
  | LegacyOpenCV a => OcrAdapters.TesseractOpenCVAdapter.dpi a
  end.

(** What an adapter does with one page: preprocess it, if it is a
    preprocessing adapter, and hand it to the engine. *)
Definition recognize_page (x : recognition_adapter) (w : env)
    (image : Cv.image) : result string :=
  match x with
  | Wired (AdapterFactory.Basic a) =>
      image_to_string w image (Ocr.TesseractAdapter.lang a)
  | Wired (AdapterFactory.OpenCV a) =>
      processed ← fst (Ocr.TesseractOpenCVAdapter._preprocess_image a image);
      image_to_string w processed (Ocr.TesseractOpenCVAdapter.lang a)
  | LegacyBasic a =>
      image_to_string w image (OcrAdapters.TesseractAdapter.lang a)
  | LegacyOpenCV a =>
      image_to_string w
        (OcrAdapters.TesseractOpenCVAdapter._preprocess_image a w image)
        (OcrAdapters.TesseractOpenCVAdapter.lang a)
  end.

(** The exception a caller of [extract_text] sees when [e] was raised
    inside: the wired adapters wrap it, the others let it through. *)
Definition surfaced (x : recognition_adapter) (e : exn) : exn :=
  match x with
  | Wired (AdapterFactory.Basic _) =>
      mkExn ProcessingError ("Error en OCR básico: " ++ exn_str e)
  | Wired (AdapterFactory.OpenCV _) =>
      mkExn ProcessingError ("Error en OCR con OpenCV: " ++ exn_str e)
  | LegacyBasic _ => e
  | LegacyOpenCV _ => e
  end.

(** Rasterization fails, or it succeeds and some page is the first one
    whose recognition fails. *)
Definition fails_with (x : recognition_adapter) (w : env)
    (pdf_path : list string) (e : exn) : Prop :=
  convert_from_path w pdf_path (dpi_of x) = Raise e
  \/ exists before image after texts,
       convert_from_path w pdf_path (dpi_of x)
       = Return (before ++ image :: after)%list
       /\ Forall2 (fun im t => recognize_page x w im = Return t) before texts
       /\ recognize_page x w image = Raise e.

End OcrSpec.

(** ** Skew estimation and the preprocessing stages, in the words of the
    specification *)

Module PreprocessSpec.
Import Py Cv OcrAdapters OcrAdapters.TesseractOpenCVAdapter.

(** The angle a detected line reports, if the line is well formed. *)
Definition theta_of (line : list (list spec_float)) : option spec_float :=
  match line with
  | [rho; theta] :: _ => Some theta
  | _ => None
  end.

(** The line transform reports the direction of a line's normal, in
    radians; the deviation of the line from the horizontal is that
    direction in degrees, less 90.  NumPy computes it in the format [f]
    of its scalars. *)
Definition deviation (f : Ieee.format) (theta : spec_float) : spec_float :=
  let degrees :=
    Ieee.div f (Ieee.mul f theta (Ieee.of_Z f 180))
      (Ieee.round f (S754_finite false 7074237752028440 (-51))) in
  Ieee.sub f degrees (Ieee.of_Z f 90).

Definition below_45 (f : Ieee.format) (angle : spec_float) : bool :=
  SFltb (SFabs angle) (Ieee.of_Z f 45).

(** At most 10 lines are looked at; each angle is converted to a deviation
    from the horizontal; only deviations below 45 degrees survive. *)
Definition surviving_angles (f : Ieee.format)
    (lines : list (list (list spec_float))) : list spec_float :=
  List.filter (below_45 f)
    (map (deviation f) (omap theta_of (firstn 10 lines))).

(** The median of a list: the middle one of its values put in ascending
    order, or the mean of the two middle ones. *)
Definition ascending (s : list spec_float) : Prop :=
  Sorted (fun a b => SFleb a b = true) s.

Definition middle (f : Ieee.format) (s : list spec_float) : spec_float :=
  let n := List.length s in
  if Nat.even n
  then Ieee.div f
         (Ieee.add f (nth (n / 2 - 1)%nat s S754_nan)
                     (nth (n / 2)%nat s S754_nan))
         (Ieee.of_Z f 2)
  else nth (n / 2)%nat s S754_nan.

Definition is_median (f : Ieee.format) (angles : list spec_float)
    (m : spec_float) : Prop :=
  exists s, Permutation s angles /\ ascending s /\ m = middle f s.

(** More than half a degree, either way. *)
Definition exceeds_half (f : Ieee.format) (skew : spec_float) : bool :=
  SFltb (Ieee.round f (S754_finite false 1 (-1))) (SFabs skew).

(** Rotation about the center, cubic interpolation, replicated border. *)
Definition rotated (image : Cv.image) (h w : nat) (angle : spec_float)
  : Cv.image :=
  warpAffine image ((Z.of_nat w / 2)%Z, (Z.of_nat h / 2)%Z) angle 1
    (Z.of_nat w, Z.of_nat h) INTER_CUBIC BORDER_REPLICATE.

(** [out] is what skew correction owes for [image]: the image rotated by
    the median of the surviving angles when that exceeds half a degree;
    the image as it came when no line survives, when the median is
    small, or when any step raises. *)
Definition skew_corrected (w : env) (image out : Cv.image) : Prop :=
  let f := scalar_format w in
  match Canny w image 50 150 3 with
  | Return edges =>
      match
        HoughLines w edges 1
          (Ieee.div Ieee.binary64
             (S754_finite false 7074237752028440 (-51))
             (Ieee.of_Z Ieee.binary64 180)) 100
      with
      | Return (Some lines) =>
          match surviving_angles f lines with
          | [] => out = image
          | _ :: _ =>
              exists skew,
                is_median f (surviving_angles f lines) skew
                /\ if exceeds_half f skew then
                     match shape image, warpAffine_error w image with
                     | [h; wd], None => out = rotated image h wd skew
                     | _, _ => out = image
                     end
                   else out = image
          end
      | _ => out = image
      end
  | _ => out = image
  end.

(** The primitives a page image goes through, in order; [turned] tells
    whether the deskew stage found a skew worth rotating. *)
Definition expected_stages (deskew denoise contrast turned : bool)
  : list primitive :=
  ([P_cvtColor]
   ++ (if denoise then [P_bilateralFilter] else [])
   ++ (if contrast then [P_CLAHE] else [])
   ++ (if deskew && turned then [P_warpAffine] else [])
   ++ [P_adaptiveThreshold; P_morph MORPH_CLOSE; P_morph MORPH_OPEN])%list.

(** The same as a composition of stages. *)
Definition staged (deskew denoise contrast : bool) (w : env)
    (image : Cv.image) : Cv.image :=
  let gray := cvtColor_RGB2GRAY image in
  let denoised := if denoise then bilateralFilter gray 9 75 75 else gray in
  let enhanced :=
    if contrast then CLAHE_apply 2 (8%Z, 8%Z) denoised else denoised in
  let deskewed := if deskew then _correct_skew w enhanced else enhanced in
  let binary := adaptiveThreshold_GAUSSIAN_BINARY deskewed 255 11 2 in
  morphologyEx (morphologyEx binary MORPH_CLOSE (1%nat, 1%nat))
    MORPH_OPEN (1%nat, 1%nat).

End PreprocessSpec.

(** ** Concrete scenarios used to exercise the theorems *)

Module Scenarios.
Import Py PdfAnalyzer Fs Cv.

(** A file with no pages for pdfplumber, while PyMuPDF still sees a page
    carrying two images. *)
Definition empty_pdf_readers : readers :=
  mkReaders (fun _ => Return [])
            (fun _ => Return [mkFitzPage [1%nat; 2%nat] ["Helvetica"]]).

(** A two-page file: one page of text with a table, one blank page; PyMuPDF
    sees three images and one font. *)
Definition two_page_readers : readers :=
  mkReaders
    (fun _ => Return [mkPlumberPage (Some "Estimado cliente")
                        (Some [[["a"; "b"]]]);
                      mkPlumberPage (Some "   ") None])
    (fun _ => Return [mkFitzPage [1%nat; 2%nat] ["Helvetica"];
                      mkFitzPage [3%nat] []]).

(** The metrics of that file. *)
Definition two_page_metrics : PDFMetrics :=
  mkMetrics 2 1 16 3 1 8 true (3 # 2) (1 # 2).

(** An output root [resultado] that holds nothing yet. *)
Definition reports_storage : FileStorage.FileStorage :=
  FileStorage.mkFileStorage ["resultado"].

(** The first bytes of a PDF file. *)
Definition pdf_bytes : content := Bytes [37; 80; 68; 70; 45]%nat.

Definition reports_root : FS :=
  {[ ["resultado"] := Dir;
     ["pdfs"] := Dir;
     ["pdfs"; "informe.pdf"] := File pdf_bytes ]}.

(** The input directory alone, before any storage was set up. *)
Definition pdfs_only : FS :=
  {[ ["pdfs"] := Dir;
     ["pdfs"; "informe.pdf"] := File pdf_bytes ]}.

(** The same root after a document named [informe] was stored in it. *)
Definition taken_root : FS :=
  {[ ["resultado"] := Dir;
     ["resultado"; "informe"] := Dir;
     ["pdfs"] := Dir;
     ["pdfs"; "informe.pdf"] := File pdf_bytes ]}.

(** A two-page letter-size scan at [pdfs/informe.pdf]; any other path is
    rejected by the rasterizer.  The engine reads every page, the line
    detector finds nothing. *)
Definition informe_pdf : list string := ["pdfs"; "informe.pdf"].

Definition office_env : env :=
  mkEnv
    (fun pdf_path _ =>
       if decide (pdf_path = informe_pdf)
       then Return [Page [3300; 2550; 3]%nat 1; Page [3300; 2550; 3]%nat 2]
       else Raise (mkExn (Builtin "PDFPageCountError")
                     "Unable to get page count."))
    (fun _ _ => Return "Estimado cliente")
    (fun image _ _ _ => Return image)
    (fun _ _ _ _ => Return None)
    (fun _ => None)
    Ieee.binary32
    (Return ["eng"; "spa"])
    (Return "5.3.0")
    "4.8.0".

Definition basic_adapter : AdapterFactory.ocr_adapter :=
  AdapterFactory.Basic (Ocr.TesseractAdapter.__init__ "spa" 300).

Definition opencv_adapter : AdapterFactory.ocr_adapter :=
  AdapterFactory.OpenCV (Ocr.TesseractOpenCVAdapter.__init__ "spa" 300).

(** The collaborators as the factory wires them. *)
Definition basic_pipeline
  : UseCases.ProcessDocument.ProcessDocument AdapterFactory.ocr_adapter
      TableSimple.SimpleTableAdapter :=
  UseCases.ProcessDocument.__init__ basic_adapter
    AdapterFactory.create_table_extractor reports_storage.

Definition opencv_pipeline
  : UseCases.ProcessDocument.ProcessDocument AdapterFactory.ocr_adapter
      TableSimple.SimpleTableAdapter :=
  UseCases.ProcessDocument.__init__ opencv_adapter
    AdapterFactory.create_table_extractor reports_storage.

(** The document a run on [informe.pdf] returns when [informe] is taken. *)
Definition informe_01_document : Models.Document :=
  Models.mkDocument "informe_01" "pdfs/informe.pdf"
    ("Estimado cliente" ++ String "010" (String "010" "Estimado cliente"))
    [] (Some 0%Q) (Some ["resultado"; "informe_01"])
    (Some [ ["resultado"; "informe_01"; "informe_01_texto.txt"];
            ["resultado"; "informe_01"; "informe_01_original.pdf"];
            ["resultado"; "informe_01"; "informe_01_metadata.json"] ])
    (Some 2%Q).

(** The entity storage is handed for [informe.pdf], and the files it
    writes when [informe] is taken. *)
Definition informe_entity : Entities.Document :=
  Entities.Document_init "7f3c" "informe" "Estimado cliente" []
    (Some informe_pdf).

Definition informe_01_files : list (list string) :=
  [ ["resultado"; "informe_01"; "informe_01_texto.txt"];
    ["resultado"; "informe_01"; "informe_01_original.pdf"];
    ["resultado"; "informe_01"; "informe_01_metadata.json"] ].

(** The document a run on [informe.pdf] returns when nothing is stored
    yet. *)
Definition informe_document : Models.Document :=
  Models.mkDocument "informe" "pdfs/informe.pdf"
    ("Estimado cliente" ++ String "010" (String "010" "Estimado cliente"))
    [] (Some 0%Q) (Some ["resultado"; "informe"])
    (Some [ ["resultado"; "informe"; "informe_texto.txt"];
            ["resultado"; "informe"; "informe_original.pdf"];
            ["resultado"; "informe"; "informe_metadata.json"] ])
    (Some 2%Q).

(** A document that has no text yet. *)
Definition blank_document : Models.Document :=
  Models.mkDocument "informe" "pdfs/informe.pdf" "" [] None None None None.

(** The output root after [informe.pdf] was stored next to [informe]. *)
Definition stored_root : FS :=
  snd (FileStorage.save_document reports_storage informe_entity taken_root).

(** Readers asked for a file that is not there. *)
Definition missing_file_error : exn :=
  mkExn (Builtin "FileNotFoundError")
    "[Errno 2] No such file or directory: 'no_such.pdf'".

Definition missing_file_readers : readers :=
  mkReaders (fun _ => Raise missing_file_error)
            (fun _ => Raise missing_file_error).

Definition no_such_pdf : list string := ["pdfs"; "no_such.pdf"].

(** The three public calls made on a fresh adapter, twice over. *)
Definition busy_calls : list AdapterFactory.call :=
  [AdapterFactory.call_extract_text informe_pdf;
   AdapterFactory.call_get_engine_info;
   AdapterFactory.call_extract_text no_such_pdf;
   AdapterFactory.call_get_confidence;
   AdapterFactory.call_get_supported_languages].

(** The same scan read by an engine that gives up on the second page. *)
Definition tesseract_error : exn :=
  mkExn (Builtin "TesseractError") "(1, 'Error opening data file')".

Definition first_page : image := Page [3300; 2550; 3]%nat 1.
Definition second_page : image := Page [3300; 2550; 3]%nat 2.

Definition broken_engine_env : env :=
  mkEnv
    (fun _ _ => Return [first_page; second_page])
    (fun image _ =>
       match image with
       | Page _ 1 => Return "Estimado cliente"
       | _ => Raise tesseract_error
       end)
    (fun image _ _ _ => Return image)
    (fun _ _ _ _ => Return None)
    (fun _ => None)
    Ieee.binary32
    (Return ["eng"; "spa"])
    (Return "5.3.0")
    "4.8.0".

(** The direction of [k] degrees as the line detector reports it: in
    radians, in single precision. *)
Definition theta_deg (k : Z) : spec_float :=
  Ieee.round Ieee.binary32
    (Ieee.div Ieee.binary64
       (Ieee.mul Ieee.binary64 (Ieee.of_Z Ieee.binary64 k) np_pi)
       (Ieee.of_Z Ieee.binary64 180)).

Definition rho (n : Z) : spec_float := Ieee.of_Z Ieee.binary32 n.

(** A page scanned two degrees off: the line detector reports three text
    lines at 91, 92 and 93 degrees from the vertical, one malformed entry
    and the page border at 170 degrees. *)
Definition skewed_lines : list (list (list spec_float)) :=
  [ [[rho 100; theta_deg 92]]; [[rho 250; theta_deg 93]]; [[rho 7]];
    [[rho 400; theta_deg 91]]; [[rho 12; theta_deg 170]] ].

Definition skewed_env : env :=
  mkEnv
    (fun _ _ => Return [first_page])
    (fun _ _ => Return "Estimado cliente")
    (fun image _ _ _ => Return image)
    (fun _ _ _ _ => Return (Some skewed_lines))
    (fun _ => None)
    Ieee.binary32
    (Return ["eng"; "spa"])
    (Return "5.3.0")
    "4.8.0".

(** A page whose only detected line runs along the diagonal, read with
    NumPy 2 and with an earlier NumPy. *)
Definition diagonal_env (f : Ieee.format) : env :=
  mkEnv
    (fun _ _ => Return [first_page])
    (fun _ _ => Return "Estimado cliente")
    (fun image _ _ _ => Return image)
    (fun _ _ _ _ => Return (Some [ [[rho 100; theta_deg 45]] ]))
    (fun _ => None)
    f
    (Return ["eng"; "spa"])
    (Return "5.3.0")
    "4.8.0".

(** The adapter of [ocr_adapters.py] with every flag on, and the adapter
    the factory wires. *)
Definition full_preprocessing
  : OcrAdapters.TesseractOpenCVAdapter.TesseractOpenCVAdapter :=
  OcrAdapters.TesseractOpenCVAdapter.mkTesseractOpenCVAdapter "spa" 300
    true true true.

Definition wired_opencv
  : Ocr.TesseractOpenCVAdapter.TesseractOpenCVAdapter :=
  Ocr.TesseractOpenCVAdapter.__init__ "spa" 300.

End Scenarios.


(** ** Python dictionaries kept as association lists *)

Module PyDict.
Import Py.

(** [d.get(key)]: the value of the first entry with that key. *)
Definition dict_get {K V : Type} `{EqDecision K} (d : list (K * V)) (k : K)
  : option V :=
  snd <$> List.find (fun kv => bool_decide (fst kv = k)) d.

(** [key in d]. *)
Definition dict_contains {K V : Type} `{EqDecision K} (d : list (K * V))
    (k : K) : bool :=
  bool_decide (is_Some (dict_get d k)).

(** [d[key]], which raises [KeyError] on a missing key. *)
Definition dict_item {K V : Type} `{EqDecision K} (d : list (K * V)) (k : K)
    (repr : string) : result V :=
  match dict_get d k with
  | Some v => Return v
  | None => Raise (mkExn (Builtin "KeyError") repr)
  end.

End PyDict.

(** ** pdf_analyzer.py: pages with extractable text *)

Module PageText.
Import Py PdfAnalyzer.


End PageText.

(** ** pdf_analyzer.py: the configuration recommended for a type *)

Module OptimalConfig.
Import Py PyDict PdfAnalyzer.

#[global] Instance PDFType_eq_dec : EqDecision PDFType.
Proof. solve_decision. Defined.

(** A value of the [configs] table. *)
Record config : Type := mkConfig {
  engine_type : string;
  enable_deskewing : bool;
  enable_denoising : bool;
  enable_contrast_enhancement : bool;
  dpi : Z;
  strategy : string
}.

Definition configs : list (PDFType * config) :=
  [ (SCANNED, mkConfig "opencv" true true true 300 "full_ocr");
    (NATIVE_TEXT, mkConfig "basic" false false false 150 "text_extraction");
    (MIXED, mkConfig "opencv" true false true 250 "hybrid");
    (TABLE_HEAVY, mkConfig "opencv" false true true 300 "table_focused");
    (IMAGE_HEAVY, mkConfig "opencv" true true true 300 "image_focused") ].

(** [configs.get(pdf_type, configs[PDFType.MIXED])]; the default is
    evaluated before the lookup. *)
Definition get_optimal_config (pdf_type : PDFType) : result config :=
  fallback ← dict_item configs MIXED "<PDFType.MIXED: 'mixed'>";
  Return (default fallback (dict_get configs pdf_type)).

(** The [SystemConfig] fields a caller fills from a recommendation. *)
Definition system_config_of (language : string) (c : config)
  : AdapterFactory.SystemConfig :=
  AdapterFactory.mkSystemConfig language (dpi c) (engine_type c).

End OptimalConfig.

(** ** infrastructure/config/system_config.py *)

Module Config.
Import Py Fs PyDict.

Definition DEFAULT_LANGUAGE : string := "spa".
Definition DEFAULT_DPI : Z := 300.
Definition DEFAULT_CONFIDENCE_THRESHOLD : Q := 60.

(** A value of [QUALITY_PROFILES]. *)
Record profile : Type := mkProfile {
  profile_dpi : Z;
  profile_confidence_threshold : Q;
  profile_engine_type : string
}.

Definition QUALITY_PROFILES : list (string * profile) :=
  [ ("fast", mkProfile 150 50 AdapterFactory.ENGINE_TYPE_BASIC);
    ("balanced", mkProfile 300 60 AdapterFactory.ENGINE_TYPE_BASIC);
    ("high", mkProfile 600 80 AdapterFactory.ENGINE_TYPE_BASIC) ].

(** The dataclass with all its fields. *)
Record SystemConfig : Type := mkSystemConfig {
  language : string;
  dpi : Z;
  confidence_threshold : Q;
  engine_type : string;
  output_dir : list string;
  temp_dir : list string;
  quality_profile : string
}.

(** [__post_init__]: both directories are created, the output directory
    first. *)
Definition __post_init__ (self : SystemConfig) (fs : FS)
  : result SystemConfig * FS :=
  match mkdir (output_dir self) fs with
  | (Return _, fs) =>
      match mkdir (temp_dir self) fs with
      | (Return _, fs) => (Return self, fs)
      | (Raise e, fs) => (Raise e, fs)
      | (OutOfFuel, fs) => (OutOfFuel, fs)
      end
  | (Raise e, fs) => (Raise e, fs)
  | (OutOfFuel, fs) => (OutOfFuel, fs)
  end.

Definition from_quality_profile (profile_name : string) (fs : FS)
  : result SystemConfig * FS :=
  if negb (dict_contains QUALITY_PROFILES profile_name) then
    (Raise (mkExn (Builtin "ValueError")
              ("Perfil no válido: " ++ profile_name)), fs)
  else
    match dict_item QUALITY_PROFILES profile_name profile_name with
    | Return profile =>
        __post_init__
          (mkSystemConfig DEFAULT_LANGUAGE (profile_dpi profile)
             (profile_confidence_threshold profile)
             (profile_engine_type profile)
             ["resultado"] ["temp"] profile_name) fs
    | Raise e => (Raise e, fs)
    | OutOfFuel => (OutOfFuel, fs)
    end.

(** What [os.mkdir] raises for a name that a regular file has. *)
Definition file_exists_error (name : string) : exn :=
  mkExn (Builtin "FileExistsError")
    ("[Errno 17] File exists: '" ++ name ++ "'").

(** What the factory reads of a configuration. *)
Definition factory_view (config : SystemConfig)
  : AdapterFactory.SystemConfig :=
  AdapterFactory.mkSystemConfig (language config) (dpi config)
    (engine_type config).

End Config.

(** ** The remaining methods of the wired adapters, by dispatch *)

Module OcrPortCalls.
Import Py Cv AdapterFactory.

Definition adapter_get_engine_info (a : ocr_adapter) (w : env)
  : list (string * Ocr.info_value) * ocr_adapter :=
  match a with
  | Basic a =>
      let '(info, a) := Ocr.TesseractAdapter.get_engine_info a w in
      (info, Basic a)
  | OpenCV a =>
      let '(info, a) := Ocr.TesseractOpenCVAdapter.get_engine_info a w in
      (info, OpenCV a)
  end.

Definition adapter_get_supported_languages (a : ocr_adapter) (w : env)
  : list string * ocr_adapter :=
  match a with
  | Basic a =>
      let '(langs, a) :=
        Ocr.TesseractAdapter.get_supported_languages a w in
      (langs, Basic a)
  | OpenCV a =>
      let '(langs, a) :=
        Ocr.TesseractOpenCVAdapter.get_supported_languages a w in
      (langs, OpenCV a)
  end.

End OcrPortCalls.

(** ** What a saved document looks like on disk *)

Module StorageSpec.
Import Py Fs FileStorage.

(** The working directory always exists; any other directory is an entry
    of the file system. *)
Definition is_directory (fs : FS) (p : list string) : Prop :=
  p = [] \/ fs !! p = Some Dir.

(** Every entry lies in a directory. *)
Definition well_formed (fs : FS) : Prop :=
  forall q, is_Some (fs !! q) -> is_directory fs (parent q).

Definition is_directoryb (fs : FS) (p : list string) : bool :=
  match p with
  | [] => true
  | _ => match fs !! p with Some Dir => true | _ => false end
  end.

Definition well_formedb (fs : FS) : bool :=
  forallb (fun q => is_directoryb fs (parent q)) (elements (dom fs)).

(** The allocation once its loop has chosen [d]: the directory is made,
    unless [mkdir] raises. *)
Definition allocation_outcome (d : list string) (fs : FS)
  : result (list string) * FS :=
  match mkdir d fs with
  | (Return _, fs) => (Return d, fs)
  | (Raise e, fs) => (Raise e, fs)
  | (OutOfFuel, fs) => (OutOfFuel, fs)
  end.

(** How an allocation that is over shows in the run of its calls. *)
Definition finished (r : result (list string)) : allocation -> Prop :=
  match r with
  | Return d => fun a => a = Returned d
  | Raise e => fun a => a = Raised e
  | OutOfFuel => fun _ => False
  end.

(** The calls of one run after the other: all of the first run's, then
    all of the second's. *)
Definition one_after_the_other (n1 n2 : nat) : list turn :=
  (repeat First n1 ++ repeat Second n2)%list.

(** The four files of a document directory. *)
Definition text_file (d : list string) : list string :=
  div d (name d ++ "_texto.txt").
Definition tables_file (d : list string) : list string :=
  div d (name d ++ "_tablas.json").
Definition pdf_copy (d : list string) : list string :=
  div d (name d ++ "_original.pdf").
Definition metadata_file (d : list string) : list string :=
  div d (name d ++ "_metadata.json").

(** The [metadata] dictionary [save_document] dumps. *)
Definition metadata_of (document : Entities.Document) : metadata :=
  mkMetadata (Some (Entities.id document))
    (Entities.name document)
    (len (Entities.text document))
    (Z.of_nat (List.length (Entities.tables document)))
    (Entities.confidence document)
    (Entities.processing_time document).

(** The directory [d] once the text and the tables have been written. *)
Definition staged_fs (d : list string) (document : Entities.Document)
    (fs : FS) : FS :=
  let fs :=
    write (text_file d) (Text (Entities.text document)) (ensure_dirs d fs) in
  if decide (Entities.tables document = []) then fs
  else write (tables_file d) (TablesJson (Entities.tables document)) fs.

Definition staged_files (d : list string) (document : Entities.Document)
  : list (list string) :=
  if decide (Entities.tables document = []) then [text_file d]
  else [text_file d; tables_file d].

(** [save_document] from the point where the directory [d] is known. *)
Definition save_outcome (d : list string) (document : Entities.Document)
    (fs : FS) : result (list (list string)) * FS :=
  let fs1 := staged_fs d document fs in
  let finish (gf : list (list string)) (fs2 : FS) :=
    (Return (gf ++ [metadata_file d])%list,
     write (metadata_file d) (MetadataJson (metadata_of document)) fs2) in
  match Entities.source_path document with
  | Some pdf_path =>
      match fs1 !! pdf_path with
      | Some (File c) =>
          finish (staged_files d document ++ [pdf_copy d])%list
            (write (pdf_copy d) c fs1)
      | Some Dir =>
          (Raise (mkExn (Builtin "IsADirectoryError") "Is a directory"),
           fs1)
      | None => finish (staged_files d document) fs1
      end
  | None => finish (staged_files d document) fs1
  end.

(** [save_document] once the loop has chosen [d]. *)
Definition save_at (d : list string) (document : Entities.Document)
    (fs : FS) : result (list (list string)) * FS :=
  match mkdir d fs with
  | (Return _, _) => save_outcome d document fs
  | (Raise e, fs) => (Raise e, fs)
  | (OutOfFuel, fs) => (OutOfFuel, fs)
  end.

(** A root at which a regular file has the name of the document. *)
Definition name_taken_by_file : FS :=
  {[ ["resultado"] := Dir;
     ["resultado"; "informe"] := File (Text "notas") ]}.

End StorageSpec.

(** ** Runs of the orchestrators, described *)

Module PipelineSpec.
Import Py Fs Cv Ports.

(** The steps before storage end in the exception [e], leaving the adapter
    [ocr']: recognition raises, or the confidence query raises, or table
    extraction raises. *)
Definition extraction_raises {A T : Type} `{OCRPort A}
    `{TableExtractorPort T} (ocr0 : A) (te : T) (w : env)
    (pdf_path : list string) (e : exn) (ocr' : A) : Prop :=
  port_extract_text ocr0 w pdf_path = (Raise e, ocr')
  \/ (exists text ocr1,
        port_extract_text ocr0 w pdf_path = (Return text, ocr1)
        /\ port_get_confidence ocr1 = (Raise e, ocr'))
  \/ (exists text ocr1 confidence,
        port_extract_text ocr0 w pdf_path = (Return text, ocr1)
        /\ port_get_confidence ocr1 = (Return confidence, ocr')
        /\ port_extract_tables te pdf_path = Raise e).

(** A document with its [processing_time] attribute set or left unset. *)
Definition with_processing_time (d : Models.Document) (t : option Q)
  : Models.Document :=
  Models.mkDocument (Models.name d) (Models.source_path d)
    (Models.extracted_text d) (Models.tables d) (Models.confidence d)
    (Models.output_directory d) (Models.generated_files d) t.

End PipelineSpec.

(** ** JSON values *)

Module Json.
Import Py Fs PyDict.

(** What [json.load] returns.  No induction over these values is needed,
    so no scheme is generated for the nested type. *)
#[local] Unset Elimination Schemes.
Inductive json : Type :=
| JNull
| JBool (b : bool)
| JInt (n : Z)
| JFloat (q : Q)
| JStr (s : string)
| JList (items : list json)
| JDict (entries : list (string * json)).
#[local] Set Elimination Schemes.

(** The truth value of a loaded value, as [x or default] tests it. *)
Definition truthy (v : json) : bool :=
  match v with
  | JNull => false
  | JBool b => b
  | JInt n => negb (n =? 0)%Z
  | JFloat q => negb (Qeq_bool q 0)
  | JStr s => negb (String.eqb s "")
  | JList items => match items with [] => false | _ => true end
  | JDict entries => match entries with [] => false | _ => true end
  end.

(** [key in v]. *)
Definition contains_key (v : json) (key : string) : result bool :=
  match v with
  | JDict entries => Return (dict_contains entries key)
  | JList items =>
      Return (existsb
                (fun x => match x with
                          | JStr s => String.eqb s key
                          | _ => false
                          end) items)
  | JStr s => Return (contains key s)
  | _ => Raise (mkExn (Builtin "TypeError") "argument is not iterable")
  end.

(** [v[key]] for a string key. *)
Definition subscript (v : json) (key : string) : result json :=
  match v with
  | JDict entries => dict_item entries key ("'" ++ key ++ "'")
  | JList _ =>
      Raise (mkExn (Builtin "TypeError")
               "list indices must be integers or slices, not str")
  | JStr _ =>
      Raise (mkExn (Builtin "TypeError")
               "string indices must be integers, not 'str'")
  | _ => Raise (mkExn (Builtin "TypeError") "object is not subscriptable")
  end.

(** The values [save_document] dumps, as [json.load] gives them back. *)
Definition of_option_str (o : option string) : json :=
  match o with Some s => JStr s | None => JNull end.

Definition of_option_float (o : option Q) : json :=
  match o with Some q => JFloat q | None => JNull end.

Definition of_tables (tables : list table) : json :=
  JList (map (fun t => JList (map (fun row => JList (map JStr row)) t))
           tables).

Definition of_metadata (md : metadata) : json :=
  JDict [ ("id", of_option_str (md_id md));
          ("name", JStr (md_name md));
          ("text_length", JInt (md_text_length md));
          ("tables_count", JInt (md_tables_count md));
          ("confidence", of_option_float (md_confidence md));
          ("processing_time", of_option_float (md_processing_time md)) ].

End Json.

(** ** file_storage.py: reading a stored document back *)

Module FileStorageRead.
Import Py Fs PyDict Json FileStorage.

(** What the standard library does with content this module did not
    write in the expected form: parsing a text as JSON, reading JSON or
    bytes as text, and matching a pattern that has wildcards against the
    entries of a directory. *)
Record io : Type := mkIo {
  json_loads : string -> result json;
  read_text : content -> result string;
  wildcard_glob : FS -> list string -> string -> list (list string)
}.

Definition is_dir (fs : FS) (p : list string) : bool :=
  match fs !! p with Some Dir => true | _ => false end.

(** [open(p, "r")]. *)
Definition open_read (fs : FS) (p : list string) : result content :=
  match fs !! p with
  | Some (File c) => Return c
  | Some Dir =>
      Raise (mkExn (Builtin "IsADirectoryError") "Is a directory")
  | None =>
      Raise (mkExn (Builtin "FileNotFoundError") "No such file or directory")
  end.

(** [json.load(f)]: a value dumped by [json.dump] comes back as it was. *)
Definition json_load (lib : io) (c : content) : result json :=
  match c with
  | MetadataJson md => Return (of_metadata md)
  | TablesJson tables => Return (of_tables tables)
  | Text s => json_loads lib s
  | Bytes _ => s ← read_text lib c; json_loads lib s
  end.

(** What a file opened with ["r"] and the default [newline=None] hands
    over: a carriage return, alone or before a line feed, is read as one
    line feed. *)
Fixpoint universal_newlines (s : string) : string :=
  match s with
  | EmptyString => EmptyString
  | String c rest =>
      if Ascii.eqb c "013" then
        match rest with
        | String c' rest' =>
            if Ascii.eqb c' "010"
            then String "010" (universal_newlines rest')
            else String "010" (universal_newlines rest)
        | EmptyString => String "010" EmptyString
        end
      else String c (universal_newlines rest)
  end.

(** [f.read()]: a text written by [f.write], where the line separator of
    the system is the line feed, comes back with its newlines
    translated. *)
Definition f_read (lib : io) (c : content) : result string :=
  match c with
  | Text s => Return (universal_newlines s)
  | _ => read_text lib c
  end.

Fixpoint has_char (c : ascii) (s : string) : bool :=
  match s with
  | EmptyString => false
  | String x rest => Ascii.eqb x c || has_char c rest
  end.

(** pathlib's test for a pattern with wildcards. *)
Definition has_magic (pattern : string) : bool :=
  has_char "*" pattern || has_char "?" pattern || has_char "[" pattern.

(** [list(d.glob(pattern))] for a pattern that is a file name: without
    wildcards it is the entry of that name, if there is one. *)
Definition glob (lib : io) (fs : FS) (d : list string) (pattern : string)
  : list (list string) :=
  if has_magic pattern then wildcard_glob lib fs d pattern
  else if exists_ fs (div d pattern) then [div d pattern] else [].

(** The entity as [get_document] fills it: what comes from JSON files is
    whatever JSON value they hold. *)
Record Document : Type := mkDocument {
  id : json;
  name : string;
  text : string;
  tables : json;
  confidence : json;
  processing_time : json
}.

(** [Document(name=document_id, text=text, tables=tables)]. *)
Definition Document_init (uuid4 : string) (name : string) (text : string)
    (tables : json) : Document :=
  mkDocument (JStr uuid4) name text
    (if truthy tables then tables else JList []) JNull JNull.

(** [if key in metadata: document.<key> = metadata[key]]. *)
Definition load_field (metadata : json) (key : string)
    (set : json -> Document -> Document) (document : Document)
  : result Document :=
  present ← contains_key metadata key;
  if (present : bool) then
    v ← subscript metadata key;
    Return (set v document)
  else Return document.

Definition set_id (v : json) (d : Document) : Document :=
  mkDocument v (name d) (text d) (tables d) (confidence d)
    (processing_time d).
Definition set_confidence (v : json) (d : Document) : Document :=
  mkDocument (id d) (name d) (text d) (tables d) v (processing_time d).
Definition set_processing_time (v : json) (d : Document) : Document :=
  mkDocument (id d) (name d) (text d) (tables d) (confidence d) v.

Definition get_document (self : FileStorage) (lib : io) (uuid4 : string)
    (document_id : string) (fs : FS) : result (option Document) :=
  let doc_dir := div (output_dir self) document_id in
  if negb (exists_ fs doc_dir) || negb (is_dir fs doc_dir) then Return None
  else
    let metadata_files :=
      glob lib fs doc_dir (document_id ++ "_metadata.json") in
    match metadata_files with
    | [] => Return None
    | metadata_file :: _ =>
        f ← open_read fs metadata_file;
        metadata ← json_load lib f;
        let text_files := glob lib fs doc_dir (document_id ++ "_texto.txt") in
        text ←
          match text_files with
          | [] => Return ""
          | text_file :: _ => f ← open_read fs text_file; f_read lib f
          end;
        let tables_files :=
          glob lib fs doc_dir (document_id ++ "_tablas.json") in
        tables ←
          match tables_files with
          | [] => Return (JList [])
          | tables_file :: _ => f ← open_read fs tables_file; json_load lib f
          end;
        let document := Document_init uuid4 document_id text tables in
        document ← load_field metadata "id" set_id document;
        document ← load_field metadata "confidence" set_confidence document;
        document ←
          load_field metadata "processing_time" set_processing_time document;
        Return (Some document)
    end.

(** What [get_document] answers for a document that was saved. *)
Definition stored (d : list string) (document : Entities.Document)
  : Document :=
  mkDocument (JStr (Entities.id document)) (Fs.name d)
    (universal_newlines (Entities.text document))
    (of_tables (Entities.tables document))
    (of_option_float (Entities.confidence document))
    (of_option_float (Entities.processing_time document)).

(** A library that reads nothing but what this module wrote. *)
Definition strict_io : io :=
  mkIo (fun _ => Raise (mkExn (Builtin "JSONDecodeError") "Expecting value"))
       (fun _ => Raise (mkExn (Builtin "UnicodeDecodeError") "invalid byte"))
       (fun _ _ _ => []).

End FileStorageRead.

(** ** file_storage.py: listing the stored documents *)

Module FileStorageList.
Import Py Fs PyDict Json FileStorage FileStorageRead.

(** What the operating system adds to the file system of the model: the
    order in which a directory is scanned and the modification times. *)
Record scan : Type := mkScan {
  iterdir : FS -> list string -> result (list (list string));
  st_mtime : list string -> Q
}.

(** [l.sort(key=key, reverse=True)]: descending, and stable. *)
Fixpoint insert_desc {X : Type} (key : X -> Q) (x : X) (l : list X)
  : list X :=
  match l with
  | [] => [x]
  | y :: ys =>
      if Qlt_bool (key x) (key y) then y :: insert_desc key x ys
      else x :: y :: ys
  end.

Definition sort_desc {X : Type} (key : X -> Q) (l : list X) : list X :=
  fold_right (insert_desc key) [] l.

(** [l[start:stop]] with Python's treatment of negative and oversized
    indices. *)
Definition slice {X : Type} (l : list X) (start stop : Z) : list X :=
  let n := Z.of_nat (List.length l) in
  let clamp (i : Z) := if (i <? 0)%Z then Z.max (i + n) 0 else Z.min i n in
  let a := clamp start in
  let b := clamp stop in
  take (Z.to_nat (b - a)) (drop (Z.to_nat a) l).

(** [d[key] = v] on a dictionary kept in insertion order. *)
Fixpoint dict_set {V : Type} (d : list (string * V)) (key : string) (v : V)
  : list (string * V) :=
  match d with
  | [] => [(key, v)]
  | (k, x) :: rest =>
      if String.eqb k key then (k, v) :: rest
      else (k, x) :: dict_set rest key v
  end.

(** [metadata[key] = v] on a loaded value. *)
Definition set_item (metadata : json) (key : string) (v : json)
  : result json :=
  match metadata with
  | JDict entries => Return (JDict (dict_set entries key v))
  | _ =>
      Raise (mkExn (Builtin "TypeError")
               "object does not support item assignment")
  end.

(** One iteration of the loop over the page of directories. *)
Definition document_entry (lib : io) (os : scan) (fs : FS)
    (doc_dir : list string) : result json :=
  let metadata_files :=
    glob lib fs doc_dir (Fs.name doc_dir ++ "_metadata.json") in
  match metadata_files with
  | [] =>
      Return (JDict [ ("id", JStr (Fs.name doc_dir));
                      ("name", JStr (Fs.name doc_dir));
                      ("created_at", JFloat (st_mtime os doc_dir)) ])
  | metadata_file :: _ =>
      f ← open_read fs metadata_file;
      metadata ← json_load lib f;
      set_item metadata "id" (JStr (Fs.name doc_dir))
  end.

Fixpoint entries_loop (lib : io) (os : scan) (fs : FS)
    (paginated_dirs : list (list string)) (results : list json)
  : result (list json) :=
  match paginated_dirs with
  | [] => Return results
  | doc_dir :: rest =>
      entry ← document_entry lib os fs doc_dir;
      entries_loop lib os fs rest (results ++ [entry])%list
  end.

(** The directories of the output root, newest first. *)
Definition doc_dirs (self : FileStorage) (os : scan) (fs : FS)
  : result (list (list string)) :=
  entries ← iterdir os fs (output_dir self);
  Return (sort_desc (st_mtime os) (List.filter (is_dir fs) entries)).

Definition list_documents (self : FileStorage) (lib : io) (os : scan)
    (limit offset : Z) (fs : FS) : result (list json) :=
  dirs ← doc_dirs self os fs;
  let paginated_dirs := slice dirs offset (offset + limit) in
  entries_loop lib os fs paginated_dirs [].

(** A scan that finds the two directories and one stray file of an output
    root, the directory [informe_01] being the newest. *)
Definition two_documents_scan : scan :=
  mkScan
    (fun _ _ => Return [ ["resultado"; "informe"];
                         ["resultado"; "notas.txt"];
                         ["resultado"; "informe_01"] ])
    (fun d => if decide (d = ["resultado"; "informe_01"]) then 2%Q else 1%Q).

(** The entry of [informe_01] in a listing. *)
Definition informe_01_entry : json :=
  JDict [ ("id", JStr "informe_01");
          ("name", JStr "informe");
          ("text_length", JInt 16);
          ("tables_count", JInt 0);
          ("confidence", JNull);
          ("processing_time", JNull) ].

(** The entry of [informe], a directory without metadata. *)
Definition informe_entry : json :=
  JDict [ ("id", JStr "informe");
          ("name", JStr "informe");
          ("created_at", JFloat 1%Q) ].

End FileStorageList.

(** ** application/controllers.py *)

Module Controllers.
Import Py Fs Cv Ports UseCases PyDict.

(** A value of a result dictionary, or of an attribute. *)
Inductive value : Type :=
| VNone
| VBool (b : bool)
| VInt (n : Z)
| VFloat (q : Q)
| VStr (s : string)
| VTables (tables : list table)
| VPath (p : list string)
| VPaths (ps : list (list string)).

Definition of_option {X : Type} (f : X -> value) (o : option X) : value :=
  match o with Some x => f x | None => VNone end.

(** The attributes an instance of [domain.models.Document] has when an
    orchestrator returns it: the four dataclass fields and the four that
    are attached afterwards. *)
Definition attributes (d : Models.Document) : list (string * value) :=
  [ ("name", VStr (Models.name d));
    ("source_path", VStr (Models.source_path d));
    ("extracted_text", VStr (Models.extracted_text d));
    ("tables", VTables (Models.tables d));
    ("confidence", of_option VFloat (Models.confidence d));
    ("output_directory", of_option VPath (Models.output_directory d));
    ("generated_files", of_option VPaths (Models.generated_files d));
    ("processing_time", of_option VFloat (Models.processing_time d)) ].

(** [document.<attr>]. *)
Definition getattr (d : Models.Document) (attr : string) : result value :=
  match dict_get (attributes d) attr with
  | Some v => Return v
  | None =>
      Raise (mkExn (Builtin "AttributeError")
               ("'Document' object has no attribute '" ++ attr ++ "'"))
  end.

(** [len(v)]. *)
Definition len (v : value) : result Z :=
  match v with
  | VStr s => Return (Py.len s)
  | VTables tables => Return (Z.of_nat (List.length tables))
  | VPaths ps => Return (Z.of_nat (List.length ps))
  | _ => Raise (mkExn (Builtin "TypeError") "object has no len()")
  end.

(** [str(v)]: a path gives its text and [None] gives "None"; [repr] is
    Python's rendering of the values this module does not print. *)
Definition str_of (repr : value -> string) (v : value) : string :=
  match v with
  | VPath p => str p
  | VNone => "None"
  | VStr s => s
  | VBool true => "True"
  | VBool false => "False"
  | _ => repr v
  end.

(** [ProcessDocument.__call__]. *)
Definition __call__ {A T} `{OCRPort A} `{TableExtractorPort T}
    (self : ProcessDocument.ProcessDocument A T) (w : env) (uuid4 : string)
    (elapsed : Q) (pdf_path : list string) (fs : FS)
  : result Models.Document * (A * FS) :=
  ProcessDocument.execute self w uuid4 elapsed pdf_path fs.

Record DocumentController (A T : Type) : Type := mkDocumentController {
  process_document : ProcessDocument.ProcessDocument A T;
  extract_text :
    option (ExtractDocumentTextUseCase.ExtractDocumentTextUseCase A);
  extract_tables : option (ExtractTablesUseCase.ExtractTablesUseCase T);
  save_document : option SaveDocumentUseCase.SaveDocumentUseCase
}.
Arguments mkDocumentController {A T} _ _ _ _.
Arguments process_document {A T} _.
Arguments extract_text {A T} _.
Arguments extract_tables {A T} _.
Arguments save_document {A T} _.

(** [DocumentController(process_doc)], as the command line builds it. *)
Definition __init__ {A T} (process_document_use_case :
                            ProcessDocument.ProcessDocument A T)
  : DocumentController A T :=
  mkDocumentController process_document_use_case None None None.

(** The dictionaries of the [except] clauses. *)
Definition failure (prefix : string) (e : exn) : list (string * value) :=
  [ ("success", VBool false);
    ("error", VStr (exn_str e));
    ("message", VStr (prefix ++ exn_str e)) ].

(** The [try] body of [process_pdf]: the call, then the result dictionary,
    its values evaluated in the order they are written. *)
Definition process_pdf_body {A T} `{OCRPort A} `{TableExtractorPort T}
    (self : DocumentController A T) (repr : value -> string) (w : env)
    (uuid4 : string) (elapsed : Q) (pdf_path : list string) (fs : FS)
  : result (list (string * value)) * (A * FS) :=
  match __call__ (process_document self) w uuid4 elapsed pdf_path fs with
  | (Return document, st) =>
      (name ← getattr document "name";
       text ← getattr document "text";
       text_length ← len text;
       tables ← getattr document "tables";
       tables_count ← len tables;
       output_directory ← getattr document "output_directory";
       let output_dir := str_of repr output_directory in
       confidence ← getattr document "confidence";
       processing_time ← getattr document "processing_time";
       Return [ ("success", VBool true);
                ("document", name);
                ("text_length", VInt text_length);
                ("tables_count", VInt tables_count);
                ("output_dir", VStr output_dir);
                ("confidence", confidence);
                ("processing_time", processing_time);
                ("message", VStr "Proceso completado exitosamente!") ],
       st)
  | (Raise e, st) => (Raise e, st)
  | (OutOfFuel, st) => (OutOfFuel, st)
  end.

(** [except (OCRError, ProcessingError)] first, [except Exception] next. *)
Definition process_pdf {A T} `{OCRPort A} `{TableExtractorPort T}
    (self : DocumentController A T) (repr : value -> string) (w : env)
    (uuid4 : string) (elapsed : Q) (pdf_path : list string) (fs : FS)
  : result (list (string * value)) * (A * FS) :=
  match process_pdf_body self repr w uuid4 elapsed pdf_path fs with
  | (Return result, st) => (Return result, st)
  | (Raise e, st) =>
      match exn_cls e with
      | OCRError | ProcessingError => (Return (failure "Error: " e), st)
      | _ => (Return (failure "Error inesperado: " e), st)
      end
  | (OutOfFuel, st) => (OutOfFuel, st)
  end.

(** The adapter is returned as the call leaves it, if it was called. *)
Definition extract_document_text {A T} `{OCRPort A}
    (self : DocumentController A T) (w : env) (pdf_path : list string)
  : result (list (string * value)) * option A :=
  match extract_text self with
  | None =>
      (Return [ ("success", VBool false);
                ("message",
                 VStr "Funcionalidad no disponible: extracción de texto") ],
       None)
  | Some use_case =>
      match ExtractDocumentTextUseCase.execute use_case w pdf_path with
      | (Return (text, confidence), ocr) =>
          (Return [ ("success", VBool true);
                    ("text", VStr text);
                    ("text_length", VInt (Py.len text));
                    ("confidence", VFloat confidence);
                    ("message", VStr "Texto extraído correctamente") ],
           Some ocr)
      | (Raise e, ocr) =>
          (Return (failure "Error en extracción de texto: " e), Some ocr)
      | (OutOfFuel, ocr) => (OutOfFuel, Some ocr)
      end
  end.

Definition extract_document_tables {A T} `{TableExtractorPort T}
    (self : DocumentController A T) (pdf_path : list string)
  : result (list (string * value)) :=
  match extract_tables self with
  | None =>
      Return [ ("success", VBool false);
               ("message",
                VStr "Funcionalidad no disponible: extracción de tablas") ]
  | Some use_case =>
      match ExtractTablesUseCase.execute use_case pdf_path with
      | Return tables =>
          Return [ ("success", VBool true);
                   ("tables", VTables tables);
                   ("tables_count", VInt (Z.of_nat (List.length tables)));
                   ("message", VStr "Tablas extraídas correctamente") ]
      | Raise e => Return (failure "Error en extracción de tablas: " e)
      | OutOfFuel => OutOfFuel
      end
  end.

End Controllers.

(** ** domain/models/document.py: the methods of [Document] *)

Module ModelsMethods.
Import Py Fs.

Definition set_extracted_text (self : Models.Document) (text : string)
  : Models.Document :=
  Models.mkDocument (Models.name self) (Models.source_path self) text
    (Models.tables self) (Models.confidence self)
    (Models.output_directory self) (Models.generated_files self)
    (Models.processing_time self).

(** [add_text]: a blank line separates the new text from what is there,
    if anything is there. *)
Definition add_text (self : Models.Document) (text : string)
  : Models.Document :=
  if negb (String.eqb (Models.extracted_text self) "")
  then set_extracted_text self
         (Models.extracted_text self ++ String "010" (String "010" "")
          ++ text)
  else set_extracted_text self text.

(** [add_table]. *)
Definition add_table (self : Models.Document) (table : Fs.table)
  : Models.Document :=
  Models.mkDocument (Models.name self) (Models.source_path self)
    (Models.extracted_text self) (Models.tables self ++ [table])%list
    (Models.confidence self) (Models.output_directory self)
    (Models.generated_files self) (Models.processing_time self).

(** The texts from the first non-empty one on. *)
Fixpoint drop_empty (texts : list string) : list string :=
  match texts with
  | [] => []
  | t :: rest => if String.eqb t "" then drop_empty rest else t :: rest
  end.

End ModelsMethods.
(* ===================================================================== *)
(** * Part II: properties                                                  *)
(* ===================================================================== *)

Import Py.



(** ** The classifier *)

Section Classifier.
Import PdfAnalyzer ClassifierSpec.





(** The two worked examples of the specification. *)
Example classify_scanned_example :
  _classify_pdf_type (mkMetrics 10 1 0 8 0 0 false (8 # 10) 0) = SCANNED.
Proof. reflexivity. Qed.

Example classify_native_text_example :
  _classify_pdf_type (mkMetrics 10 9 5000 0 0 (500 # 1) true 0 0)
  = NATIVE_TEXT.
Proof. reflexivity. Qed.

End Classifier.

(** ** Metrics extraction *)

Section Extraction.
Import PdfAnalyzer Scenarios.

Lemma plumber_loop_frame pages : forall m,
  same_frame m (fold_left plumber_step pages m).
Proof.
  induction pages as [|p pages IH]; intros m; simpl.
  - repeat split.
  - destruct (IH (plumber_step m p)) as (H1 & H2 & H3 & H4).
    unfold same_frame. rewrite H1, H2, H3, H4. repeat split.
Qed.

Lemma fitz_loop_frame doc : forall m,
  same_frame m (fold_left fitz_step doc m).
Proof.
  induction doc as [|p doc IH]; intros m; simpl.
  - repeat split.
  - destruct (IH (fitz_step m p)) as (H1 & H2 & H3 & H4).
    unfold same_frame. rewrite H1, H2, H3, H4. repeat split.
Qed.

(** A division by a number other than zero returns. *)
Lemma truediv_returns (a b : Z) :
  b <> 0%Z -> exists q, truediv a b = Return q.
Proof.
  intros Hb. unfold truediv.
  destruct (b =? 0)%Z eqn:E; [lia|].
  destruct (Ieee.div Ieee.binary64 (Ieee.exact_Z a) (Ieee.exact_Z b));
    eauto.
Qed.

(** Under the guard the divisor is not zero, so [derive] always returns. *)
Lemma derive_returns (m : PDFMetrics) :
  exists m', derive m = Return m'
    /\ total_pages m' = total_pages m
    /\ (total_pages m = 0%Z ->
        avg_text_per_page m' = avg_text_per_page m
        /\ image_to_page_ratio m' = image_to_page_ratio m
        /\ table_to_page_ratio m' = table_to_page_ratio m).
Proof.
  unfold derive. destruct (total_pages m >? 0)%Z eqn:G.
  - destruct (truediv_returns (total_text_length m) (total_pages m))
      as [avg ->]; [lia|].
    destruct (truediv_returns (total_images m) (total_pages m))
      as [img ->]; [lia|].
    destruct (truediv_returns (total_tables m) (total_pages m))
      as [tbl ->]; [lia|].
    cbn.
    eexists; split; [reflexivity|]. split; [reflexivity|]. lia.
  - exists m. repeat split.
Qed.

(** C7. When both readers open the file, metrics extraction returns (no
    [ZeroDivisionError], whatever the page count), the page count is the
    number of pages pdfplumber reports, and if it is 0 the three derived
    ratios are 0. *)
Theorem C7_zero_pages_zero_ratios
    (rd : readers) (pdf_path : list string)
    (pages : list plumber_page) (doc : list fitz_page)
    (Hpl : pdfplumber_open rd pdf_path = Return pages)
    (Hfz : fitz_open rd pdf_path = Return doc) :
  exists m,
    _extract_pdf_metrics rd pdf_path = Return m
    /\ total_pages m = Z.of_nat (List.length pages)
    /\ (total_pages m = 0%Z ->
        avg_text_per_page m = 0%Q
        /\ image_to_page_ratio m = 0%Q
        /\ table_to_page_ratio m = 0%Q).
Proof.
  unfold _extract_pdf_metrics. rewrite Hpl. cbn. rewrite Hfz. cbn.
  set (m0 := set_total_pages initial_metrics (Z.of_nat (List.length pages))).
  set (m1 := fold_left plumber_step pages m0).
  set (m2 := fold_left fitz_step doc m1).
  destruct (plumber_loop_frame pages m0) as (P1 & P2 & P3 & P4).
  destruct (fitz_loop_frame doc m1) as (F1 & F2 & F3 & F4).
  fold m1 in P1, P2, P3, P4. fold m2 in F1, F2, F3, F4.
  destruct (derive_returns m2) as (m' & Hd & Htp & Hz).
  exists m'. split; [exact Hd|].
  assert (Hm2 : total_pages m2 = Z.of_nat (List.length pages)).
  { rewrite F1, P1. reflexivity. }
  split; [congruence|].
  intros H0. rewrite Htp in H0. destruct (Hz H0) as (A & B & C).
  rewrite A, B, C, F2, F3, F4, P2, P3, P4. repeat split.
Qed.

Lemma C7_zero_pages_witness :
  exists m,
    _extract_pdf_metrics empty_pdf_readers ["empty.pdf"] = Return m
    /\ total_pages m = 0%Z
    /\ avg_text_per_page m = 0%Q
    /\ image_to_page_ratio m = 0%Q
    /\ table_to_page_ratio m = 0%Q.
Proof.
  destruct (C7_zero_pages_zero_ratios empty_pdf_readers ["empty.pdf"]
              [] [mkFitzPage [1%nat; 2%nat] ["Helvetica"]]
              eq_refl eq_refl) as (m & Hm & Htp & Hz).
  exists m. split; [exact Hm|]. split; [exact Htp|]. exact (Hz Htp).
Defined.

End Extraction.

(** ** Substrings *)

Lemma prefix_app (s t : string) : String.prefix s (s ++ t) = true.
Proof.
  induction s as [|c s IH]; simpl; [now destruct t|].
  destruct (ascii_dec c c) as [_|Hne]; [exact IH|now elim Hne].
Qed.

Lemma contains_prefix (s t : string) :
  String.prefix s t = true -> contains s t = true.
Proof. intros H. destruct t; simpl in *; rewrite H; reflexivity. Qed.

(** A message built around a string contains it. *)
Lemma contains_infix (a s t : string) : contains s (a ++ s ++ t) = true.
Proof.
  induction a as [|c a IH].
  - change ("" ++ s ++ t) with (s ++ t).
    apply contains_prefix. apply prefix_app.
  - change (String c a ++ s ++ t) with (String c (a ++ s ++ t)).
    cbn [contains]. rewrite IH. apply orb_true_r.
Qed.

Lemma string_app_assoc (a b c : string) : (a ++ b) ++ c = a ++ b ++ c.
Proof.
  induction a as [|x a IH]; [reflexivity|].
  change (String x ((a ++ b) ++ c) = String x (a ++ b ++ c)).
  f_equal. exact IH.
Qed.

Lemma contains_infix_app (a s b c : string) :
  contains s ((a ++ s ++ b) ++ c) = true.
Proof. rewrite !string_app_assoc. apply contains_infix. Qed.

(** ** Characters, white space and quotients *)

(** A character counts once, however many bytes encode it. *)
Example len_counts_characters :
  len "año" = 3%Z /\ String.length "año" = 4%nat.
Proof. split; reflexivity. Qed.

(** A text of no-break spaces is blank; a text with a letter is not. *)
Example strip_unicode_space :
  strip_nonempty (String "194" (String "160" " ")) = false
  /\ strip_nonempty " a " = true.
Proof. split; reflexivity. Qed.

(** One third is the double nearest to it, 6004799503160661 * 2^-54, and
    a quotient that is a double is itself. *)
Example truediv_rounds :
  truediv 1 3 = Return (6004799503160661 # 18014398509481984)
  /\ truediv 16 2 = Return 8%Q
  /\ truediv 1 0
     = Raise (mkExn (Builtin "ZeroDivisionError") "division by zero").
Proof. repeat split; vm_compute; reflexivity. Qed.

(** ** Output naming *)

Section Naming.
Import Py Fs FileStorage StorageSpec Scenarios.

(** *** The counter suffix determines the counter *)

Lemma parse_counter_fmt (n : nat) : parse_counter (fmt_02d n) = Some n.
Proof.
  unfold parse_counter, fmt_02d.
  destruct (String.length (NilEmpty.string_of_uint (Nat.to_uint n)) <? 2)%nat.
  - change (NilEmpty.uint_of_string
              ("0" ++ NilEmpty.string_of_uint (Nat.to_uint n)))
      with (uint_of_char "0"%char
              (NilEmpty.uint_of_string
                 (NilEmpty.string_of_uint (Nat.to_uint n)))).
    rewrite NilEmpty.usu. cbn [uint_of_char option_map].
    f_equal. change (Nat.of_uint (D0 (Nat.to_uint n)))
      with (Nat.of_uint (Nat.to_uint n)).
    apply Unsigned.of_to.
  - rewrite NilEmpty.usu. cbn [option_map]. f_equal. apply Unsigned.of_to.
Qed.

Example fmt_02d_examples :
  fmt_02d 1 = "01" /\ fmt_02d 12 = "12" /\ fmt_02d 100 = "100".
Proof. repeat split. Qed.

Lemma fmt_02d_inj (a b : nat) : fmt_02d a = fmt_02d b -> a = b.
Proof.
  intros H. apply (f_equal parse_counter) in H.
  rewrite !parse_counter_fmt in H. congruence.
Qed.

Lemma string_length_app (s t : string) :
  String.length (s ++ t) = (String.length s + String.length t)%nat.
Proof. induction s as [|c s IH]; simpl; [reflexivity|]. now rewrite IH. Qed.

Lemma numbered_inj (base : string) (a b : nat) :
  numbered base a = numbered base b -> a = b.
Proof.
  unfold numbered. intros H.
  apply String.app_inj in H. apply String.app_inj in H.
  now apply fmt_02d_inj.
Qed.

Lemma numbered_not_base (base : string) (k : nat) : numbered base k <> base.
Proof.
  unfold numbered. intros H. apply (f_equal String.length) in H.
  rewrite !string_length_app in H. simpl in H. lia.
Qed.

Lemma div_inj (p : list string) (s t : string) : div p s = div p t -> s = t.
Proof.
  unfold div. intros H. apply app_inv_head in H. congruence.
Qed.

Lemma candidate_inj (base : string) (a b : nat) :
  candidate base a = candidate base b -> a = b.
Proof.
  destruct a as [|a], b as [|b]; simpl; intros H.
  - reflexivity.
  - symmetry in H. now apply numbered_not_base in H.
  - now apply numbered_not_base in H.
  - now apply numbered_inj in H.
Qed.

Lemma candidate_path_inj (self : FileStorage) (base : string) (a b : nat) :
  candidate_path self base a = candidate_path self base b -> a = b.
Proof.
  unfold candidate_path. intros H. apply div_inj in H.
  now apply candidate_inj in H.
Qed.

(** *** The loop stops at the first unused candidate *)

Lemma exists_true (fs : FS) p : exists_ fs p = true <-> p ∈ dom fs.
Proof.
  unfold exists_. rewrite bool_decide_eq_true. symmetry. apply elem_of_dom.
Qed.

Lemma exists_false (fs : FS) p : exists_ fs p = false <-> fs !! p = None.
Proof.
  unfold exists_. rewrite bool_decide_eq_false.
  rewrite <- eq_None_not_Some. tauto.
Qed.

Lemma unique_loop_finds (self : FileStorage) (fs : FS) (base : string) :
  forall fuel c k,
  (c <= k)%nat -> (k - c <= fuel)%nat ->
  (forall j, (c <= j < k)%nat ->
     exists_ fs (candidate_path self base j) = true) ->
  exists_ fs (candidate_path self base k) = false ->
  unique_loop fuel self fs base (candidate_path self base c) (S c)
  = Return (candidate_path self base k).
Proof.
  induction fuel as [|fuel IH]; intros c k Hck Hfuel Hused Hfree.
  - assert (c = k) by lia. subst c. simpl. now rewrite Hfree.
  - destruct (decide (c = k)) as [->|Hne].
    + simpl. now rewrite Hfree.
    + simpl. rewrite (Hused c) by lia.
      change (div (output_dir self) (numbered base (S c)))
        with (candidate_path self base (S c)).
      apply IH; [lia | lia | | exact Hfree].
      intros j Hj. apply Hused. lia.
Qed.

(** If the first [n] candidates all exist, the file system has at least
    [n] paths: the candidates are pairwise different. *)
Lemma used_candidates_bound (self : FileStorage) (fs : FS) (base : string)
    (n : nat) :
  (forall j, (j < n)%nat -> exists_ fs (candidate_path self base j) = true) ->
  (n <= size fs)%nat.
Proof.
  intros Hused.
  set (l := map (candidate_path self base) (seq 0 n)).
  assert (Hnd : NoDup l).
  { apply NoDup_fmap_2_strong; [|apply NoDup_seq].
    intros a b _ _ Hab. now apply candidate_path_inj in Hab. }
  assert (Hsub : l ⊆+ elements (dom fs)).
  { apply NoDup_submseteq; [exact Hnd|].
    intros p Hp. apply elem_of_elements.
    apply list_elem_of_fmap in Hp as (j & -> & Hj).
    apply exists_true, Hused. apply elem_of_seq in Hj. lia. }
  apply submseteq_length in Hsub.
  unfold l in Hsub. rewrite length_map, length_seq in Hsub.
  change (length (elements (dom fs))) with (size (dom fs)) in Hsub.
  now rewrite size_dom in Hsub.
Qed.

Lemma first_unused_below (self : FileStorage) (fs : FS) (base : string) :
  forall n,
  (exists k, (k < n)%nat
     /\ exists_ fs (candidate_path self base k) = false
     /\ forall j, (j < k)%nat ->
          exists_ fs (candidate_path self base j) = true)
  \/ (forall j, (j < n)%nat ->
        exists_ fs (candidate_path self base j) = true).
Proof.
  induction n as [|n [IH|IH]].
  - right. intros j Hj. lia.
  - left. destruct IH as (k & Hk & H1 & H2). exists k. split; [lia|]. auto.
  - destruct (exists_ fs (candidate_path self base n)) eqn:E.
    + right. intros j Hj. destruct (decide (j = n)) as [->|]; [exact E|].
      apply IH. lia.
    + left. exists n. split; [lia|]. split; [exact E|exact IH].
Qed.

Lemma first_unused (self : FileStorage) (fs : FS) (base : string) :
  exists k, (k <= size fs)%nat
    /\ exists_ fs (candidate_path self base k) = false
    /\ forall j, (j < k)%nat ->
         exists_ fs (candidate_path self base j) = true.
Proof.
  destruct (first_unused_below self fs base (S (size fs)))
    as [(k & Hk & H1 & H2)|Hall].
  - exists k. split; [lia|]. auto.
  - apply used_candidates_bound in Hall. lia.
Qed.

(** The directory allocation chooses the first unused candidate. *)
Lemma create_unique_dir_first_unused (self : FileStorage) (base : string)
    (fs : FS) :
  exists k,
    _create_unique_dir self base fs
    = allocation_outcome (candidate_path self base k) fs
    /\ exists_ fs (candidate_path self base k) = false
    /\ forall j, (j < k)%nat ->
         exists_ fs (candidate_path self base j) = true.
Proof.
  destruct (first_unused self fs base) as (k & Hk & Hfree & Hused).
  exists k. split; [|auto].
  unfold _create_unique_dir, allocation_outcome.
  change (div (output_dir self) base) with (candidate_path self base 0).
  rewrite (unique_loop_finds self fs base (size fs) 0 k);
    [reflexivity | lia | lia | | exact Hfree].
  intros j Hj. apply Hused. lia.
Qed.

Lemma create_unique_dir_at (self : FileStorage) (base : string) (fs : FS)
    (k : nat) :
  exists_ fs (candidate_path self base k) = false ->
  (forall j, (j < k)%nat ->
     exists_ fs (candidate_path self base j) = true) ->
  _create_unique_dir self base fs
  = allocation_outcome (candidate_path self base k) fs.
Proof.
  intros Hfree Hused.
  pose proof (used_candidates_bound self fs base k Hused) as Hk.
  unfold _create_unique_dir, allocation_outcome.
  change (div (output_dir self) base) with (candidate_path self base 0).
  rewrite (unique_loop_finds self fs base (size fs) 0 k);
    [reflexivity | lia | lia | | exact Hfree].
  intros j Hj. apply Hused. lia.
Qed.

(** *** What [ensure_dirs] changes *)

Lemma name_div (p : list string) (s : string) : name (div p s) = s.
Proof. unfold name, div. apply last_last. Qed.

Lemma parent_div (p : list string) (s : string) : parent (div p s) = p.
Proof. unfold parent, div. apply removelast_last. Qed.

Lemma parent_take (p : list string) (n : nat) :
  (n < length p)%nat -> parent (take (S n) p) = take n p.
Proof. intros Hn. unfold parent. now apply removelast_firstn. Qed.

Lemma ancestors_spec (p q : list string) :
  q ∈ ancestors p <-> exists n, (1 <= n <= length p)%nat /\ q = take n p.
Proof.
  unfold ancestors. rewrite list_elem_of_fmap. split.
  - intros (n & -> & Hn). apply elem_of_seq in Hn. exists n. split; [lia|done].
  - intros (n & Hn & ->). exists n. split; [done|]. apply elem_of_seq. lia.
Qed.

Lemma dom_mkdir (p : list string) (fs : FS) :
  dom (ensure_dirs p fs) = dom fs ∪ list_to_set (ancestors p).
Proof.
  unfold ensure_dirs. rewrite dom_union_L, dom_list_to_map_L.
  f_equal. f_equal. rewrite <- list_fmap_compose. apply list_fmap_id.
Qed.

Lemma mkdir_keeps (p q : list string) (fs : FS) :
  q ∈ dom fs -> q ∈ dom (ensure_dirs p fs).
Proof. rewrite dom_mkdir. set_solver. Qed.

Lemma mkdir_creates (p : list string) (s : string) (fs : FS) :
  div p s ∈ dom (ensure_dirs (div p s) fs).
Proof.
  rewrite dom_mkdir. apply elem_of_union_r, elem_of_list_to_set.
  apply ancestors_spec. exists (length (div p s)). split.
  - unfold div. rewrite length_app. simpl. lia.
  - symmetry. now apply take_ge.
Qed.

(** A sibling of the created directory is neither created nor removed. *)
Lemma mkdir_sibling (p : list string) (s t : string) (fs : FS) :
  s <> t ->
  exists_ (ensure_dirs (div p s) fs) (div p t) = exists_ fs (div p t).
Proof.
  intros Hne. apply eq_true_iff_eq. rewrite !exists_true, dom_mkdir.
  rewrite elem_of_union, elem_of_list_to_set, ancestors_spec.
  split; [|tauto]. intros [H|(n & Hn & Heq)]; [exact H|].
  exfalso. apply Hne.
  assert (Hlen : n = length (div p s)).
  { apply (f_equal length) in Heq. rewrite length_take in Heq.
    unfold div in *. rewrite !length_app in *. simpl in *. lia. }
  subst n. rewrite take_ge in Heq by lia.
  symmetry. now apply div_inj in Heq.
Qed.

Lemma lookup_mkdir_old (p q : list string) (fs : FS) (n : node) :
  fs !! q = Some n -> ensure_dirs p fs !! q = Some n.
Proof. intros H. unfold ensure_dirs. now apply lookup_union_Some_l. Qed.

Lemma lookup_mkdir_new (p q : list string) (fs : FS) :
  fs !! q = None -> q ∈ ancestors p -> ensure_dirs p fs !! q = Some Dir.
Proof.
  intros Hnone Hq. unfold ensure_dirs. rewrite lookup_union_r by exact Hnone.
  apply elem_of_list_to_map_1'.
  - intros y Hy. apply list_elem_of_fmap in Hy as (q' & [= _ ->] & _).
    reflexivity.
  - apply list_elem_of_fmap. exists q. split; [reflexivity|exact Hq].
Qed.

Lemma lookup_mkdir_other (p q : list string) (fs : FS) :
  q ∉ ancestors p -> ensure_dirs p fs !! q = fs !! q.
Proof.
  intros Hq. unfold ensure_dirs. apply lookup_union_l, not_elem_of_dom.
  rewrite dom_list_to_map_L, <- list_fmap_compose, list_fmap_id.
  now rewrite elem_of_list_to_set.
Qed.

Lemma self_in_ancestors (p : list string) (s : string) :
  div p s ∈ ancestors (div p s).
Proof.
  apply ancestors_spec. exists (length (div p s)). split.
  - unfold div. rewrite length_app. simpl. lia.
  - symmetry. now apply take_ge.
Qed.

(** *** Well-formed file systems *)

Lemma is_directoryb_spec (fs : FS) (p : list string) :
  is_directoryb fs p = true <-> is_directory fs p.
Proof.
  unfold is_directoryb, is_directory. destruct p as [|c p].
  - split; auto.
  - destruct (fs !! (c :: p)) as [[|x]|]; split; intros H;
      try reflexivity; try discriminate; auto;
      destruct H as [H|H]; discriminate.
Qed.

Lemma well_formedb_spec (fs : FS) :
  well_formedb fs = true -> well_formed fs.
Proof.
  unfold well_formedb, well_formed. rewrite forallb_forall.
  intros H q Hq. apply is_directoryb_spec, H.
  apply list_elem_of_In, elem_of_elements, elem_of_dom, Hq.
Qed.

(** In a well-formed file system every prefix of an entry is an entry. *)
Lemma well_formed_prefixes (fs : FS) :
  well_formed fs ->
  forall sz q, length q = sz -> is_Some (fs !! q) ->
  forall n, (1 <= n <= length q)%nat -> is_Some (fs !! take n q).
Proof.
  intros Hwf. induction sz as [|sz IH]; intros q Hlen Hq n Hn.
  - lia.
  - destruct (decide (n = length q)) as [->|Hne].
    + now rewrite take_ge by lia.
    + assert (Hpar : parent q = take sz q).
      { unfold parent. clear Hq Hn Hne.
        destruct q as [|x q' _] using rev_ind; [simpl in Hlen; lia|].
        rewrite removelast_last. rewrite length_app in Hlen. simpl in Hlen.
        rewrite take_app_length' by lia. reflexivity. }
      destruct (Hwf q Hq) as [Hnil|Hdir].
      * rewrite Hpar in Hnil. apply (f_equal length) in Hnil.
        rewrite length_take in Hnil. simpl in Hnil. lia.
      * rewrite Hpar in Hdir.
        assert (Htake : take n q = take n (take sz q)).
        { rewrite take_take. f_equal. lia. }
        rewrite Htake. apply (IH (take sz q)).
        -- rewrite length_take. lia.
        -- rewrite Hdir. eauto.
        -- rewrite length_take. lia.
Qed.

(** And every ancestor of a directory is a directory. *)
Lemma ancestors_directories (fs : FS) (root : list string) :
  well_formed fs -> is_directory fs root ->
  forall q, q ∈ ancestors root -> fs !! q = Some Dir.
Proof.
  intros Hwf Hroot q Hq. apply ancestors_spec in Hq as (n & Hn & ->).
  destruct Hroot as [->|Hdir]; [simpl in Hn; lia|].
  destruct (decide (n = length root)) as [->|Hne];
    [now rewrite take_ge by lia|].
  assert (Hs : is_Some (fs !! take (S n) root)).
  { apply (well_formed_prefixes fs Hwf (length root) root eq_refl);
      [rewrite Hdir; eauto|lia]. }
  destruct (Hwf _ Hs) as [Hnil|Hd].
  - rewrite parent_take in Hnil by lia. apply (f_equal length) in Hnil.
    rewrite length_take in Hnil. simpl in Hnil. lia.
  - now rewrite parent_take in Hd by lia.
Qed.

(** Below an existing root, [ensure_dirs] of a fresh child adds that
    child and nothing else. *)
Lemma mkdir_child (fs : FS) (root : list string) (c : string) :
  well_formed fs -> is_directory fs root -> fs !! div root c = None ->
  ensure_dirs (div root c) fs = <[div root c := Dir]> fs.
Proof.
  intros Hwf Hroot Hfree. apply map_eq. intros i.
  destruct (decide (i = div root c)) as [->|Hne].
  - rewrite lookup_insert_eq. apply lookup_mkdir_new; [exact Hfree|].
    apply self_in_ancestors.
  - rewrite lookup_insert_ne by (intros E; now apply Hne).
    destruct (fs !! i) as [n|] eqn:Ei.
    + now apply lookup_mkdir_old.
    + rewrite lookup_mkdir_other; [exact Ei|].
      rewrite ancestors_spec. intros (n & Hn & ->).
      unfold div in *. rewrite length_app in Hn. simpl in Hn.
      destruct (decide (n = length root + 1)%nat) as [->|Hlt].
      * apply Hne. now rewrite take_ge by (rewrite length_app; simpl; lia).
      * rewrite take_app_le in Ei by lia.
        destruct Hroot as [->|Hdir]; [simpl in *; lia|].
        assert (Hs : is_Some (fs !! take n root)).
        { apply (well_formed_prefixes fs Hwf (length root) root eq_refl);
            [rewrite Hdir; eauto|lia]. }
        rewrite Ei in Hs. now destruct Hs.
Qed.

Lemma well_formed_insert (m : FS) (key : list string) (n : node) :
  well_formed m -> m !! key = None -> is_directory m (parent key) ->
  well_formed (<[key := n]> m).
Proof.
  intros Hwf Hnone Hpar q Hq.
  assert (Hkeep : forall p, is_directory m p ->
                            is_directory (<[key := n]> m) p).
  { intros p [->|Hp]; [now left|]. right.
    rewrite lookup_insert_ne; [exact Hp|]. intros <-. congruence. }
  destruct (decide (q = key)) as [->|Hne].
  - now apply Hkeep.
  - rewrite lookup_insert_ne in Hq by (intros E; now apply Hne).
    now apply Hkeep, Hwf.
Qed.

(** *** When [mkdir] returns and when it raises *)

Lemma is_file_true (fs : FS) (p : list string) :
  is_file fs p = true -> exists c, fs !! p = Some (File c).
Proof.
  unfold is_file. destruct p as [|x p]; [discriminate|].
  destruct (fs !! (x :: p)) as [[|c]|]; try discriminate. eauto.
Qed.

Lemma is_file_false (fs : FS) (p : list string) :
  (forall c, fs !! p <> Some (File c)) -> is_file fs p = false.
Proof.
  intros H. apply not_true_is_false. intros Ht.
  apply is_file_true in Ht as [c Hc]. exact (H c Hc).
Qed.

Lemma mkdir_clear (p : list string) (fs : FS) :
  (forall q, q ∈ ancestors (parent p) -> is_file fs q = false) ->
  is_file fs p = false ->
  mkdir p fs = (Return tt, ensure_dirs p fs).
Proof.
  intros Hanc Hp. unfold mkdir.
  assert (E : existsb (is_file fs) (ancestors (parent p)) = false).
  { apply not_true_is_false. intros H.
    apply existsb_exists in H as (q & Hq & Hf).
    rewrite Hanc in Hf; [discriminate|]. now apply list_elem_of_In. }
  now rewrite E, Hp.
Qed.

Lemma mkdir_returned (p : list string) (fs : FS) (u : unit) (fs' : FS) :
  mkdir p fs = (Return u, fs') -> fs' = ensure_dirs p fs.
Proof.
  unfold mkdir. destruct (existsb _ _); [discriminate|].
  destruct (is_file fs p); [discriminate|]. now intros [= _ <-].
Qed.

Lemma mkdir_raised (p : list string) (fs : FS) (e : exn) (fs' : FS) :
  mkdir p fs = (Raise e, fs') -> fs' = fs.
Proof.
  unfold mkdir. destruct (existsb _ _); [now intros [= _ <-]|].
  destruct (is_file fs p); [now intros [= _ <-]|discriminate].
Qed.

Lemma mkdir_fuel (p : list string) (fs fs' : FS) :
  mkdir p fs <> (OutOfFuel, fs').
Proof.
  unfold mkdir. destruct (existsb _ _); [discriminate|].
  destruct (is_file fs p); discriminate.
Qed.

(** Below a root that is a directory, [mkdir] of a fresh child returns. *)
Lemma mkdir_child_returns (fs : FS) (root : list string) (c : string) :
  well_formed fs -> is_directory fs root -> fs !! div root c = None ->
  mkdir (div root c) fs = (Return tt, <[div root c := Dir]> fs).
Proof.
  intros Hwf Hroot Hfree. rewrite mkdir_clear.
  - now rewrite mkdir_child.
  - intros q Hq. rewrite parent_div in Hq. apply is_file_false.
    now rewrite (ancestors_directories fs root Hwf Hroot q Hq).
  - apply is_file_false. now rewrite Hfree.
Qed.

(** In a root that is a directory the allocation returns the first unused
    candidate, and the file system gains that directory and nothing
    else. *)
Lemma create_unique_dir_in_root (self : FileStorage) (base : string)
    (fs : FS) :
  well_formed fs -> is_directory fs (output_dir self) ->
  exists k,
    _create_unique_dir self base fs
    = (Return (candidate_path self base k),
       <[candidate_path self base k := Dir]> fs)
    /\ exists_ fs (candidate_path self base k) = false
    /\ forall j, (j < k)%nat ->
         exists_ fs (candidate_path self base j) = true.
Proof.
  intros Hwf Hroot.
  destruct (create_unique_dir_first_unused self base fs)
    as (k & Hcreate & Hfree & Hused).
  exists k. split; [|auto]. rewrite Hcreate.
  unfold allocation_outcome, candidate_path.
  rewrite mkdir_child_returns; [reflexivity|exact Hwf|exact Hroot|].
  now apply exists_false.
Qed.

(** What an allocation returned is the first unused candidate, and the
    directory exists afterwards. *)
Lemma create_unique_dir_returned (self : FileStorage) (base : string)
    (fs : FS) (d : list string) (fs' : FS) :
  _create_unique_dir self base fs = (Return d, fs') ->
  exists_ fs d = false /\ d ∈ dom fs'.
Proof.
  intros E.
  destruct (create_unique_dir_first_unused self base fs)
    as (k & Hcreate & Hfree & _).
  rewrite Hcreate in E. unfold allocation_outcome in E.
  destruct (mkdir (candidate_path self base k) fs) as [[u|e|] fs1] eqn:Hmk;
    try discriminate.
  injection E as <- <-. apply mkdir_returned in Hmk. subst fs1.
  split; [exact Hfree|]. apply mkdir_creates.
Qed.

(** *** The allocation, call by call *)

Lemma interleave_testing (self : FileStorage) (base base2 : string)
    (a2 : allocation) (fs : FS) (rest : list turn) :
  forall m c,
  (forall j, (c <= j < c + m)%nat ->
     exists_ fs (candidate_path self base j) = true) ->
  interleave (repeat First m ++ rest) self base base2
    (Testing (candidate_path self base c) (S c)) a2 fs
  = interleave rest self base base2
      (Testing (candidate_path self base (c + m)) (S (c + m))) a2 fs.
Proof.
  induction m as [|m IH]; intros c Hused.
  - now rewrite Nat.add_0_r.
  - cbn [repeat app interleave allocation_step].
    rewrite (Hused c) by lia.
    change (div (output_dir self) (numbered base (S c)))
      with (candidate_path self base (S c)).
    rewrite IH by (intros j Hj; apply Hused; lia).
    now replace (S c + m)%nat with (c + S m)%nat by lia.
Qed.

(** A run whose calls are not interleaved with another's is the method
    itself. *)
Lemma allocation_alone (self : FileStorage) (base base2 : string)
    (a2 : allocation) (fs : FS) :
  exists n a1,
    interleave (repeat First n) self base base2
      (allocation_start self base) a2 fs
    = (a1, a2, snd (_create_unique_dir self base fs))
    /\ finished (fst (_create_unique_dir self base fs)) a1.
Proof.
  destruct (create_unique_dir_first_unused self base fs)
    as (k & Hcreate & Hfree & Hused).
  exists (k + 2)%nat. rewrite repeat_app. cbn [repeat].
  unfold allocation_start.
  change (div (output_dir self) base) with (candidate_path self base 0).
  rewrite interleave_testing by (intros j Hj; apply Hused; lia).
  cbn [interleave allocation_step Nat.add]. rewrite Hfree.
  cbn [interleave allocation_step].
  rewrite Hcreate. unfold allocation_outcome.
  destruct (mkdir (candidate_path self base k) fs) as [[u|e|] fs1] eqn:Hmk.
  - eexists. split; reflexivity.
  - eexists. split; reflexivity.
  - exfalso. exact (mkdir_fuel _ _ _ Hmk).
Qed.

(** C2, as the code has it.  For a file name as base name, in a
    well-formed file system whose output root is a directory, directory
    allocation returns: the base name itself exactly when nothing, file or
    directory, has that name in the output root, and otherwise the first
    name of the sequence base_01, base_02, ... (counter printed with
    [02d]) that nothing has; that directory is created and nothing else
    changes.  Hence, when base, base_01 and base_02 are all free, three
    successive allocations for the same base name return base, base_01 and
    base_02; and an allocation never returns a directory that an earlier
    allocation into the same root returned, as long as the one is over
    before the other begins and nothing was removed in between. *)
Theorem C2_unique_dir_allocation
    (self : FileStorage) (base : string) (fs : FS)
    (Hname : is_component base = true)
    (Hwf : well_formed fs)
    (Hroot : is_directory fs (output_dir self)) :
  (exists k,
     _create_unique_dir self base fs
     = (Return (candidate_path self base k),
        <[candidate_path self base k := Dir]> fs)
     /\ exists_ fs (candidate_path self base k) = false
     /\ (forall j, (j < k)%nat ->
           exists_ fs (candidate_path self base j) = true))
  /\ (fst (_create_unique_dir self base fs)
      = Return (div (output_dir self) base)
      <-> exists_ fs (div (output_dir self) base) = false)
  /\ (exists_ fs (div (output_dir self) base) = false ->
      exists_ fs (div (output_dir self) (base ++ "_01")) = false ->
      exists_ fs (div (output_dir self) (base ++ "_02")) = false ->
      let r1 := _create_unique_dir self base fs in
      let r2 := _create_unique_dir self base (snd r1) in
      let r3 := _create_unique_dir self base (snd r2) in
      fst r1 = Return (div (output_dir self) base)
      /\ fst r2 = Return (div (output_dir self) (base ++ "_01"))
      /\ fst r3 = Return (div (output_dir self) (base ++ "_02")))
  /\ (forall d1 fs1 base2 (fs2 : FS) d2 fs3,
      _create_unique_dir self base fs = (Return d1, fs1) ->
      dom fs1 ⊆ dom fs2 ->
      _create_unique_dir self base2 fs2 = (Return d2, fs3) ->
      d1 <> d2).
Proof.
  split; [now apply create_unique_dir_in_root|].
  split.
  { destruct (create_unique_dir_in_root self base fs Hwf Hroot)
      as (k & Hcreate & Hfree & Hused).
    rewrite Hcreate. cbn [fst]. split.
    - intros [= E].
      change (div (output_dir self) base)
        with (candidate_path self base 0) in E.
      apply candidate_path_inj in E. now subst k.
    - intros H0. destruct k as [|k]; [reflexivity|].
      pose proof (Hused 0%nat ltac:(lia)) as H1.
      change (candidate_path self base 0)
        with (div (output_dir self) base) in H1.
      congruence. }
  split.
  - intros H0 H1 H2.
    assert (N01 : base <> base ++ "_01").
    { intros E. symmetry in E. now apply (numbered_not_base base 1) in E. }
    assert (N02 : base <> base ++ "_02").
    { intros E. symmetry in E. now apply (numbered_not_base base 2) in E. }
    assert (N12 : base ++ "_01" <> base ++ "_02").
    { intros E. now apply (numbered_inj base 1 2) in E. }
    set (d0 := div (output_dir self) base).
    set (d1 := div (output_dir self) (base ++ "_01")).
    set (d2 := div (output_dir self) (base ++ "_02")).
    assert (L0 : fs !! d0 = None) by now apply exists_false.
    assert (L1 : fs !! d1 = None) by now apply exists_false.
    assert (L2 : fs !! d2 = None) by now apply exists_false.
    assert (Hkeep : forall (m : FS) key p,
              is_directory m p -> m !! key = None ->
              is_directory (<[key := Dir]> m) p).
    { intros m key p [->|Hp] Hkey; [now left|]. right.
      rewrite lookup_insert_ne; [exact Hp|]. intros <-. congruence. }
    assert (E1 : _create_unique_dir self base fs
                 = (Return d0, <[d0 := Dir]> fs)).
    { rewrite (create_unique_dir_at self base fs 0) by
        (try exact H0; intros j Hj; lia).
      unfold allocation_outcome.
      change (candidate_path self base 0)
        with (div (output_dir self) base).
      now rewrite mkdir_child_returns. }
    assert (W1 : well_formed (<[d0 := Dir]> fs)).
    { apply well_formed_insert; [exact Hwf|exact L0|].
      unfold d0. now rewrite parent_div. }
    assert (R1 : is_directory (<[d0 := Dir]> fs) (output_dir self))
      by now apply Hkeep.
    assert (L1' : <[d0 := Dir]> fs !! d1 = None).
    { rewrite lookup_insert_ne; [exact L1|]. intros E.
      apply div_inj in E. contradiction. }
    assert (E2 : _create_unique_dir self base (<[d0 := Dir]> fs)
                 = (Return d1, <[d1 := Dir]> (<[d0 := Dir]> fs))).
    { rewrite (create_unique_dir_at self base _ 1).
      - unfold allocation_outcome.
        change (candidate_path self base 1)
          with (div (output_dir self) (base ++ "_01")).
        now rewrite mkdir_child_returns.
      - now apply exists_false.
      - intros j Hj. assert (j = 0)%nat as -> by lia.
        apply exists_true, elem_of_dom.
        change (candidate_path self base 0) with d0.
        rewrite lookup_insert_eq. eauto. }
    assert (W2 : well_formed (<[d1 := Dir]> (<[d0 := Dir]> fs))).
    { apply well_formed_insert; [exact W1|exact L1'|].
      unfold d1. rewrite parent_div. exact R1. }
    assert (R2 : is_directory (<[d1 := Dir]> (<[d0 := Dir]> fs))
                   (output_dir self))
      by now apply Hkeep.
    assert (E3 : fst (_create_unique_dir self base
                        (<[d1 := Dir]> (<[d0 := Dir]> fs)))
                 = Return d2).
    { rewrite (create_unique_dir_at self base _ 2).
      - unfold allocation_outcome.
        change (candidate_path self base 2)
          with (div (output_dir self) (base ++ "_02")).
        rewrite mkdir_child_returns; [reflexivity|exact W2|exact R2|].
        fold d2. rewrite !lookup_insert_ne; [exact L2| |];
          intros E; apply div_inj in E; congruence.
      - apply exists_false.
        change (candidate_path self base 2) with d2.
        rewrite !lookup_insert_ne; [exact L2| |];
          intros E; apply div_inj in E; congruence.
      - intros j Hj. apply exists_true, elem_of_dom.
        destruct j as [|[|j]]; [| |lia].
        + change (candidate_path self base 0) with d0.
          rewrite lookup_insert_ne, lookup_insert_eq; [eauto|].
          intros E; apply div_inj in E; congruence.
        + change (candidate_path self base 1) with d1.
          rewrite lookup_insert_eq. eauto. }
    cbv zeta. rewrite E1. cbn [fst snd]. rewrite E2. cbn [fst snd].
    rewrite E3. done.
  - intros d1 fs1 base2 fs2 d2 fs3 E1 Hsub E2 Heq.
    apply create_unique_dir_returned in E1 as [_ Hin].
    apply create_unique_dir_returned in E2 as [Hfree2 _].
    apply exists_false in Hfree2. apply Hsub in Hin.
    rewrite Heq in Hin. apply elem_of_dom in Hin as [n Hn]. congruence.
Qed.

Lemma C2_unique_dir_witness :
  let r1 := _create_unique_dir reports_storage "informe" reports_root in
  let r2 := _create_unique_dir reports_storage "informe" (snd r1) in
  let r3 := _create_unique_dir reports_storage "informe" (snd r2) in
  fst r1 = Return ["resultado"; "informe"]
  /\ fst r2 = Return ["resultado"; "informe_01"]
  /\ fst r3 = Return ["resultado"; "informe_02"].
Proof.
  apply (proj1 (proj2 (proj2
           (C2_unique_dir_allocation reports_storage "informe"
              reports_root eq_refl
              (well_formedb_spec reports_root eq_refl)
              (or_intror eq_refl))))).
  - vm_compute. reflexivity.
  - vm_compute. reflexivity.
  - vm_compute. reflexivity.
Defined.

(** The claim as it was stated fails twice.  Where a regular file has the
    base name, no directory of that name exists and still the base name
    is not returned.  And two runs for the same base name whose calls
    alternate both find the name free and both receive it, each without
    an exception, where one run after the other receives a name of its
    own. *)
Lemma C2_shared_directory :
  (~ is_directory name_taken_by_file ["resultado"; "informe"]
   /\ fst (_create_unique_dir reports_storage "informe" name_taken_by_file)
      = Return ["resultado"; "informe_01"])
  /\ fst (interleave [First; Second; First; Second] reports_storage
            "informe" "informe"
            (allocation_start reports_storage "informe")
            (allocation_start reports_storage "informe") reports_root)
     = (Returned ["resultado"; "informe"],
        Returned ["resultado"; "informe"])
  /\ fst (interleave (one_after_the_other 2 3) reports_storage
            "informe" "informe"
            (allocation_start reports_storage "informe")
            (allocation_start reports_storage "informe") reports_root)
     = (Returned ["resultado"; "informe"],
        Returned ["resultado"; "informe_01"]).
Proof.
  split; [split|split].
  - intros [H|H]; [discriminate H|]. vm_compute in H. discriminate H.
  - vm_compute. reflexivity.
  - vm_compute. reflexivity.
  - vm_compute. reflexivity.
Qed.

End Naming.

(** ** Saving a document *)

Section Saving.
Import Py Fs FileStorage StorageSpec.

(** Creating a directory changes nothing below it. *)
Lemma mkdir_lookup_below (p : list string) (s : string) (fs : FS) :
  ensure_dirs p fs !! div p s = fs !! div p s.
Proof.
  unfold ensure_dirs. apply lookup_union_l. apply not_elem_of_dom.
  rewrite dom_list_to_map_L, <- list_fmap_compose, list_fmap_id.
  rewrite elem_of_list_to_set, ancestors_spec.
  intros (n & Hn & Heq). apply (f_equal length) in Heq.
  rewrite length_take in Heq. unfold div in Heq.
  rewrite length_app in Heq. simpl in Heq. lia.
Qed.

Lemma div_neq (p : list string) (n s t : string) :
  s <> t -> div p (n ++ s) <> div p (n ++ t).
Proof.
  intros Hne Heq. apply div_inj in Heq. apply String.app_inj in Heq. done.
Qed.

(** What [save_document] returns and what it leaves at the path of the
    tables file, for the directory [d] it allocated. *)
Lemma save_document_outcome
    (self : FileStorage) (document : Entities.Document) (fs : FS) :
  exists k,
    let d := candidate_path self (Entities.name document) k in
    let text_file := div d (name d ++ "_texto.txt") in
    let tables_file := div d (name d ++ "_tablas.json") in
    exists_ fs d = false
    /\ (forall j, (j < k)%nat ->
          exists_ fs (candidate_path self (Entities.name document) j) = true)
    /\ forall gf fs',
         save_document self document fs = (Return gf, fs') ->
         (exists rest, gf = text_file :: rest
            /\ (tables_file ∈ rest <-> Entities.tables document <> []))
         /\ d ∈ dom fs'
         /\ fs' !! tables_file
            = if decide (Entities.tables document = [])
              then fs !! tables_file
              else Some (File (TablesJson (Entities.tables document))).
Proof.
  destruct (create_unique_dir_first_unused self (Entities.name document) fs)
    as (k & Hcreate & Hfree & Hused).
  exists k. cbv zeta. split; [exact Hfree|]. split; [exact Hused|].
  intros gf fs' Hsave. unfold save_document in Hsave.
  rewrite Hcreate in Hsave. unfold allocation_outcome in Hsave.
  destruct (mkdir (candidate_path self (Entities.name document) k) fs)
    as [[u|e|] fs1] eqn:Hmk; try discriminate Hsave.
  apply mkdir_returned in Hmk. subst fs1. cbv zeta in Hsave.
  set (d := candidate_path self (Entities.name document) k) in *.
  set (n := name d) in *.
  assert (Ttxt : div d (n ++ "_texto.txt") <> div d (n ++ "_tablas.json"))
    by (apply div_neq; discriminate).
  assert (Tpdf : div d (n ++ "_original.pdf") <> div d (n ++ "_tablas.json"))
    by (apply div_neq; discriminate).
  assert (Tmd : div d (n ++ "_metadata.json") <> div d (n ++ "_tablas.json"))
    by (apply div_neq; discriminate).
  assert (Hd : forall x, div d x <> d).
  { intros x E. apply (f_equal length) in E. unfold div in E.
    rewrite length_app in E. simpl in E. lia. }
  assert (Hin : is_Some (ensure_dirs d fs !! d))
    by (apply elem_of_dom, mkdir_creates).
  assert (Hbelow : ensure_dirs d fs !! div d (n ++ "_tablas.json")
                   = fs !! div d (n ++ "_tablas.json"))
    by apply mkdir_lookup_below.
  destruct (decide (Entities.tables document = [])) as [Hnil|Hcons];
    destruct (Entities.source_path document) as [pdf_path|];
    cbn [app] in Hsave;
    repeat match type of Hsave with
      | context [exists_ ?f ?p] => destruct (exists_ f p)
      | context [copy2 ?a ?b ?f] =>
          unfold copy2 in Hsave;
          match type of Hsave with
          | context [?f' !! a] => destruct (f' !! a) as [[|c]|]
          end
      end;
    try discriminate;
    injection Hsave as <- <-;
    (split;
     [ eexists; split; [reflexivity|];
       rewrite ?elem_of_cons, elem_of_nil; split;
       [ intros H; repeat destruct H as [H|H];
         try done; exfalso; eauto using eq_sym
       | intros H; try done; auto ]
     | split;
       [ apply elem_of_dom; unfold write;
         rewrite ?lookup_insert_ne by apply Hd; exact Hin
       | unfold write; rewrite ?lookup_insert_ne by done;
         try rewrite lookup_insert_eq; done ] ]).
Qed.

End Saving.

(** ** Recognition *)

Section Recognition.
Import Cv OcrAdapters OcrSpec.

Lemma page_loop_all (f : image -> result string) (images : list image)
    (texts : list string) :
  Forall2 (fun im t => f im = Return t) images texts ->
  forall acc, page_loop f images acc = Return (acc ++ texts)%list.
Proof.
  induction 1 as [|im t images texts Him _ IH]; intros acc; cbn.
  - now rewrite app_nil_r.
  - rewrite Him. cbn. rewrite IH, <- app_assoc. reflexivity.
Qed.

(** The first failing page ends the loop; the texts collected so far are
    not part of the outcome. *)
Lemma page_loop_fail (f : image -> result string)
    (before : list image) (image : Cv.image) (after : list Cv.image)
    (texts : list string) (e : exn) :
  Forall2 (fun im t => f im = Return t) before texts ->
  f image = Raise e ->
  forall acc, page_loop f (before ++ image :: after) acc = Raise e.
Proof.
  induction 1 as [|im t before texts Him _ IH]; intros Hfail acc; cbn.
  - now rewrite Hfail.
  - rewrite Him. cbn. now apply IH.
Qed.

(** The page loop of the wired OpenCV adapter is the common page loop over
    "preprocess, then recognize". *)
Lemma opencv_page_loop_eq (w : env)
    (self : Ocr.TesseractOpenCVAdapter.TesseractOpenCVAdapter)
    (images : list image) : forall acc,
  fst (Ocr.TesseractOpenCVAdapter.page_loop w self images acc)
  = page_loop (recognize_page (Wired (AdapterFactory.OpenCV self)) w)
      images acc.
Proof.
  induction images as [|image rest IH]; intros acc; cbn; [reflexivity|].
  destruct (Ocr.TesseractOpenCVAdapter.cvtColor_checked image)
    as [gray|e|]; cbn;
    try reflexivity.
  destruct (image_to_string w _ (Ocr.TesseractOpenCVAdapter.lang self)); cbn;
    [apply IH | reflexivity | reflexivity].
Qed.

(** Every adapter's [extract_text] is: rasterize, run the page loop, join,
    and surface a failure the adapter's way. *)
Lemma extract_text_of_eq (x : recognition_adapter) (w : env)
    (pdf_path : list string) :
  extract_text_of x w pdf_path
  = match convert_from_path w pdf_path (dpi_of x) with
    | Return images =>
        match page_loop (recognize_page x w) images [] with
        | Return texts =>
            Return (join (String "010" (String "010" "")) texts)
        | Raise e => Raise (surfaced x e)
        | OutOfFuel => OutOfFuel
        end
    | Raise e => Raise (surfaced x e)
    | OutOfFuel => OutOfFuel
    end.
Proof.
  destruct x as [[a|a]|a|a]; cbn.
  - unfold Ocr.TesseractAdapter.extract_text. cbn.
    destruct (convert_from_path w pdf_path (Ocr.TesseractAdapter.dpi a)); cbn;
      try reflexivity;
      try (destruct (page_loop _ _ []); reflexivity).
  - unfold Ocr.TesseractOpenCVAdapter.extract_text.
    destruct (convert_from_path w pdf_path
                (Ocr.TesseractOpenCVAdapter.dpi a)) as [images|e|];
      cbn; try reflexivity.
    pose proof (opencv_page_loop_eq w a images []) as Hloop.
    destruct (Ocr.TesseractOpenCVAdapter.page_loop w a images [])
      as [r a']. cbn in *.
    rewrite Hloop. destruct (page_loop _ _ []); reflexivity.
  - unfold TesseractAdapter.extract_text. cbn.
    destruct (convert_from_path w pdf_path (TesseractAdapter.dpi a)); cbn;
      try reflexivity;
      try (destruct (page_loop _ _ []); reflexivity).
  - unfold TesseractOpenCVAdapter.extract_text. cbn.
    destruct (convert_from_path w pdf_path (TesseractOpenCVAdapter.dpi a));
      cbn;
      try reflexivity;
      try (destruct (page_loop _ _ []); reflexivity).
Qed.

(** C6, as the code has it.  When rasterization or the recognition of some
    page raises [e], [extract_text] returns no text at all and raises one
    exception: for the adapters the factory wires, a [ProcessingError]
    whose message is the adapter's fixed prefix followed by [str(e)] (the
    path is not added to it); for the adapters of [ocr_adapters.py], [e]
    itself. *)
Theorem C6_recognition_all_or_nothing
    (x : recognition_adapter) (w : env) (pdf_path : list string) (e : exn)
    (Hfail : fails_with x w pdf_path e) :
  extract_text_of x w pdf_path = Raise (surfaced x e)
  /\ (forall a, x = Wired a ->
        exn_cls (surfaced x e) = ProcessingError
        /\ exists prefix, exn_str (surfaced x e) = prefix ++ exn_str e
             /\ forall e0, exn_str (surfaced x e0) = prefix ++ exn_str e0).
Proof.
  split.
  - rewrite extract_text_of_eq.
    destruct Hfail as [H|(before & image & after & texts & H & Hall & Hpage)];
      rewrite H; [reflexivity|].
    now rewrite (page_loop_fail _ before image after texts e Hall Hpage).
  - intros [a|a] ->; cbn; (split; [reflexivity|]); eexists; eauto.
Qed.

End Recognition.

(** ** Skew correction *)

Section Skew.
Import Cv OcrAdapters OcrAdapters.TesseractOpenCVAdapter PreprocessSpec.

(** The code's angle is the deviation from the horizontal, and its test
    is the test for less than 45 degrees. *)
Lemma line_step_deviation (f : Ieee.format) (angles : list spec_float)
    (rho theta : spec_float) (rest : list (list spec_float)) :
  line_step f angles ([rho; theta] :: rest)
  = if below_45 f (deviation f theta)
    then (angles ++ [deviation f theta])%list
    else angles.
Proof. reflexivity. Qed.

Lemma line_step_spec (f : Ieee.format)
    (lines : list (list (list spec_float))) : forall angles,
  fold_left (line_step f) lines angles
  = (angles
     ++ List.filter (below_45 f)
          (map (deviation f) (omap theta_of lines)))%list.
Proof.
  induction lines as [|line lines IH]; intros angles.
  - cbn. now rewrite app_nil_r.
  - cbn [fold_left].
    destruct line as [|[|rho [|theta [|extra first]]] rest];
      try (rewrite IH; reflexivity).
    rewrite line_step_deviation, IH.
    change (omap theta_of (([rho; theta] :: rest) :: lines))
      with (theta :: omap theta_of lines).
    cbn [map List.filter].
    destruct (below_45 f (deviation f theta)); [|reflexivity].
    now rewrite <- app_assoc.
Qed.

Lemma firstn_min_length {X : Type} (n : nat) (l : list X) :
  firstn (Nat.min n (length l)) l = firstn n l.
Proof.
  destruct (Nat.le_ge_cases n (length l)) as [H|H].
  - now rewrite Nat.min_l.
  - rewrite Nat.min_r by exact H.
    now rewrite firstn_all, firstn_all2.
Qed.

Lemma collected_angles (f : Ieee.format)
    (lines : list (list (list spec_float))) :
  fold_left (line_step f) (firstn (Nat.min 10 (length lines)) lines) []
  = surviving_angles f lines.
Proof. rewrite firstn_min_length, line_step_spec. reflexivity. Qed.

(** *** The angles that survive *)

Lemma omap_length_le {X Y : Type} (f : X -> option Y) (l : list X) :
  (length (omap f l) <= length l)%nat.
Proof.
  induction l as [|x l IH]; cbn; [lia|].
  destruct (f x); cbn; lia.
Qed.

Lemma surviving_angles_length (f : Ieee.format)
    (lines : list (list (list spec_float))) :
  (length (surviving_angles f lines) <= 10)%nat.
Proof.
  unfold surviving_angles.
  etransitivity; [apply List.filter_length_le|].
  rewrite length_map.
  etransitivity; [apply omap_length_le|].
  rewrite length_firstn. apply Nat.le_min_l.
Qed.

(** Every surviving angle is below 45 degrees and is the deviation of
    one of the first ten lines. *)
Lemma surviving_angles_origin (f : Ieee.format)
    (lines : list (list (list spec_float))) :
  Forall (fun angle =>
            below_45 f angle = true
            /\ exists line theta,
                 line ∈ firstn 10 lines
                 /\ theta_of line = Some theta
                 /\ angle = deviation f theta)
    (surviving_angles f lines).
Proof.
  unfold surviving_angles. apply List.Forall_forall. intros a Ha.
  apply List.filter_In in Ha as [Ha Hlt]. split; [exact Hlt|].
  apply List.in_map_iff in Ha as (theta & <- & Hth).
  apply list_elem_of_In, list_elem_of_omap in Hth as (line & Hline & Hth).
  exists line, theta. auto.
Qed.

Lemma below_45_not_nan (f : Ieee.format) (angle : spec_float) :
  below_45 f angle = true -> angle <> S754_nan.
Proof. intros H ->. discriminate H. Qed.

Lemma surviving_angles_not_nan (f : Ieee.format)
    (lines : list (list (list spec_float))) :
  Forall (fun angle => angle <> S754_nan) (surviving_angles f lines).
Proof.
  eapply List.Forall_impl; [|apply surviving_angles_origin].
  intros a [Ha _]. now apply below_45_not_nan in Ha.
Qed.

(** *** Sorting, and the median *)

Lemma SFcompare_antisym (x y : spec_float) :
  SFcompare y x = option_map CompOpp (SFcompare x y).
Proof.
  destruct x as [sx|sx| |sx mx ex], y as [sy|sy| |sy my ey];
    try destruct sx; try destruct sy; try reflexivity;
    cbn [SFcompare option_map];
    rewrite (Z.compare_antisym ex ey);
    destruct (ex ?= ey)%Z; cbn [CompOpp]; try reflexivity;
    pose proof (Pos.compare_cont_antisym mx my Eq) as H;
    cbn [CompOpp] in H; rewrite <- H;
    now rewrite ?CompOpp_involutive.
Qed.

Lemma SFleb_total (x y : spec_float) :
  x <> S754_nan -> y <> S754_nan -> SFleb x y = false -> SFleb y x = true.
Proof.
  intros Hx Hy. unfold SFleb. rewrite (SFcompare_antisym x y).
  destruct (SFcompare x y) as [[| |]|] eqn:E; cbn; try done.
  destruct x, y; try done; destruct s; discriminate E.
Qed.

Lemma insert_sorted_perm (x : spec_float) (xs : list spec_float) :
  Permutation (insert_sorted x xs) (x :: xs).
Proof.
  induction xs as [|y ys IH]; cbn; [reflexivity|].
  destruct (SFleb x y); [reflexivity|].
  rewrite IH. apply perm_swap.
Qed.

Lemma sort_perm (xs : list spec_float) : Permutation (sort xs) xs.
Proof.
  induction xs as [|x xs IH]; cbn; [reflexivity|].
  rewrite insert_sorted_perm. now apply perm_skip.
Qed.

Lemma insert_sorted_head (x y : spec_float) (ys : list spec_float) :
  SFleb y x = true -> HdRel (fun a b => SFleb a b = true) y ys ->
  HdRel (fun a b => SFleb a b = true) y (insert_sorted x ys).
Proof.
  intros Hyx Hys. destruct ys as [|z zs]; cbn.
  - now constructor.
  - destruct (SFleb x z); constructor; [exact Hyx|].
    now inversion Hys.
Qed.

Lemma insert_sorted_ascending (x : spec_float) (xs : list spec_float) :
  x <> S754_nan -> Forall (fun a => a <> S754_nan) xs ->
  ascending xs -> ascending (insert_sorted x xs).
Proof.
  intros Hx Hxs Hs. induction Hs as [|y ys Hys IH Hhd]; cbn.
  - repeat constructor.
  - inversion Hxs as [|? ? Hy Hys']; subst.
    destruct (SFleb x y) eqn:E.
    + constructor; [now constructor|now constructor].
    + constructor; [now apply IH|].
      apply insert_sorted_head; [|exact Hhd].
      now apply SFleb_total.
Qed.

Lemma sort_not_nan (xs : list spec_float) :
  Forall (fun a => a <> S754_nan) xs ->
  Forall (fun a => a <> S754_nan) (sort xs).
Proof.
  intros H. eapply Permutation_Forall; [|exact H].
  symmetry. apply sort_perm.
Qed.

Lemma sort_ascending (xs : list spec_float) :
  Forall (fun a => a <> S754_nan) xs -> ascending (sort xs).
Proof.
  induction 1 as [|x xs Hx Hxs IH]; cbn; [constructor|].
  apply insert_sorted_ascending; [exact Hx|now apply sort_not_nan|exact IH].
Qed.

(** What [np.median] returns for values without a NaN is their median. *)
Lemma median_is_median (f : Ieee.format) (xs : list spec_float) :
  Forall (fun a => a <> S754_nan) xs -> is_median f xs (median f xs).
Proof.
  intros H. exists (sort xs).
  split; [apply sort_perm|]. split; [now apply sort_ascending|reflexivity].
Qed.

(** Whatever happens, the outcome is the image itself or the image rotated
    by more than half a degree. *)
Lemma correct_skew_outcome (w : env) (image : Cv.image) :
  _correct_skew w image = image
  \/ exists h wd skew,
       shape image = [h; wd]
       /\ exceeds_half (scalar_format w) skew = true
       /\ _correct_skew w image = rotated image h wd skew.
Proof.
  unfold _correct_skew, correct_skew_body.
  unfold mbind, result_bind, bind.
  destruct (Canny w image 50 150 3) as [edges|e|]; auto.
  destruct (HoughLines w edges 1 theta_resolution 100)
    as [[lines|]|e|]; auto.
  destruct (0 <? length lines)%nat; auto.
  destruct (decide (_ = [])); auto.
  match goal with
  | |- context [SFltb (half ?f) (SFabs ?m)] =>
      change (SFltb (half f) (SFabs m)) with (exceeds_half f m);
      destruct (exceeds_half f m) eqn:Hbig; auto;
      set (skew := m) in *
  end.
  unfold unpack_shape.
  destruct (shape image) as [|h [|wd [|extra rest]]]; auto.
  cbv beta iota.
  destruct (warpAffine_error w image); auto.
  right. exists h, wd, skew. split; [reflexivity|].
  split; [exact Hbig|reflexivity].
Qed.

(** C4. Skew correction does what the specification describes: it looks
    at no more than 10 detected lines, turns each angle into a deviation
    from the horizontal, keeps the deviations below 45 degrees, takes
    their median as the skew, and rotates the image about its center with
    cubic interpolation and a replicated border only when that median
    exceeds half a degree in magnitude; with no surviving line, or an
    exception raised on the way, it returns the image it was given.  No
    outcome is an exception.  The angles are computed and compared as
    NumPy does, in the format of its scalars. *)
Theorem C4_skew_correction (w : env) (image : Cv.image) :
  skew_corrected w image (_correct_skew w image)
  /\ (forall f lines,
        (length (surviving_angles f lines) <= 10)%nat
        /\ Forall (fun angle =>
                     below_45 f angle = true
                     /\ exists line theta,
                          line ∈ firstn 10 lines
                          /\ theta_of line = Some theta
                          /\ angle = deviation f theta)
             (surviving_angles f lines))
  /\ (_correct_skew w image = image
      \/ exists h wd skew,
           shape image = [h; wd]
           /\ exceeds_half (scalar_format w) skew = true
           /\ _correct_skew w image = rotated image h wd skew).
Proof.
  split; [|split].
  - unfold skew_corrected, _correct_skew, correct_skew_body.
    unfold mbind, result_bind, bind. cbv zeta.
    destruct (Canny w image 50 150 3) as [edges|e|]; try reflexivity.
    change (Ieee.div Ieee.binary64
              (S754_finite false 7074237752028440 (-51))
              (Ieee.of_Z Ieee.binary64 180))
      with theta_resolution.
    destruct (HoughLines w edges 1 theta_resolution 100)
      as [[lines|]|e|]; try reflexivity.
    destruct lines as [|line lines]; [reflexivity|].
    change (0 <? length (line :: lines))%nat with true. cbv iota.
    rewrite collected_angles.
    pose proof (surviving_angles_not_nan (scalar_format w) (line :: lines))
      as Hnan.
    destruct (surviving_angles (scalar_format w) (line :: lines))
      as [|a angles] eqn:E; [reflexivity|].
    destruct (decide (a :: angles = [])) as [Hnil|_]; [discriminate Hnil|].
    exists (median (scalar_format w) (a :: angles)).
    split; [now apply median_is_median|].
    change (SFltb (half (scalar_format w))
              (SFabs (median (scalar_format w) (a :: angles))))
      with (exceeds_half (scalar_format w)
              (median (scalar_format w) (a :: angles))).
    destruct (exceeds_half (scalar_format w)
                (median (scalar_format w) (a :: angles)));
      [|reflexivity].
    unfold unpack_shape.
    destruct (shape image) as [|h [|wd [|extra rest]]]; try reflexivity.
    cbv beta iota.
    destruct (warpAffine_error w image); reflexivity.
  - intros f lines. split; [apply surviving_angles_length|].
    apply surviving_angles_origin.
  - apply correct_skew_outcome.
Qed.

(** ** The preprocessing stages *)

Lemma correct_skew_history (w : env) (image : Cv.image) :
  exists turned : bool,
    history (_correct_skew w image)
    = (history image ++ if turned then [P_warpAffine] else [])%list.
Proof.
  destruct (correct_skew_outcome w image)
    as [Hsame|(h & wd & skew & _ & _ & Hrot)].
  - exists false. rewrite Hsame. now rewrite app_nil_r.
  - exists true. rewrite Hrot. reflexivity.
Qed.

(** C5, as the code has it.  On a three-channel page image the adapter of
    [ocr_adapters.py] applies, whatever its flags: grayscale conversion,
    then denoising if enabled, then contrast enhancement if enabled, then
    deskewing if enabled, then adaptive Gaussian binarization, then one
    closing and one opening.  The adapter the factory wires has no flags
    and applies grayscale conversion, adaptive Gaussian binarization and a
    median blur. *)
Theorem C5_preprocessing_stages
    (self : OcrAdapters.TesseractOpenCVAdapter.TesseractOpenCVAdapter)
    (wired : Ocr.TesseractOpenCVAdapter.TesseractOpenCVAdapter)
    (w : env) (image : Cv.image)
    (Hrgb : length (shape image) = 3%nat) :
  OcrAdapters.TesseractOpenCVAdapter._preprocess_image self w image
  = staged (enable_deskewing self) (enable_denoising self)
      (enable_contrast_enhancement self) w image
  /\ (exists turned,
        history
          (OcrAdapters.TesseractOpenCVAdapter._preprocess_image self w image)
        = (history image
           ++ expected_stages (enable_deskewing self)
                (enable_denoising self) (enable_contrast_enhancement self)
                turned)%list)
  /\ fst (Ocr.TesseractOpenCVAdapter._preprocess_image wired image)
     = Return (medianBlur
                 (adaptiveThreshold_GAUSSIAN_BINARY
                    (cvtColor_RGB2GRAY image) 255 11 2) 3)
  /\ (forall processed,
        fst (Ocr.TesseractOpenCVAdapter._preprocess_image wired image)
        = Return processed ->
        history processed
        = (history image
           ++ [P_cvtColor; P_adaptiveThreshold; P_medianBlur])%list).
Proof.
  assert (Hstaged :
            OcrAdapters.TesseractOpenCVAdapter._preprocess_image self w image
            = staged (enable_deskewing self) (enable_denoising self)
                (enable_contrast_enhancement self) w image).
  { unfold OcrAdapters.TesseractOpenCVAdapter._preprocess_image, staged.
    rewrite Hrgb. reflexivity. }
  assert (Hwired :
            fst (Ocr.TesseractOpenCVAdapter._preprocess_image wired image)
            = Return (medianBlur
                        (adaptiveThreshold_GAUSSIAN_BINARY
                           (cvtColor_RGB2GRAY image) 255 11 2) 3)).
  { unfold Ocr.TesseractOpenCVAdapter._preprocess_image,
      Ocr.TesseractOpenCVAdapter.cvtColor_checked.
    rewrite Hrgb. reflexivity. }
  split; [exact Hstaged|]. split; [|split; [exact Hwired|]].
  - rewrite Hstaged. unfold staged, expected_stages.
    destruct (enable_deskewing self), (enable_denoising self),
      (enable_contrast_enhancement self);
      cbn [history andb];
      try (destruct (correct_skew_history w
                       (CLAHE_apply 2 (8%Z, 8%Z)
                          (bilateralFilter (cvtColor_RGB2GRAY image) 9 75 75)))
             as [turned ->]);
      try (destruct (correct_skew_history w
                       (CLAHE_apply 2 (8%Z, 8%Z) (cvtColor_RGB2GRAY image)))
             as [turned ->]);
      try (destruct (correct_skew_history w
                       (bilateralFilter (cvtColor_RGB2GRAY image) 9 75 75))
             as [turned ->]);
      try (destruct (correct_skew_history w (cvtColor_RGB2GRAY image))
             as [turned ->]);
      try (exists turned; destruct turned; cbn [history];
           rewrite <- ?app_assoc; reflexivity);
      exists false; rewrite <- ?app_assoc; reflexivity.
  - intros processed H. rewrite Hwired in H. injection H as <-.
    cbn [history]. rewrite <- !app_assoc. reflexivity.
Qed.

End Skew.

Section RecognitionScenarios.
Import Cv OcrAdapters OcrAdapters.TesseractOpenCVAdapter OcrSpec
  PreprocessSpec UseCases Scenarios.

(** An engine that gives up on the second page shows the difference:
    the wired adapter's message does not name the path, and the adapter of
    [ocr_adapters.py] does not raise a [ProcessingError] at all. *)
Lemma C6_message_omits_path :
  extract_text_of (Wired basic_adapter) broken_engine_env informe_pdf
  = Raise (mkExn ProcessingError
             "Error en OCR básico: (1, 'Error opening data file')")
  /\ contains (str informe_pdf)
       "Error en OCR básico: (1, 'Error opening data file')" = false
  /\ raised_class
       (extract_text_of
          (LegacyBasic (OcrAdapters.TesseractAdapter.__init__ "spa" 300))
          broken_engine_env informe_pdf)
     = Some (Builtin "TesseractError").
Proof. repeat split; vm_compute; reflexivity. Qed.

Lemma C6_recognition_witness :
  extract_text_of (Wired basic_adapter) broken_engine_env informe_pdf
  = Raise (surfaced (Wired basic_adapter) tesseract_error).
Proof.
  apply (C6_recognition_all_or_nothing (Wired basic_adapter)
           broken_engine_env informe_pdf tesseract_error).
  right. exists [first_page], second_page, [], ["Estimado cliente"].
  split; [reflexivity|]. split; [|reflexivity].
  constructor; [reflexivity|constructor].
Defined.

(** On the page scanned two degrees off, three angles survive (the
    malformed entry and the page border do not); in single precision
    their median is 16777152 * 2^-23, a little under 2 degrees, and the
    page is rotated by it about (1275, 1650). *)
Example skewed_page_angles :
  length (surviving_angles Ieee.binary32 skewed_lines) = 3%nat
  /\ median Ieee.binary32 (surviving_angles Ieee.binary32 skewed_lines)
     = S754_finite false 16777152 (-23)
  /\ Ieee.to_Q (S754_finite false 16777152 (-23)) = 262143 # 131072.
Proof. repeat split; vm_compute; reflexivity. Qed.

Example skewed_page_rotated :
  _correct_skew skewed_env (cvtColor_RGB2GRAY first_page)
  = warpAffine (cvtColor_RGB2GRAY first_page) (1275%Z, 1650%Z)
      (S754_finite false 16777152 (-23)) 1 (2550%Z, 3300%Z)
      INTER_CUBIC BORDER_REPLICATE.
Proof. vm_compute. reflexivity. Qed.

(** Where no line is detected the page comes back as it went in. *)
Example straight_page_untouched :
  _correct_skew office_env (cvtColor_RGB2GRAY first_page)
  = cvtColor_RGB2GRAY first_page.
Proof. reflexivity. Qed.

(** The format decides at the edge: the single-precision direction
    nearest to 45 degrees gives a deviation of exactly -45 in single
    precision, which is dropped, and of a little less in magnitude in
    double precision, which is kept and rotates the page. *)
Example diagonal_line_by_format :
  line_angle Ieee.binary32 (theta_deg 45)
  = Ieee.of_Z Ieee.binary32 (-45)
  /\ _correct_skew (diagonal_env Ieee.binary32)
       (cvtColor_RGB2GRAY first_page)
     = cvtColor_RGB2GRAY first_page
  /\ _correct_skew (diagonal_env Ieee.binary64)
       (cvtColor_RGB2GRAY first_page)
     = rotated (cvtColor_RGB2GRAY first_page) 3300 2550
         (line_angle Ieee.binary64 (theta_deg 45)).
Proof. repeat split; vm_compute; reflexivity. Qed.

Example full_preprocessing_history :
  history (OcrAdapters.TesseractOpenCVAdapter._preprocess_image
             full_preprocessing skewed_env first_page)
  = [P_cvtColor; P_bilateralFilter; P_CLAHE; P_warpAffine;
     P_adaptiveThreshold; P_morph MORPH_CLOSE; P_morph MORPH_OPEN].
Proof. vm_compute. reflexivity. Qed.

(** On the page scanned two degrees off. *)
Lemma C4_skew_witness :
  skew_corrected skewed_env (cvtColor_RGB2GRAY first_page)
    (_correct_skew skewed_env (cvtColor_RGB2GRAY first_page))
  /\ (length (surviving_angles Ieee.binary32 skewed_lines) <= 10)%nat.
Proof.
  destruct (C4_skew_correction skewed_env (cvtColor_RGB2GRAY first_page))
    as (Hspec & Hangles & _).
  split; [exact Hspec|]. exact (proj1 (Hangles Ieee.binary32 skewed_lines)).
Defined.

(** The adapter the factory wires behaves otherwise: whatever the flags,
    the stages it applies are not the stages of the flagged order. *)
Lemma C5_wired_adapter_stages :
  exists processed,
    fst (Ocr.TesseractOpenCVAdapter._preprocess_image wired_opencv
           first_page) = Return processed
    /\ history processed
       = [P_cvtColor; P_adaptiveThreshold; P_medianBlur]
    /\ forall deskew denoise contrast turned,
         history processed
         <> expected_stages deskew denoise contrast turned.
Proof.
  eexists. split; [reflexivity|]. split; [reflexivity|].
  intros [] [] [] []; discriminate.
Qed.

Lemma C5_preprocessing_witness :
  OcrAdapters.TesseractOpenCVAdapter._preprocess_image full_preprocessing
    skewed_env first_page
  = staged true true true skewed_env first_page
  /\ (exists turned,
        history (OcrAdapters.TesseractOpenCVAdapter._preprocess_image
                   full_preprocessing skewed_env first_page)
        = expected_stages true true true turned)
  /\ fst (Ocr.TesseractOpenCVAdapter._preprocess_image wired_opencv first_page)
     = Return (medianBlur
                 (adaptiveThreshold_GAUSSIAN_BINARY
                    (cvtColor_RGB2GRAY first_page) 255 11 2) 3).
Proof.
  destruct (C5_preprocessing_stages full_preprocessing wired_opencv
              skewed_env first_page eq_refl)
    as (Hstaged & Hhistory & Hwired & _).
  split; [exact Hstaged|]. split; [exact Hhistory|exact Hwired].
Defined.

End RecognitionScenarios.

(** ** The orchestrators *)

Section Orchestrators.
Import Fs Cv Ports FileStorage UseCases.
Context {A T : Type} `{!OCRPort A} `{!TableExtractorPort T}.

(** A run of either orchestrator that returns a document went through
    recognition, table extraction and storage, and the document is
    assembled from what these returned. *)
Lemma run_returns (ocr0 : A) (te : T) (storage0 : FileStorage) (w : env)
    (uuid4 : string) (elapsed : Q) (pdf_path : list string) (fs : FS)
    (doc : Models.Document) (st : A * FS) :
  ProcessDocument.execute (ProcessDocument.__init__ ocr0 te storage0)
    w uuid4 elapsed pdf_path fs = (Return doc, st)
  \/ DocumentProcessor.process (DocumentProcessor.__init__ ocr0 te storage0)
       w uuid4 pdf_path fs = (Return doc, st) ->
  exists text conf ocr1 tables gf d,
    port_extract_text ocr0 w pdf_path = (Return text, ocr1)
    /\ port_get_confidence ocr1 = (Return conf, fst st)
    /\ port_extract_tables te pdf_path = Return tables
    /\ FileStorage.save_document storage0
         (Entities.Document_init uuid4 (stem pdf_path) text tables
            (Some pdf_path)) fs
       = (Return gf, snd st)
    /\ first_parent gf = Some d
    /\ Models.name doc = name d
    /\ Models.extracted_text doc = text
    /\ Models.tables doc = tables
    /\ Models.confidence doc = Some conf
    /\ Models.output_directory doc = Some d
    /\ Models.generated_files doc = Some gf.
Proof.
  intros [H|H].
  - unfold ProcessDocument.execute, wrap_run, ProcessDocument.execute_body,
      ExtractDocumentTextUseCase.execute, ExtractTablesUseCase.execute,
      SaveDocumentUseCase.execute, name_of in H.
    unfold mbind, result_bind, bind in H.
    cbn [ProcessDocument.__init__ ProcessDocument.extract_text_use_case
         ProcessDocument.extract_tables_use_case
         ProcessDocument.save_document_use_case
         ExtractDocumentTextUseCase.ocr
         ExtractTablesUseCase.table_extractor
         SaveDocumentUseCase.storage] in H.
    destruct (port_extract_text ocr0 w pdf_path)
      as [[text|e|] ocr1] eqn:E1; try discriminate H.
    destruct (port_get_confidence ocr1)
      as [[conf|e|] ocr2] eqn:E2; try discriminate H.
    destruct (port_extract_tables te pdf_path)
      as [tables|e|] eqn:E3; try discriminate H.
    destruct (FileStorage.save_document _ _ fs)
      as [[gf|e|] fs'] eqn:E4; try discriminate H.
    destruct (first_parent gf) as [d|] eqn:E5; try discriminate H.
    injection H as <- <-. cbn.
    exists text, conf, ocr1, tables, gf, d. repeat split; assumption.
  - unfold DocumentProcessor.process, wrap_run,
      DocumentProcessor.process_body, save, name_of in H.
    cbn [DocumentProcessor.ocr DocumentProcessor.table_extractor
         DocumentProcessor.storage] in H.
    destruct (port_extract_text ocr0 w pdf_path)
      as [[text|e|] ocr1] eqn:E1; try discriminate H.
    destruct (port_get_confidence ocr1)
      as [[conf|e|] ocr2] eqn:E2; try discriminate H.
    destruct (port_extract_tables te pdf_path)
      as [tables|e|] eqn:E3; try discriminate H.
    destruct (FileStorage.save_document _ _ fs)
      as [[gf|e|] fs'] eqn:E4; try discriminate H.
    destruct (first_parent gf) as [d|] eqn:E5; try discriminate H.
    injection H as <- <-. cbn.
    exists text, conf, ocr1, tables, gf, d. repeat split; assumption.
Qed.

(** C8. The document a successful run returns is named after the directory
    storage allocated for it: its name is the last component of its output
    directory, that directory is the first unused candidate for the stem of
    the source path and exists after the run, and the name equals the stem
    exactly when no entry of that name was in the output root before the
    run, which is how a caller sees that a counter suffix was added. *)
Theorem C8_document_named_after_directory
    (ocr0 : A) (te : T) (storage0 : FileStorage) (w : env) (uuid4 : string)
    (elapsed : Q) (pdf_path : list string) (fs : FS)
    (doc : Models.Document) (st : A * FS)
    (Hrun :
       ProcessDocument.execute (ProcessDocument.__init__ ocr0 te storage0)
         w uuid4 elapsed pdf_path fs = (Return doc, st)
       \/ DocumentProcessor.process
            (DocumentProcessor.__init__ ocr0 te storage0)
            w uuid4 pdf_path fs = (Return doc, st)) :
  exists k,
    let d := candidate_path storage0 (stem pdf_path) k in
    Models.output_directory doc = Some d
    /\ Models.name doc = name d
    /\ Models.name doc = candidate (stem pdf_path) k
    /\ exists_ fs d = false
    /\ d ∈ dom (snd st)
    /\ (Models.name doc = stem pdf_path <->
        exists_ fs (div (output_dir storage0) (stem pdf_path)) = false).
Proof.
  destruct (run_returns ocr0 te storage0 w uuid4 elapsed pdf_path fs doc st
              Hrun)
    as (text & conf & ocr1 & tables & gf & d & _ & _ & _ & Hsave & Hpar
        & Hname & _ & _ & _ & Hdir & _).
  destruct (save_document_outcome storage0
              (Entities.Document_init uuid4 (stem pdf_path) text tables
                 (Some pdf_path)) fs)
    as (k & Hfree & Hused & Hout).
  cbn [Entities.name Entities.Document_init] in Hfree, Hused, Hout.
  destruct (Hout gf (snd st) Hsave) as ((rest & -> & _) & Hin & _).
  cbn [first_parent] in Hpar. rewrite parent_div in Hpar.
  injection Hpar as <-.
  exists k. cbv zeta.
  split; [exact Hdir|]. split; [exact Hname|].
  split; [rewrite Hname; apply name_div|].
  split; [exact Hfree|]. split; [exact Hin|].
  rewrite Hname. unfold candidate_path. rewrite name_div. split.
  - intros E. destruct k as [|k]; [exact Hfree|].
    exfalso. apply (numbered_not_base _ _ E).
  - intros H0. destruct k as [|k]; [reflexivity|].
    specialize (Hused 0%nat ltac:(lia)). unfold candidate_path in Hused.
    cbn [candidate] in Hused. congruence.
Qed.

End Orchestrators.

Section FactoryTables.
Import Fs Cv Ports FileStorage UseCases.
Context {A : Type} `{!OCRPort A}.

(** [save_document] lists and writes the tables file exactly when the
    document has tables. *)
Lemma save_document_tables_file
    (storage0 : FileStorage) (document : Entities.Document) (fs : FS)
    (gf : list (list string)) (fs' : FS) :
  FileStorage.save_document storage0 document fs = (Return gf, fs') ->
  exists d,
    first_parent gf = Some d
    /\ (div d (name d ++ "_tablas.json") ∈ gf <->
        Entities.tables document <> [])
    /\ (Entities.tables document = [] ->
        fs' !! div d (name d ++ "_tablas.json")
        = fs !! div d (name d ++ "_tablas.json")).
Proof.
  intros Hsave.
  destruct (save_document_outcome storage0 document fs)
    as (k & _ & _ & Hout).
  destruct (Hout gf fs' Hsave) as ((rest & -> & Hrest) & _ & Hfs).
  eexists. split; [cbn [first_parent]; rewrite parent_div; reflexivity|].
  split.
  - rewrite elem_of_cons, Hrest. split; [|tauto].
    intros [E|H]; [|exact H]. exfalso. revert E. apply div_neq. discriminate.
  - intros Hnil. rewrite Hfs. destruct (decide _); [reflexivity|done].
Qed.

(** C10. The table extractor the factory wires returns the empty list for
    every path; so a document returned by a run that uses it has no tables,
    and its tables file is neither listed among the generated files nor
    written, since [save_document] lists and writes that file exactly when
    the document has tables. *)
Theorem C10_no_tables_file
    (ocr0 : A) (storage0 : FileStorage) (w : env) (uuid4 : string)
    (elapsed : Q) (pdf_path : list string) (fs : FS)
    (doc : Models.Document) (st : A * FS)
    (Hrun :
       ProcessDocument.execute
         (ProcessDocument.__init__ ocr0
            AdapterFactory.create_table_extractor storage0)
         w uuid4 elapsed pdf_path fs = (Return doc, st)
       \/ DocumentProcessor.process
            (DocumentProcessor.__init__ ocr0
               AdapterFactory.create_table_extractor storage0)
            w uuid4 pdf_path fs = (Return doc, st)) :
  (forall p,
     TableSimple.extract_tables AdapterFactory.create_table_extractor p
     = Return [])
  /\ Models.tables doc = []
  /\ (exists d gf,
        Models.output_directory doc = Some d
        /\ Models.generated_files doc = Some gf
        /\ (div d (name d ++ "_tablas.json") ∉ gf)
        /\ snd st !! div d (name d ++ "_tablas.json")
           = fs !! div d (name d ++ "_tablas.json"))
  /\ (forall document fs0 gf fs1,
        FileStorage.save_document storage0 document fs0 = (Return gf, fs1) ->
        exists d,
          first_parent gf = Some d
          /\ (div d (name d ++ "_tablas.json") ∈ gf <->
              Entities.tables document <> [])).
Proof.
  split; [reflexivity|].
  destruct (run_returns _ _ _ w uuid4 elapsed pdf_path fs doc st Hrun)
    as (text & conf & ocr1 & tables & gf & d & _ & _ & Htab & Hsave & Hpar
        & _ & _ & Htables & _ & Hdir & Hgf).
  cbn in Htab. injection Htab as <-.
  split; [exact Htables|]. split.
  - destruct (save_document_tables_file _ _ _ _ _ Hsave)
      as (d' & Hpar' & Hiff & Hfs).
    rewrite Hpar in Hpar'. injection Hpar' as <-.
    exists d, gf. split; [exact Hdir|]. split; [exact Hgf|]. split.
    + rewrite Hiff. cbn. intros H. now apply H.
    + apply Hfs. reflexivity.
  - intros document fs0 gf0 fs1 H0.
    destruct (save_document_tables_file _ _ _ _ _ H0) as (d' & ? & ? & _).
    eauto.
Qed.

End FactoryTables.

Section FactoryAdapters.
Import Fs Cv Ports FileStorage UseCases AdapterFactory.

(** *** No method assigns [last_confidence] *)

Lemma opencv_page_loop_self (w : env)
    (self : Ocr.TesseractOpenCVAdapter.TesseractOpenCVAdapter)
    (images : list image) : forall extracted_text,
  snd (Ocr.TesseractOpenCVAdapter.page_loop w self images extracted_text)
  = self.
Proof.
  induction images as [|image rest IH]; intros acc; cbn; [reflexivity|].
  destruct (Ocr.TesseractOpenCVAdapter.cvtColor_checked image)
    as [gray|e|]; cbn;
    try reflexivity.
  destruct (image_to_string w _ (Ocr.TesseractOpenCVAdapter.lang self)); cbn;
    [apply IH | reflexivity | reflexivity].
Qed.

Lemma opencv_extract_text_self (w : env)
    (self : Ocr.TesseractOpenCVAdapter.TesseractOpenCVAdapter)
    (pdf_path : list string) :
  snd (Ocr.TesseractOpenCVAdapter.extract_text self w pdf_path) = self.
Proof.
  unfold Ocr.TesseractOpenCVAdapter.extract_text.
  destruct (convert_from_path w pdf_path
              (Ocr.TesseractOpenCVAdapter.dpi self)) as [images|e|];
    try reflexivity.
  pose proof (opencv_page_loop_self w self images []) as Hloop.
  destruct (Ocr.TesseractOpenCVAdapter.page_loop w self images []) as [r self'].
  exact Hloop.
Qed.

Lemma adapter_extract_text_self (a : ocr_adapter) (w : env)
    (pdf_path : list string) :
  snd (adapter_extract_text a w pdf_path) = a.
Proof.
  destruct a as [a|a]; cbn; [reflexivity|].
  pose proof (opencv_extract_text_self w a pdf_path) as Hself.
  destruct (Ocr.TesseractOpenCVAdapter.extract_text a w pdf_path)
    as [r a']. cbn in *.
  now subst a'.
Qed.

Lemma after_same (w : env) (a : ocr_adapter) (c : call) : after w a c = a.
Proof.
  destruct a as [a|a]; destruct c; cbn; try reflexivity.
  f_equal. apply opencv_extract_text_self.
Qed.

Lemma after_all_same (w : env) (calls : list call) : forall a,
  fold_left (after w) calls a = a.
Proof.
  induction calls as [|c calls IH]; intros a; cbn; [reflexivity|].
  rewrite after_same. apply IH.
Qed.

Lemma created_confidence_zero (config : SystemConfig) (a : ocr_adapter) :
  create_ocr_adapter config = Return a -> adapter_last_confidence a = 0%Q.
Proof.
  unfold create_ocr_adapter. intros H.
  destruct (String.eqb _ ENGINE_TYPE_BASIC);
    [|destruct (String.eqb _ ENGINE_TYPE_OPENCV)];
    try discriminate H; injection H as <-; reflexivity.
Qed.

(** C9. An adapter made by the factory starts with [last_confidence] 0.0,
    and no call of any of its methods changes that field; so
    [get_confidence] answers 0.0 after any sequence of calls, and a
    document returned by a run of either orchestrator with such an adapter
    carries confidence 0.0. *)
Theorem C9_confidence_always_zero
    (config : SystemConfig) (a : ocr_adapter) (w : env) (calls : list call)
    (Hcreate : create_ocr_adapter config = Return a) :
  let a' := fold_left (after w) calls a in
  adapter_last_confidence a = 0%Q
  /\ adapter_last_confidence a' = 0%Q
  /\ fst (adapter_get_confidence a') = Return 0%Q
  /\ forall (T : Type) (P : TableExtractorPort T) (te : T)
        (storage0 : FileStorage) (uuid4 : string) (elapsed : Q)
        (pdf_path : list string) (fs : FS) (doc : Models.Document)
        (st : ocr_adapter * FS),
        ProcessDocument.execute (ProcessDocument.__init__ a' te storage0)
          w uuid4 elapsed pdf_path fs = (Return doc, st)
        \/ DocumentProcessor.process
             (DocumentProcessor.__init__ a' te storage0)
             w uuid4 pdf_path fs = (Return doc, st) ->
        Models.confidence doc = Some 0%Q.
Proof.
  cbv zeta. rewrite after_all_same.
  pose proof (created_confidence_zero config a Hcreate) as H0.
  assert (Hget : fst (adapter_get_confidence a) = Return 0%Q).
  { destruct a as [a|a]; cbn in *; now rewrite H0. }
  split; [exact H0|]. split; [exact H0|]. split; [exact Hget|].
  intros T P te storage0 uuid4 elapsed pdf_path fs doc st Hrun.
  destruct (run_returns _ _ _ w uuid4 elapsed pdf_path fs doc st Hrun)
    as (text & conf & ocr1 & tables & gf & d & Htext & Hconf & _ & _ & _
        & _ & _ & _ & Hdoc & _).
  cbn in Htext, Hconf.
  pose proof (adapter_extract_text_self a w pdf_path) as Hself.
  rewrite Htext in Hself. cbn in Hself. subst ocr1.
  rewrite Hconf in Hget. cbn in Hget. injection Hget as ->.
  exact Hdoc.
Qed.

(** *** Paths that cannot be read *)

Lemma rasterizer_failure_wrapped (a : ocr_adapter) (w : env)
    (pdf_path : list string) (e : exn) :
  convert_from_path w pdf_path (adapter_dpi a) = Raise e ->
  exists prefix,
    adapter_extract_text a w pdf_path
    = (Raise (mkExn ProcessingError (prefix ++ exn_str e)), a).
Proof.
  intros H. destruct a as [a|a]; cbn in *.
  - exists "Error en OCR básico: ".
    unfold Ocr.TesseractAdapter.extract_text. rewrite H. reflexivity.
  - exists "Error en OCR con OpenCV: ".
    unfold Ocr.TesseractOpenCVAdapter.extract_text. rewrite H. reflexivity.
Qed.

(** C3, as the code has it.  When a reader cannot open the path,
    [analyze_pdf] ends with the reader's own exception, unchanged, and
    returns no metrics; when the rasterizer cannot open it, both
    orchestrators end with a [ProcessingError] (the one raised by [execute]
    names the path) and leave the file system as it was, so no output
    directory is created. *)
Theorem C3_unreadable_pdf_propagates
    (rd : PdfAnalyzer.readers) (w : env) (a : ocr_adapter)
    {T : Type} `{!TableExtractorPort T} (te : T) (storage0 : FileStorage)
    (uuid4 : string) (elapsed : Q) (pdf_path : list string) (fs : FS)
    (e e' : exn)
    (Hreader :
       PdfAnalyzer.pdfplumber_open rd pdf_path = Raise e
       \/ (exists pages,
             PdfAnalyzer.pdfplumber_open rd pdf_path = Return pages
             /\ PdfAnalyzer.fitz_open rd pdf_path = Raise e))
    (Hraster : convert_from_path w pdf_path (adapter_dpi a) = Raise e') :
  PdfAnalyzer.analyze_pdf rd pdf_path = Raise e
  /\ (exists msg,
        ProcessDocument.execute (ProcessDocument.__init__ a te storage0)
          w uuid4 elapsed pdf_path fs
        = (Raise (mkExn ProcessingError msg), (a, fs))
        /\ contains (str pdf_path) msg = true)
  /\ (exists msg,
        DocumentProcessor.process (DocumentProcessor.__init__ a te storage0)
          w uuid4 pdf_path fs
        = (Raise (mkExn ProcessingError msg), (a, fs))).
Proof.
  split.
  { unfold PdfAnalyzer.analyze_pdf, PdfAnalyzer._extract_pdf_metrics.
    destruct Hreader as [H|(pages & H1 & H2)].
    - rewrite H. reflexivity.
    - rewrite H1. cbn. rewrite H2. reflexivity. }
  destruct (rasterizer_failure_wrapped a w pdf_path e' Hraster)
    as (prefix & Hocr).
  split.
  - exists (("Error procesando " ++ str pdf_path ++ ": ")
             ++ prefix ++ exn_str e').
    split.
    + unfold ProcessDocument.execute, ProcessDocument.execute_body,
        ExtractDocumentTextUseCase.execute.
      cbn [port_extract_text ocr_adapter_port ProcessDocument.__init__
           ProcessDocument.extract_text_use_case
           ExtractDocumentTextUseCase.ocr].
      rewrite Hocr. reflexivity.
    + apply contains_infix_app.
  - eexists. unfold DocumentProcessor.process,
      DocumentProcessor.process_body. cbn. rewrite Hocr. cbn.
    reflexivity.
Qed.

End FactoryAdapters.

Section OrchestratorScenarios.
Import Fs Cv Ports FileStorage UseCases Scenarios.

(** A run is known by the document it returns; the file system it leaves
    is whatever the run computes. *)
Lemma run_with_state {D S : Type} (x : result D * S) (r : result D) :
  fst x = r -> x = (r, snd x).
Proof. intros <-. now destruct x. Qed.

Lemma C8_document_named_witness :
  exists k,
    let d := candidate_path reports_storage (stem informe_pdf) k in
    Models.output_directory informe_01_document = Some d
    /\ Models.name informe_01_document = name d
    /\ Models.name informe_01_document = candidate (stem informe_pdf) k
    /\ exists_ taken_root d = false
    /\ d ∈ dom (snd (ProcessDocument.execute basic_pipeline office_env
                       "7f3c" 2 informe_pdf taken_root)).2
    /\ (Models.name informe_01_document = stem informe_pdf <->
        exists_ taken_root
          (div (output_dir reports_storage) (stem informe_pdf)) = false).
Proof.
  apply (C8_document_named_after_directory basic_adapter
           AdapterFactory.create_table_extractor reports_storage office_env
           "7f3c" 2 informe_pdf taken_root informe_01_document
           (snd (ProcessDocument.execute basic_pipeline office_env "7f3c" 2
                   informe_pdf taken_root))).
  left. apply run_with_state. vm_compute. reflexivity.
Defined.

Lemma C10_no_tables_file_witness :
  Models.tables informe_01_document = []
  /\ exists d gf,
       Models.output_directory informe_01_document = Some d
       /\ Models.generated_files informe_01_document = Some gf
       /\ div d (name d ++ "_tablas.json") ∉ gf.
Proof.
  destruct (C10_no_tables_file opencv_adapter reports_storage office_env
              "7f3c" 2 informe_pdf taken_root informe_01_document
              (snd (ProcessDocument.execute opencv_pipeline office_env "7f3c" 2
                      informe_pdf taken_root)))
    as (_ & Htables & (d & gf & Hd & Hgf & Hnot & _) & _).
  - left. apply run_with_state. vm_compute. reflexivity.
  - split; [exact Htables|]. exists d, gf. auto.
Defined.

Lemma C9_confidence_zero_witness :
  AdapterFactory.adapter_last_confidence
    (fold_left (AdapterFactory.after office_env) busy_calls opencv_adapter)
  = 0%Q
  /\ Models.confidence informe_01_document = Some 0%Q.
Proof.
  destruct (C9_confidence_always_zero
              (AdapterFactory.mkSystemConfig "spa" 300 "opencv")
              opencv_adapter office_env busy_calls eq_refl)
    as (_ & Hafter & _ & Hdoc).
  split; [exact Hafter|].
  apply (Hdoc _ _ AdapterFactory.create_table_extractor reports_storage
           "7f3c" 2%Q informe_pdf taken_root informe_01_document
           (snd (ProcessDocument.execute
                   (ProcessDocument.__init__
                      (fold_left (AdapterFactory.after office_env)
                         busy_calls opencv_adapter)
                      AdapterFactory.create_table_extractor
                      reports_storage)
                   office_env "7f3c" 2 informe_pdf taken_root))).
  left. apply run_with_state. vm_compute. reflexivity.
Defined.

(** A missing file shows the difference: what [analyze_pdf] raises is the
    reader's [FileNotFoundError], or the [NameError] of the unbound name
    when nothing has bound the readers, and in neither case a
    [DocumentError]. *)
Lemma C3_not_document_error :
  raised_class (PdfAnalyzer.analyze_pdf missing_file_readers no_such_pdf)
  = Some (Builtin "FileNotFoundError")
  /\ raised_class
       (PdfAnalyzer.analyze_pdf PdfAnalyzer.unbound_readers no_such_pdf)
     = Some (Builtin "NameError")
  /\ raised_class (PdfAnalyzer.analyze_pdf missing_file_readers no_such_pdf)
     <> Some DocumentError
  /\ raised_class
       (PdfAnalyzer.analyze_pdf PdfAnalyzer.unbound_readers no_such_pdf)
     <> Some DocumentError.
Proof. repeat split; try reflexivity; discriminate. Qed.

Lemma C3_unreadable_pdf_witness :
  PdfAnalyzer.analyze_pdf missing_file_readers no_such_pdf
  = Raise missing_file_error
  /\ exists msg,
       ProcessDocument.execute basic_pipeline office_env "7f3c" 2
         no_such_pdf reports_root
       = (Raise (mkExn ProcessingError msg), (basic_adapter, reports_root))
       /\ contains (str no_such_pdf) msg = true.
Proof.
  destruct (C3_unreadable_pdf_propagates missing_file_readers office_env
              basic_adapter AdapterFactory.create_table_extractor
              reports_storage "7f3c" 2 no_such_pdf reports_root
              missing_file_error
              (mkExn (Builtin "PDFPageCountError")
                 "Unable to get page count.")
              (or_introl eq_refl) eq_refl)
    as (Hanalyze & Hexecute & _).
  split; [exact Hanalyze|exact Hexecute].
Defined.

End OrchestratorScenarios.

(* ===================================================================== *)
(** * Part III: the rest of the cited modules                              *)
(* ===================================================================== *)

(** ** What metrics extraction guarantees *)

Section ExtractionInvariants.
Import Py PdfAnalyzer ClassifierSpec PageText OptimalConfig Scenarios.

Lemma len_nonneg (s : string) : (0 <= len s)%Z.
Proof. unfold len. lia. Qed.

(** A double that rounds a quotient of numbers that are not negative is
    not negative. *)
Lemma to_Q_nonneg (x : spec_float) :
  (forall m e, x <> S754_finite true m e) -> (0 <= Ieee.to_Q x)%Q.
Proof.
  intros Hx. destruct x as [s|s| |s m e]; try apply Qle_refl.
  destruct s; [now destruct (Hx m e)|].
  unfold Ieee.to_Q. destruct e as [|k|k].
  - unfold Qle. cbn. lia.
  - unfold Qle. cbn. lia.
  - rewrite Qred_correct. unfold Qle. cbn. lia.
Qed.

Lemma binary_round_aux_sign (prec emax : Z) (mx ex : Z) (lx : location)
    (m : positive) (e : Z) :
  binary_round_aux prec emax false mx ex lx <> S754_finite true m e.
Proof.
  unfold binary_round_aux.
  destruct (shr_fexp prec emax mx ex lx) as [mrs' e'].
  destruct (shr_fexp prec emax _ e' loc_Exact) as [mrs'' e''].
  destruct (shr_m mrs''); try discriminate.
  destruct (_ <=? _)%Z; discriminate.
Qed.

Lemma truediv_nonneg (a b : Z) (q : Q) :
  (0 <= a)%Z -> (0 < b)%Z -> truediv a b = Return q -> (0 <= q)%Q.
Proof.
  intros Ha Hb. unfold truediv.
  destruct (b =? 0)%Z eqn:E; [lia|].
  destruct b as [|pb|pb]; try lia.
  assert (Hexact : (0 <= inject_Z a / inject_Z (Z.pos pb))%Q).
  { apply Qle_shift_div_l; [unfold Qlt; cbn; lia|].
    rewrite Qmult_0_l. unfold Qle. cbn. lia. }
  destruct a as [|pa|pa]; try lia.
  - cbn. now intros [= <-].
  - pose proof (fun m e =>
        binary_round_aux_sign 53 1024
          (fst (fst (SFdiv_core_binary 53 1024 (Z.pos pa) 0 (Z.pos pb) 0)))
          (snd (fst (SFdiv_core_binary 53 1024 (Z.pos pa) 0 (Z.pos pb) 0)))
          (snd (SFdiv_core_binary 53 1024 (Z.pos pa) 0 (Z.pos pb) 0))
          m e) as Hsign.
    unfold Ieee.div, Ieee.exact_Z, Ieee.prec, Ieee.emax, SFdiv.
    cbn [xorb].
    destruct (SFdiv_core_binary 53 1024 (Z.pos pa) 0 (Z.pos pb) 0)
      as [[mz ez] lz].
    cbn [fst snd] in Hsign.
    destruct (binary_round_aux 53 1024 false mz ez lz) as [s|s| |s m e] eqn:R;
      intros [= <-]; try exact Hexact; try apply Qle_refl.
    apply (to_Q_nonneg (S754_finite s m e)). exact Hsign.
Qed.

(** What [derive] does to metrics: only the three ratios change, and
    with at least one page each is the quotient Python computes. *)
Lemma derive_inv (m m' : PDFMetrics) :
  derive m = Return m' ->
  total_pages m' = total_pages m
  /\ text_extractable_pages m' = text_extractable_pages m
  /\ total_text_length m' = total_text_length m
  /\ total_images m' = total_images m
  /\ total_tables m' = total_tables m
  /\ has_fonts m' = has_fonts m
  /\ ((total_pages m <= 0)%Z ->
      avg_text_per_page m' = avg_text_per_page m
      /\ image_to_page_ratio m' = image_to_page_ratio m
      /\ table_to_page_ratio m' = table_to_page_ratio m)
  /\ ((0 < total_pages m)%Z ->
      truediv (total_text_length m) (total_pages m)
      = Return (avg_text_per_page m')
      /\ truediv (total_images m) (total_pages m)
         = Return (image_to_page_ratio m')
      /\ truediv (total_tables m) (total_pages m)
         = Return (table_to_page_ratio m')).
Proof.
  unfold derive. destruct (total_pages m >? 0)%Z eqn:G.
  - destruct (truediv_returns (total_text_length m) (total_pages m))
      as [avg Ha]; [lia|].
    destruct (truediv_returns (total_images m) (total_pages m))
      as [img Hi]; [lia|].
    destruct (truediv_returns (total_tables m) (total_pages m))
      as [tbl Ht]; [lia|].
    rewrite Ha, Hi, Ht. cbn. intros [= <-]. cbn.
    repeat split; try reflexivity; try assumption; lia.
  - intros [= <-]. repeat split; try reflexivity; lia.
Qed.

(** Each pdfplumber page adds at most one extractable page and never
    lowers a counter. *)
Lemma plumber_step_counts (m : PDFMetrics) (p : plumber_page) :
  (text_extractable_pages m
   <= text_extractable_pages (plumber_step m p)
   <= text_extractable_pages m + 1)%Z
  /\ (total_text_length m <= total_text_length (plumber_step m p))%Z
  /\ (total_tables m <= total_tables (plumber_step m p))%Z
  /\ total_images (plumber_step m p) = total_images m
  /\ has_fonts (plumber_step m p) = has_fonts m.
Proof.
  unfold plumber_step. cbn -[len].
  destruct (extract_text p) as [text|];
    [pose proof (len_nonneg text)|];
    destruct (extract_tables p) as [tables|]; cbn -[len];
    repeat match goal with
      | |- context [if ?b then _ else _] => destruct b
      end; cbn -[len]; repeat split; lia.
Qed.

Lemma plumber_loop_counts (pages : list plumber_page) : forall m,
  let m' := fold_left plumber_step pages m in
  (text_extractable_pages m
   <= text_extractable_pages m'
   <= text_extractable_pages m + Z.of_nat (List.length pages))%Z
  /\ (total_text_length m <= total_text_length m')%Z
  /\ (total_tables m <= total_tables m')%Z
  /\ total_images m' = total_images m
  /\ has_fonts m' = has_fonts m.
Proof.
  induction pages as [|p pages IH]; intros m; cbn -[Z.of_nat].
  - repeat split; lia.
  - destruct (IH (plumber_step m p)) as (A & B & C & D & E).
    destruct (plumber_step_counts m p) as (A' & B' & C' & D' & E').
    cbv zeta in *. rewrite D, E, D', E'.
    repeat split; try lia.
Qed.

Lemma fitz_loop_counts (doc : list fitz_page) : forall m,
  let m' := fold_left fitz_step doc m in
  text_extractable_pages m' = text_extractable_pages m
  /\ total_text_length m' = total_text_length m
  /\ total_tables m' = total_tables m
  /\ total_images m'
     = (total_images m
        + Z.of_nat (List.length (concat (map get_images doc))))%Z
  /\ (has_fonts m' = true <->
      has_fonts m = true \/ Exists (fun p => get_fonts p <> []) doc).
Proof.
  induction doc as [|p doc IH]; intros m; cbn -[Z.of_nat].
  - repeat split; try lia.
    + intros H. now left.
    + intros [H|H]; [exact H|inversion H].
  - destruct (IH (fitz_step m p)) as (A & B & C & D & E).
    cbv zeta in *. rewrite A, B, C, D, E. cbn -[Z.of_nat].
    rewrite length_app. repeat split; try lia.
    + intros [H|H].
      * destruct (decide (get_fonts p = [])) as [Hnil|Hcons].
        -- now left.
        -- right. now constructor.
      * right. now constructor 2.
    + intros [H|H].
      * left. destruct (decide (get_fonts p = [])); [exact H|reflexivity].
      * inversion H as [? ? Hp|? ? Hrest]; subst.
        -- left. destruct (decide (get_fonts p = [])); [done|reflexivity].
        -- now right.
Qed.





(** X1.  Whatever the two readers report, the metrics that come out are
    consistent: the page count is pdfplumber's, the extractable pages are
    among them, the image count and the font flag are PyMuPDF's, no
    counter and no ratio is negative, and with at least one page each of
    the three ratios is the double Python's division gives for its
    counter and the page count. *)
Theorem extracted_metrics_consistent
    (rd : readers) (pdf_path : list string) (m : PDFMetrics)
    (Hm : _extract_pdf_metrics rd pdf_path = Return m) :
  exists pages doc,
    pdfplumber_open rd pdf_path = Return pages
    /\ fitz_open rd pdf_path = Return doc
    /\ total_pages m = Z.of_nat (List.length pages)
    /\ (0 <= text_extractable_pages m <= total_pages m)%Z
    /\ (0 <= total_text_length m)%Z
    /\ (0 <= total_tables m)%Z
    /\ total_images m
       = Z.of_nat (List.length (concat (map get_images doc)))
    /\ (has_fonts m = true <-> Exists (fun p => get_fonts p <> []) doc)
    /\ ((0 < total_pages m)%Z ->
        truediv (total_text_length m) (total_pages m)
        = Return (avg_text_per_page m)
        /\ truediv (total_images m) (total_pages m)
           = Return (image_to_page_ratio m)
        /\ truediv (total_tables m) (total_pages m)
           = Return (table_to_page_ratio m))
    /\ (0 <= avg_text_per_page m)%Q
    /\ (0 <= image_to_page_ratio m)%Q
    /\ (0 <= table_to_page_ratio m)%Q.
Proof.
  unfold _extract_pdf_metrics in Hm.
  destruct (pdfplumber_open rd pdf_path) as [pages|e|] eqn:Hpl;
    try discriminate Hm.
  cbn in Hm.
  destruct (fitz_open rd pdf_path) as [doc|e|] eqn:Hfz;
    try discriminate Hm.
  cbn in Hm. exists pages, doc.
  split; [reflexivity|]. split; [reflexivity|].
  set (m0 := set_total_pages initial_metrics (Z.of_nat (List.length pages)))
    in *.
  set (m1 := fold_left plumber_step pages m0) in *.
  set (m2 := fold_left fitz_step doc m1) in *.
  destruct (plumber_loop_frame pages m0) as (P1 & P2 & P3 & P4).
  destruct (fitz_loop_frame doc m1) as (F1 & F2 & F3 & F4).
  destruct (plumber_loop_counts pages m0) as (A1 & A2 & A3 & A4 & A5).
  destruct (fitz_loop_counts doc m1) as (B1 & B2 & B3 & B4 & B5).
  fold m1 in P1, P2, P3, P4, A1, A2, A3, A4, A5.
  fold m2 in F1, F2, F3, F4, B1, B2, B3, B4, B5.
  cbv zeta in *.
  assert (Hpages : total_pages m2 = Z.of_nat (List.length pages)).
  { rewrite F1, P1. reflexivity. }
  change (text_extractable_pages m0) with 0%Z in A1.
  change (total_text_length m0) with 0%Z in A2.
  change (total_tables m0) with 0%Z in A3.
  change (total_images m0) with 0%Z in A4.
  change (has_fonts m0) with false in A5.
  change (avg_text_per_page m0) with 0%Q in P2.
  change (image_to_page_ratio m0) with 0%Q in P3.
  change (table_to_page_ratio m0) with 0%Q in P4.
  assert (Hfonts : has_fonts m2 = true <->
                   Exists (fun p => get_fonts p <> []) doc).
  { rewrite B5, A5. split; [intros [H|H]; [discriminate|exact H]|]. auto. }
  apply derive_inv in Hm as (D1 & D2 & D3 & D4 & D5 & D6 & Dz & Dr).
  rewrite D1, D2, D3, D4, D5, D6.
  split; [exact Hpages|]. split; [lia|]. split; [lia|]. split; [lia|].
  split; [lia|]. split; [exact Hfonts|]. split; [exact Dr|].
  destruct (Z_lt_le_dec 0 (total_pages m2)) as [Hpos|Hzero].
  - destruct (Dr Hpos) as (Ra & Ri & Rt).
    split; [|split].
    + apply (truediv_nonneg (total_text_length m2) (total_pages m2));
        [lia|exact Hpos|exact Ra].
    + apply (truediv_nonneg (total_images m2) (total_pages m2));
        [lia|exact Hpos|exact Ri].
    + apply (truediv_nonneg (total_tables m2) (total_pages m2));
        [lia|exact Hpos|exact Rt].
  - destruct (Dz Hzero) as (-> & -> & ->).
    rewrite F2, F3, F4, P2, P3, P4. repeat split; apply Qle_refl.
Qed.

Lemma extracted_metrics_witness :
  total_pages two_page_metrics = 2%Z
  /\ (0 <= text_extractable_pages two_page_metrics
       <= total_pages two_page_metrics)%Z
  /\ truediv (total_text_length two_page_metrics)
       (total_pages two_page_metrics)
     = Return (avg_text_per_page two_page_metrics).
Proof.
  destruct (extracted_metrics_consistent two_page_readers
              ["pdfs"; "informe.pdf"] two_page_metrics eq_refl)
    as (pages & doc & Hpl & _ & Hp & Hx & _ & _ & _ & _ & Hr & _).
  injection Hpl as <-.
  split; [exact Hp|]. split; [exact Hx|].
  apply Hr. rewrite Hp. reflexivity.
Defined.

(** X2.  A file in which pdfplumber finds no page is classified MIXED, whatever
    PyMuPDF reports about images and fonts. *)
Theorem no_pages_is_mixed
    (rd : readers) (pdf_path : list string) (doc : list fitz_page)
    (Hpl : pdfplumber_open rd pdf_path = Return [])
    (Hfz : fitz_open rd pdf_path = Return doc) :
  exists m, analyze_pdf rd pdf_path = Return (MIXED, m)
    /\ total_pages m = 0%Z.
Proof.
  unfold analyze_pdf, _extract_pdf_metrics. rewrite Hpl. cbn.
  rewrite Hfz. cbn.
  set (m0 := set_total_pages initial_metrics (Z.of_nat 0)).
  set (m2 := fold_left fitz_step doc m0).
  destruct (fitz_loop_frame doc m0) as (F1 & F2 & F3 & F4).
  destruct (fitz_loop_counts doc m0) as (B1 & _).
  fold m2 in F1, F2, F3, F4, B1. cbv zeta in B1.
  change (total_pages m0) with 0%Z in F1.
  change (avg_text_per_page m0) with 0%Q in F2.
  change (image_to_page_ratio m0) with 0%Q in F3.
  change (table_to_page_ratio m0) with 0%Q in F4.
  change (text_extractable_pages m0) with 0%Z in B1.
  unfold derive. rewrite F1. cbn.
  exists m2. split; [|exact F1].
  unfold _classify_pdf_type. rewrite F1, F2, F3, F4, B1.
  destruct (has_fonts m2); reflexivity.
Qed.

Lemma no_pages_is_mixed_witness :
  exists m,
    analyze_pdf empty_pdf_readers ["empty.pdf"] = Return (MIXED, m)
    /\ total_pages m = 0%Z.
Proof.
  apply (no_pages_is_mixed empty_pdf_readers ["empty.pdf"]
           [mkFitzPage [1%nat; 2%nat] ["Helvetica"]] eq_refl eq_refl).
Defined.

(** X4.  The recommendation for the type a set of metrics is given always
    exists, names an engine the factory builds, and asks for the basic
    engine exactly when the type is NATIVE_TEXT; metrics without fonts are
    therefore always sent to the OpenCV engine, with contrast enhancement,
    at 250 dpi or more. *)
Theorem recommended_engine (m : PDFMetrics) :
  exists c,
    get_optimal_config (_classify_pdf_type m) = Return c
    /\ (150 <= dpi c <= 300)%Z
    /\ (engine_type c = AdapterFactory.ENGINE_TYPE_BASIC <->
        _classify_pdf_type m = NATIVE_TEXT)
    /\ (engine_type c = AdapterFactory.ENGINE_TYPE_OPENCV <->
        _classify_pdf_type m <> NATIVE_TEXT)
    /\ (has_fonts m = false ->
        engine_type c = AdapterFactory.ENGINE_TYPE_OPENCV
        /\ enable_contrast_enhancement c = true
        /\ (250 <= dpi c)%Z)
    /\ forall language,
         is_return
           (AdapterFactory.create_ocr_adapter (system_config_of language c))
         = true.
Proof.
  assert (Hnf : has_fonts m = false -> _classify_pdf_type m <> NATIVE_TEXT).
  { intros Hf. unfold _classify_pdf_type. rewrite Hf. cbn.
    repeat match goal with
      | |- context [if ?b then _ else _] => destruct b
      end; discriminate. }
  destruct (_classify_pdf_type m) eqn:E; eexists;
    (split; [vm_compute; reflexivity|]); cbn;
    (split; [lia|]);
    (split; [split; intros H; (discriminate || reflexivity)|]);
    (split; [split; intros H; (congruence || reflexivity || discriminate)|]);
    (split; [intros Hf; try (exfalso; now apply (Hnf Hf));
             repeat split; lia|]);
    intros language; reflexivity.
Qed.



End ExtractionInvariants.

(** ** The factory and what its adapters report *)

Section FactoryReports.
Import Py Fs Cv PyDict AdapterFactory OcrPortCalls Scenarios.

(** X5.  The factory builds an adapter exactly for the engine types [basic] and
    [opencv], and raises a [ConfigurationError] naming the type otherwise;
    the engine info of a built adapter reports the type, language and dpi
    of the configuration, so the same adapter is built again from what it
    reports. *)
Theorem factory_adapter_reports_config (config : SystemConfig) (w : env) :
  match create_ocr_adapter config with
  | Return a =>
      let info := fst (adapter_get_engine_info a w) in
      (engine_type config = "basic" \/ engine_type config = "opencv")
      /\ dict_get info "type" = Some (Ocr.VStr (engine_type config))
      /\ dict_get info "language" = Some (Ocr.VStr (language config))
      /\ dict_get info "dpi" = Some (Ocr.VInt (dpi config))
      /\ snd (adapter_get_engine_info a w) = a
      /\ forall t l d,
           dict_get info "type" = Some (Ocr.VStr t) ->
           dict_get info "language" = Some (Ocr.VStr l) ->
           dict_get info "dpi" = Some (Ocr.VInt d) ->
           create_ocr_adapter (mkSystemConfig l d t) = Return a
  | Raise e =>
      engine_type config <> "basic"
      /\ engine_type config <> "opencv"
      /\ e = mkExn ConfigurationError
               ("Motor OCR no soportado: " ++ engine_type config)
  | OutOfFuel => False
  end.
Proof.
  destruct config as [l d t]. unfold create_ocr_adapter.
  cbn [engine_type language dpi].
  destruct (String.eqb t ENGINE_TYPE_BASIC) eqn:Eb.
  - apply String.eqb_eq in Eb. subst t. cbn.
    split; [now left|]. repeat (split; [reflexivity|]).
    intros t' l' d' [= <-] [= <-] [= <-]. reflexivity.
  - destruct (String.eqb t ENGINE_TYPE_OPENCV) eqn:Eo.
    + apply String.eqb_eq in Eo. subst t. cbn.
      split; [now right|]. repeat (split; [reflexivity|]).
      intros t' l' d' [= <-] [= <-] [= <-]. reflexivity.
    + apply String.eqb_neq in Eb, Eo. repeat split; assumption.
Qed.

(** X6.  [get_supported_languages] never raises and never answers the empty
    list: it is the engine's list when the engine gives a non-empty one,
    and [["eng"]] when the engine fails or gives none; the adapter is left
    as it was. *)
Theorem supported_languages_never_empty (a : ocr_adapter) (w : env) :
  let langs := fst (adapter_get_supported_languages a w) in
  langs <> []
  /\ (forall output, get_languages w = Return output -> output <> [] ->
        langs = output)
  /\ (get_languages w = Return [] -> langs = ["eng"])
  /\ (forall e, get_languages w = Raise e -> langs = ["eng"])
  /\ snd (adapter_get_supported_languages a w) = a.
Proof.
  cbv zeta.
  assert (H : fst (adapter_get_supported_languages a w)
              = Ocr.or_else
                  (output ← get_languages w;
                   Return (if decide (output = []) then ["eng"] else output))
                  ["eng"]
              /\ snd (adapter_get_supported_languages a w) = a).
  { destruct a as [a|a]; split; reflexivity. }
  destruct H as (-> & ->).
  destruct (get_languages w) as [output|e|] eqn:E; cbn.
  - destruct (decide (output = [])) as [->|Hne].
    + split; [done|]. split; [intros output [= <-] H; done|].
      repeat split; done.
    + split; [exact Hne|]. split; [intros o [= <-] _; reflexivity|].
      split; [intros [= ->]; done|]. split; [intros e0 H; discriminate|].
      reflexivity.
  - split; [done|]. split; [intros o H; discriminate|].
    repeat split; done.
  - split; [done|]. split; [intros o H; discriminate|].
    repeat split; done.
Qed.

End FactoryReports.

(** ** Quality profiles *)

Section QualityProfiles.
Import Py Fs PyDict Config StorageSpec.

(** A directory of the working directory is made unless a regular file
    has its name. *)
Lemma mkdir_single (c : string) (fs : FS) :
  mkdir [c] fs
  = if is_file fs [c]
    then (Raise (file_exists_error c), fs)
    else (Return tt, ensure_dirs [c] fs).
Proof. unfold mkdir. cbn. now destruct (is_file fs [c]). Qed.

Lemma ensure_single (c : string) (fs : FS) :
  is_file fs [c] = false ->
  ensure_dirs [c] fs !! [c] = Some Dir
  /\ forall p, p <> [c] -> ensure_dirs [c] fs !! p = fs !! p.
Proof.
  intros Hfile. split.
  - destruct (fs !! [c]) as [[|x]|] eqn:E.
    + now apply lookup_mkdir_old.
    + unfold is_file in Hfile. now rewrite E in Hfile.
    + apply lookup_mkdir_new; [exact E|]. apply (self_in_ancestors [] c).
  - intros p Hp. apply lookup_mkdir_other. intros Hin. apply Hp.
    now apply list_elem_of_singleton in Hin.
Qed.

(** What [__post_init__] does with the two default directories. *)
Lemma post_init_default (config : SystemConfig) (fs : FS) :
  output_dir config = ["resultado"] -> temp_dir config = ["temp"] ->
  match __post_init__ config fs with
  | (Return config', fs') =>
      config' = config
      /\ fs' !! ["resultado"] = Some Dir /\ fs' !! ["temp"] = Some Dir
      /\ forall p, p <> ["resultado"] -> p <> ["temp"] -> fs' !! p = fs !! p
  | (Raise e, fs') =>
      (is_file fs ["resultado"] = true
       /\ e = file_exists_error "resultado" /\ fs' = fs)
      \/ (is_file fs ["resultado"] = false /\ is_file fs ["temp"] = true
          /\ e = file_exists_error "temp"
          /\ fs' !! ["resultado"] = Some Dir
          /\ forall p, p <> ["resultado"] -> fs' !! p = fs !! p)
  | (OutOfFuel, _) => False
  end.
Proof.
  intros Ho Ht. unfold __post_init__. rewrite Ho, Ht, mkdir_single.
  destruct (is_file fs ["resultado"]) eqn:Fr; [left; auto|].
  rewrite mkdir_single.
  destruct (ensure_single "resultado" fs Fr) as [Hr Hrest].
  assert (Ft : is_file (ensure_dirs ["resultado"] fs) ["temp"]
               = is_file fs ["temp"]).
  { unfold is_file. now rewrite Hrest by discriminate. }
  rewrite Ft. destruct (is_file fs ["temp"]) eqn:Ftemp.
  - right. repeat split; auto.
  - destruct (ensure_single "temp" _ Ft) as [Htemp Hrest'].
    split; [reflexivity|]. split; [|split; [exact Htemp|]].
    + rewrite Hrest' by discriminate. exact Hr.
    + intros p H1 H2. now rewrite Hrest', Hrest.
Qed.

(** X7.  A profile name outside the table is refused with a [ValueError]
    naming it and nothing is created.  Each of the three profiles gives a
    configuration for language [spa] and the basic engine, from which the
    factory builds the basic adapter at the profile's dpi (no profile
    reaches the OpenCV engine), and leaves [resultado] and [temp] as
    directories with every other entry as it was; unless a regular file is
    named [resultado] or [temp], in which case the constructor raises
    [FileExistsError], before anything is created for the first and after
    [resultado] has been created for the second. *)
Theorem quality_profiles_are_basic (profile_name : string) (fs : FS) :
  let known :=
    profile_name = "fast" \/ profile_name = "balanced"
    \/ profile_name = "high" in
  match from_quality_profile profile_name fs with
  | (Return config, fs') =>
      (profile_name = "fast" /\ dpi config = 150%Z
       \/ profile_name = "balanced" /\ dpi config = 300%Z
       \/ profile_name = "high" /\ dpi config = 600%Z)
      /\ quality_profile config = profile_name
      /\ language config = "spa"
      /\ engine_type config = AdapterFactory.ENGINE_TYPE_BASIC
      /\ AdapterFactory.create_ocr_adapter (factory_view config)
         = Return (AdapterFactory.Basic
                     (Ocr.TesseractAdapter.__init__ "spa" (dpi config)))
      /\ is_file fs ["resultado"] = false /\ is_file fs ["temp"] = false
      /\ fs' !! ["resultado"] = Some Dir /\ fs' !! ["temp"] = Some Dir
      /\ (forall p, p <> ["resultado"] -> p <> ["temp"] ->
            fs' !! p = fs !! p)
  | (Raise e, fs') =>
      (~ known
       /\ e = mkExn (Builtin "ValueError")
                ("Perfil no válido: " ++ profile_name)
       /\ fs' = fs)
      \/ (known /\ is_file fs ["resultado"] = true
          /\ e = file_exists_error "resultado" /\ fs' = fs)
      \/ (known /\ is_file fs ["resultado"] = false
          /\ is_file fs ["temp"] = true
          /\ e = file_exists_error "temp"
          /\ fs' !! ["resultado"] = Some Dir
          /\ forall p, p <> ["resultado"] -> fs' !! p = fs !! p)
  | (OutOfFuel, _) => False
  end.
Proof.
  cbv zeta.
  assert (Hprofile : forall d t,
    (profile_name = "fast" /\ d = 150%Z
     \/ profile_name = "balanced" /\ d = 300%Z
     \/ profile_name = "high" /\ d = 600%Z) ->
    match
      __post_init__
        (mkSystemConfig DEFAULT_LANGUAGE d t
           AdapterFactory.ENGINE_TYPE_BASIC ["resultado"] ["temp"]
           profile_name) fs
    with
    | (Return config, fs') =>
        (profile_name = "fast" /\ dpi config = 150%Z
         \/ profile_name = "balanced" /\ dpi config = 300%Z
         \/ profile_name = "high" /\ dpi config = 600%Z)
        /\ quality_profile config = profile_name
        /\ language config = "spa"
        /\ engine_type config = AdapterFactory.ENGINE_TYPE_BASIC
        /\ AdapterFactory.create_ocr_adapter (factory_view config)
           = Return (AdapterFactory.Basic
                       (Ocr.TesseractAdapter.__init__ "spa" (dpi config)))
        /\ is_file fs ["resultado"] = false /\ is_file fs ["temp"] = false
        /\ fs' !! ["resultado"] = Some Dir /\ fs' !! ["temp"] = Some Dir
        /\ (forall p, p <> ["resultado"] -> p <> ["temp"] ->
              fs' !! p = fs !! p)
    | (Raise e, fs') =>
        (~ (profile_name = "fast" \/ profile_name = "balanced"
            \/ profile_name = "high")
         /\ e = mkExn (Builtin "ValueError")
                  ("Perfil no válido: " ++ profile_name)
         /\ fs' = fs)
        \/ ((profile_name = "fast" \/ profile_name = "balanced"
             \/ profile_name = "high")
            /\ is_file fs ["resultado"] = true
            /\ e = file_exists_error "resultado" /\ fs' = fs)
        \/ ((profile_name = "fast" \/ profile_name = "balanced"
             \/ profile_name = "high")
            /\ is_file fs ["resultado"] = false
            /\ is_file fs ["temp"] = true
            /\ e = file_exists_error "temp"
            /\ fs' !! ["resultado"] = Some Dir
            /\ forall p, p <> ["resultado"] -> fs' !! p = fs !! p)
    | (OutOfFuel, _) => False
    end).
  { intros d t Hd.
    assert (Hknown : profile_name = "fast" \/ profile_name = "balanced"
                     \/ profile_name = "high") by tauto.
    pose proof (post_init_default
                  (mkSystemConfig DEFAULT_LANGUAGE d t
                     AdapterFactory.ENGINE_TYPE_BASIC ["resultado"] ["temp"]
                     profile_name) fs eq_refl eq_refl) as Hpost.
    pose proof (mkdir_single "resultado" fs) as M1.
    destruct (__post_init__ _ fs) as [[config'|e|] fs'] eqn:Hrun.
    - destruct Hpost as (-> & Hr & Ht & Hrest).
      assert (Fr : is_file fs ["resultado"] = false).
      { unfold __post_init__ in Hrun. cbn [output_dir] in Hrun.
        rewrite M1 in Hrun.
        destruct (is_file fs ["resultado"]); [discriminate Hrun|done]. }
      assert (Ft : is_file fs ["temp"] = false).
      { unfold is_file. destruct (fs !! ["temp"]) as [[|x]|] eqn:E; try done.
        exfalso. unfold __post_init__ in Hrun.
        cbn [output_dir temp_dir] in Hrun. rewrite M1, Fr in Hrun.
        rewrite mkdir_single in Hrun.
        destruct (ensure_single "resultado" fs Fr) as [_ Hkeep].
        unfold is_file in Hrun at 1.
        rewrite Hkeep, E in Hrun by discriminate. discriminate Hrun. }
      cbn [dpi quality_profile language engine_type factory_view].
      split; [exact Hd|]. split; [reflexivity|]. split; [reflexivity|].
      split; [reflexivity|]. split; [reflexivity|].
      split; [exact Fr|]. split; [exact Ft|]. auto.
    - destruct Hpost as [(F & -> & ->)|(F1 & F2 & -> & H1 & H2)].
      + right. left. auto.
      + right. right. auto 7.
    - exact Hpost. }
  unfold from_quality_profile, dict_contains, dict_item, dict_get,
    QUALITY_PROFILES.
  cbn [List.find fst snd].
  destruct (decide ("fast" = profile_name)) as [<-|Hf].
  { cbn [bool_decide decide_rel negb is_Some option_map].
    apply (Hprofile 150%Z 50%Q). auto. }
  rewrite (bool_decide_eq_false_2 _ Hf).
  destruct (decide ("balanced" = profile_name)) as [<-|Hb].
  { apply (Hprofile 300%Z 60%Q). auto. }
  rewrite (bool_decide_eq_false_2 _ Hb).
  destruct (decide ("high" = profile_name)) as [<-|Hh].
  { apply (Hprofile 600%Z 80%Q). auto. }
  rewrite (bool_decide_eq_false_2 _ Hh).
  cbn. left. split; [|auto]. intros [H|[H|H]]; congruence.
Qed.

End QualityProfiles.

(** ** Recognition that succeeds *)

Section RecognitionSucceeds.
Import Py Cv OcrAdapters OcrSpec Scenarios.

(** X8.  When the rasterizer returns the pages and every page is recognized,
    each of the four adapters returns the page texts, in page order,
    joined by one blank line; a file without pages gives the empty
    text. *)
Theorem extract_text_joins_pages
    (x : recognition_adapter) (w : env) (pdf_path : list string)
    (images : list image) (texts : list string)
    (Hpages : convert_from_path w pdf_path (dpi_of x) = Return images)
    (Hread : Forall2 (fun im t => recognize_page x w im = Return t)
               images texts) :
  extract_text_of x w pdf_path
  = Return (join (String "010" (String "010" "")) texts)
  /\ List.length texts = List.length images
  /\ (images = [] -> extract_text_of x w pdf_path = Return "").
Proof.
  assert (H : extract_text_of x w pdf_path
              = Return (join (String "010" (String "010" "")) texts)).
  { rewrite extract_text_of_eq, Hpages.
    now rewrite (page_loop_all _ images texts Hread []). }
  split; [exact H|]. split.
  - symmetry. eapply Forall2_length, Hread.
  - intros ->. inversion Hread; subst. exact H.
Qed.

Lemma extract_text_joins_pages_witness :
  extract_text_of (Wired opencv_adapter) office_env informe_pdf
  = Return ("Estimado cliente"
            ++ String "010" (String "010" "Estimado cliente")).
Proof.
  apply (extract_text_joins_pages (Wired opencv_adapter) office_env
           informe_pdf
           [Page [3300; 2550; 3]%nat 1; Page [3300; 2550; 3]%nat 2]
           ["Estimado cliente"; "Estimado cliente"] eq_refl).
  repeat constructor.
Defined.

End RecognitionSucceeds.

(** ** The files of a saved document *)

(** Looking up an entry after a sequence of writes, given the
    disequalities of the paths written. *)
Ltac lookup_writes :=
  unfold Fs.write;
  repeat first
    [ rewrite lookup_insert_eq
    | rewrite lookup_insert_ne
        by (assumption || (apply not_eq_sym; assumption)) ].


Section SavedFiles.
Import Py Fs FileStorage StorageSpec Scenarios.

(** A call is known by what it returns; the file system it leaves is
    whatever the call computes. *)
Lemma surjective_pairing_fst {X Y : Type} (p : X * Y) (x : X) :
  fst p = x -> p = (x, snd p).
Proof. intros <-. now destruct p. Qed.

(** [save_document] is [save_at] at the first unused candidate. *)
Lemma save_document_at
    (self : FileStorage) (document : Entities.Document) (fs : FS) :
  exists k,
    let d := candidate_path self (Entities.name document) k in
    exists_ fs d = false
    /\ (forall j, (j < k)%nat ->
          exists_ fs (candidate_path self (Entities.name document) j) = true)
    /\ save_document self document fs = save_at d document fs.
Proof.
  destruct (create_unique_dir_first_unused self (Entities.name document) fs)
    as (k & Hcreate & Hfree & Hused).
  exists k. cbv zeta. split; [exact Hfree|]. split; [exact Hused|].
  unfold save_document, save_at.
  rewrite Hcreate. unfold allocation_outcome.
  set (d := candidate_path self (Entities.name document) k).
  destruct (mkdir d fs) as [[u|e|] fs1] eqn:Hmk; try reflexivity.
  apply mkdir_returned in Hmk. subst fs1.
  unfold save_outcome, staged_fs, staged_files. cbv zeta.
  unfold text_file, tables_file, pdf_copy, metadata_file, metadata_of.
  destruct (decide (Entities.tables document = []));
    destruct (Entities.source_path document) as [pdf_path|];
    cbn [app]; try reflexivity;
    unfold exists_, copy2;
    match goal with
    | |- context [?f !! pdf_path] => destruct (f !! pdf_path) as [[|c]|] eqn:E
    end;
    try (rewrite bool_decide_eq_true_2 by (rewrite ?E; eauto));
    try (rewrite bool_decide_eq_false_2
           by (rewrite ?E; apply is_Some_None));
    rewrite ?E; reflexivity.
Qed.

(** A save that returned wrote its files at the first unused
    candidate. *)
Lemma save_document_returned
    (self : FileStorage) (document : Entities.Document) (fs : FS)
    (gf : list (list string)) (fs' : FS) :
  save_document self document fs = (Return gf, fs') ->
  exists k,
    let d := candidate_path self (Entities.name document) k in
    exists_ fs d = false
    /\ (forall j, (j < k)%nat ->
          exists_ fs (candidate_path self (Entities.name document) j) = true)
    /\ save_outcome d document fs = (Return gf, fs').
Proof.
  intros Hsave.
  destruct (save_document_at self document fs) as (k & Hfree & Hused & Heq).
  exists k. cbv zeta in *. split; [exact Hfree|]. split; [exact Hused|].
  rewrite Heq in Hsave. unfold save_at in Hsave.
  destruct (mkdir _ fs) as [[u|e|] fs1]; try discriminate Hsave.
  exact Hsave.
Qed.

(** In a root that is a directory a save is its writes at the first
    unused candidate. *)
Lemma save_document_in_root
    (self : FileStorage) (document : Entities.Document) (fs : FS) :
  well_formed fs -> is_directory fs (output_dir self) ->
  exists k,
    let d := candidate_path self (Entities.name document) k in
    exists_ fs d = false
    /\ (forall j, (j < k)%nat ->
          exists_ fs (candidate_path self (Entities.name document) j) = true)
    /\ save_document self document fs = save_outcome d document fs.
Proof.
  intros Hwf Hroot.
  destruct (save_document_at self document fs) as (k & Hfree & Hused & Heq).
  exists k. cbv zeta in *. split; [exact Hfree|]. split; [exact Hused|].
  rewrite Heq. unfold save_at, candidate_path.
  rewrite mkdir_child_returns; [reflexivity|exact Hwf|exact Hroot|].
  now apply exists_false.
Qed.

(** *** Looking entries up after the writes *)

Lemma child_not_ancestor (d : list string) (s : string) :
  div d s ∉ ancestors d.
Proof.
  rewrite ancestors_spec. intros (n & Hn & Heq).
  apply (f_equal length) in Heq. rewrite length_take in Heq.
  unfold div in Heq. rewrite length_app in Heq. simpl in Heq. lia.
Qed.

Lemma child_neq (d : list string) (s : string) : div d s <> d.
Proof.
  intros E. apply (f_equal length) in E. unfold div in E.
  rewrite length_app in E. simpl in E. lia.
Qed.

(** The four file names of a directory differ from one another. *)
Lemma document_files_distinct (d : list string) :
  NoDup [text_file d; tables_file d; pdf_copy d; metadata_file d].
Proof.
  unfold text_file, tables_file, pdf_copy, metadata_file.
  repeat constructor; rewrite ?elem_of_cons, ?elem_of_nil;
    intros H; repeat destruct H as [H|H]; try done;
    revert H; apply div_neq; discriminate.
Qed.

(** What [save_outcome] lists and leaves behind in a directory [d] that
    was not there. *)
Lemma save_outcome_files
    (root : list string) (c : string) (document : Entities.Document)
    (fs : FS) (gf : list (list string)) (fs' : FS) :
  let d := div root c in
  fs !! d = None ->
  save_outcome d document fs = (Return gf, fs') ->
  first_parent gf = Some d
  /\ fs' !! d = Some Dir
  /\ Forall (fun f => parent f = d /\ exists c, fs' !! f = Some (File c)) gf
  /\ NoDup gf
  /\ head gf = Some (text_file d)
  /\ last gf = Some (metadata_file d)
  /\ fs' !! text_file d = Some (File (Text (Entities.text document)))
  /\ fs' !! metadata_file d
     = Some (File (MetadataJson (metadata_of document)))
  /\ (2 <= length gf <= 4)%nat.
Proof.
  intros d Hfree Hsave.
  assert (Hdir : ensure_dirs d fs !! d = Some Dir).
  { apply lookup_mkdir_new; [exact Hfree|]. apply self_in_ancestors. }
  assert (Ntt : text_file d <> tables_file d)
    by (apply div_neq; discriminate).
  assert (Ntp : text_file d <> pdf_copy d) by (apply div_neq; discriminate).
  assert (Ntm : text_file d <> metadata_file d)
    by (apply div_neq; discriminate).
  assert (Nbp : tables_file d <> pdf_copy d)
    by (apply div_neq; discriminate).
  assert (Nbm : tables_file d <> metadata_file d)
    by (apply div_neq; discriminate).
  assert (Npm : pdf_copy d <> metadata_file d)
    by (apply div_neq; discriminate).
  assert (Dt : text_file d <> d) by apply child_neq.
  assert (Db : tables_file d <> d) by apply child_neq.
  assert (Dp : pdf_copy d <> d) by apply child_neq.
  assert (Dm : metadata_file d <> d) by apply child_neq.
  assert (Pt : parent (text_file d) = d) by apply parent_div.
  assert (Pb : parent (tables_file d) = d) by apply parent_div.
  assert (Pp : parent (pdf_copy d) = d) by apply parent_div.
  assert (Pm : parent (metadata_file d) = d) by apply parent_div.
  unfold save_outcome, staged_fs, staged_files in Hsave.
  destruct (decide (Entities.tables document = []));
    destruct (Entities.source_path document) as [pdf_path|];
    cbv zeta in Hsave;
    try match type of Hsave with
      | context [?f !! pdf_path] => destruct (f !! pdf_path) as [[|x]|]
      end;
    try discriminate Hsave;
    injection Hsave as <- <-;
    (split; [cbn [first_parent app]; now rewrite Pt|]);
    (split; [lookup_writes; exact Hdir|]);
    (split;
     [ cbn [app]; repeat constructor; try assumption;
       eexists; lookup_writes; reflexivity |]);
    (split;
     [ cbn [app]; repeat constructor;
       rewrite ?elem_of_cons, ?elem_of_nil;
       intros H; repeat destruct H as [H|H]; try done;
       (contradiction || (symmetry in H; contradiction)) |]);
    (split; [reflexivity|]);
    (split; [reflexivity|]);
    (split; [lookup_writes; reflexivity|]);
    (split; [lookup_writes; reflexivity|]);
    cbn; lia.
Qed.

(** X9.  Every file [save_document] lists exists afterwards, directly inside a
    directory that did not exist before and is a child of the output root;
    the list starts with the text file, which holds the document's text,
    and ends with the metadata file, which holds the document's
    metadata; no file is listed twice. *)
Theorem saved_files_exist
    (self : FileStorage) (document : Entities.Document) (fs : FS)
    (gf : list (list string)) (fs' : FS)
    (Hsave : save_document self document fs = (Return gf, fs')) :
  exists d,
    first_parent gf = Some d
    /\ parent d = output_dir self
    /\ fs !! d = None
    /\ fs' !! d = Some Dir
    /\ Forall (fun f => parent f = d /\ exists c, fs' !! f = Some (File c)) gf
    /\ NoDup gf
    /\ head gf = Some (text_file d)
    /\ last gf = Some (metadata_file d)
    /\ fs' !! text_file d = Some (File (Text (Entities.text document)))
    /\ fs' !! metadata_file d
       = Some (File (MetadataJson (metadata_of document)))
    /\ (2 <= length gf <= 4)%nat.
Proof.
  apply save_document_returned in Hsave as (k & Hfree & _ & Hsave).
  cbv zeta in Hfree, Hsave.
  apply exists_false in Hfree. unfold candidate_path in *.
  exists (div (output_dir self) (candidate (Entities.name document) k)).
  destruct (save_outcome_files _ _ document fs gf fs' Hfree Hsave)
    as (H1 & H2 & H3).
  split; [exact H1|]. split; [apply parent_div|]. split; [exact Hfree|].
  split; [exact H2|exact H3].
Qed.

Lemma saved_files_exist_witness :
  exists d,
    first_parent informe_01_files = Some d
    /\ d = ["resultado"; "informe_01"]
    /\ Forall
         (fun f =>
            parent f = d
            /\ exists c,
                 snd (save_document reports_storage informe_entity
                        taken_root) !! f = Some (File c))
         informe_01_files.
Proof.
  destruct (saved_files_exist reports_storage informe_entity taken_root
              informe_01_files
              (snd (save_document reports_storage informe_entity
                      taken_root)))
    as (d & Hd & _ & _ & _ & Hall & _).
  - apply surjective_pairing_fst. vm_compute. reflexivity.
  - exists d. split; [exact Hd|]. split; [|exact Hall].
    cbn in Hd. now injection Hd as <-.
Defined.

End SavedFiles.

(** ** What saving leaves alone *)

Section SavingFrame.
Import Py Fs FileStorage StorageSpec Scenarios.

(** [save_outcome] in a fresh child of an existing root: old entries stay,
    and the file system stays well formed. *)
Lemma save_outcome_keeps
    (root : list string) (c : string) (document : Entities.Document)
    (fs : FS) (r : result (list (list string))) (fs' : FS) :
  let d := div root c in
  well_formed fs -> is_directory fs root -> fs !! d = None ->
  save_outcome d document fs = (r, fs') ->
  (forall p n, fs !! p = Some n -> fs' !! p = Some n)
  /\ well_formed fs'
  /\ is_directory fs' root
  /\ r <> OutOfFuel.
Proof.
  intros d Hwf Hroot Hfree Hsave.
  assert (Hchild : forall x, fs !! div d x = None).
  { intros x. destruct (fs !! div d x) as [n|] eqn:E; [|reflexivity].
    destruct (Hwf (div d x)) as [Hnil|Hdir]; [rewrite E; eauto| |].
    - rewrite parent_div in Hnil. unfold d, div in Hnil.
      now destruct root.
    - rewrite parent_div in Hdir. congruence. }
  assert (Ntt : text_file d <> tables_file d)
    by (apply div_neq; discriminate).
  assert (Ntp : text_file d <> pdf_copy d) by (apply div_neq; discriminate).
  assert (Ntm : text_file d <> metadata_file d)
    by (apply div_neq; discriminate).
  assert (Nbp : tables_file d <> pdf_copy d)
    by (apply div_neq; discriminate).
  assert (Nbm : tables_file d <> metadata_file d)
    by (apply div_neq; discriminate).
  assert (Npm : pdf_copy d <> metadata_file d)
    by (apply div_neq; discriminate).
  assert (Dt : text_file d <> d) by apply child_neq.
  assert (Db : tables_file d <> d) by apply child_neq.
  assert (Dp : pdf_copy d <> d) by apply child_neq.
  assert (Dm : metadata_file d <> d) by apply child_neq.
  assert (Pt : parent (text_file d) = d) by apply parent_div.
  assert (Pb : parent (tables_file d) = d) by apply parent_div.
  assert (Pp : parent (pdf_copy d) = d) by apply parent_div.
  assert (Pm : parent (metadata_file d) = d) by apply parent_div.
  assert (Ft : fs !! text_file d = None) by apply Hchild.
  assert (Fb : fs !! tables_file d = None) by apply Hchild.
  assert (Fp : fs !! pdf_copy d = None) by apply Hchild.
  assert (Fm : fs !! metadata_file d = None) by apply Hchild.
  assert (Hd0 : well_formed (<[d := Dir]> fs)).
  { apply well_formed_insert; [exact Hwf|exact Hfree|].
    unfold d. now rewrite parent_div. }
  unfold save_outcome, staged_fs, staged_files in Hsave.
  assert (Hmk : ensure_dirs d fs = <[d := Dir]> fs)
    by (apply mkdir_child; assumption).
  rewrite Hmk in Hsave.
  destruct (decide (Entities.tables document = []));
    destruct (Entities.source_path document) as [pdf_path|];
    cbv zeta in Hsave;
    try match type of Hsave with
      | context [?f !! pdf_path] => destruct (f !! pdf_path) as [[|x]|]
      end;
    injection Hsave as <- <-;
    (split;
     [ intros p nd Hp; unfold write;
       repeat (rewrite lookup_insert_ne by (intros <-; congruence));
       exact Hp |]);
    (split;
     [ unfold write;
       repeat (apply well_formed_insert;
               [ | lookup_writes; assumption
                 | right; rewrite ?Pt, ?Pb, ?Pp, ?Pm; lookup_writes;
                   reflexivity ]);
       exact Hd0 |]);
    (split;
     [ destruct Hroot as [Hnil|Hdir]; [now left|right];
       unfold write;
       repeat (rewrite lookup_insert_ne by (intros E; congruence));
       exact Hdir |]);
    discriminate.
Qed.

(** X10.  [save_document] changes no entry that existed before it was called,
    whether it returns or stops at the copy of the source; and it leaves
    the file system well formed, with the output root still a directory,
    so that the next call starts from the same guarantees. *)
Theorem save_document_keeps_entries
    (self : FileStorage) (document : Entities.Document) (fs : FS)
    (r : result (list (list string))) (fs' : FS)
    (Hwf : well_formed fs)
    (Hroot : is_directory fs (output_dir self))
    (Hsave : save_document self document fs = (r, fs')) :
  (forall p n, fs !! p = Some n -> fs' !! p = Some n)
  /\ well_formed fs'
  /\ is_directory fs' (output_dir self)
  /\ r <> OutOfFuel.
Proof.
  destruct (save_document_in_root self document fs Hwf Hroot)
    as (k & Hfree & _ & Heq).
  cbv zeta in Hfree, Heq. rewrite Heq in Hsave. clear Heq.
  apply exists_false in Hfree. unfold candidate_path in *.
  exact (save_outcome_keeps (output_dir self) _ document fs r fs'
           Hwf Hroot Hfree Hsave).
Qed.

Lemma save_document_keeps_entries_witness :
  snd (save_document reports_storage informe_entity taken_root)
    !! ["pdfs"; "informe.pdf"] = Some (File pdf_bytes)
  /\ snd (save_document reports_storage informe_entity taken_root)
       !! ["resultado"; "informe"] = Some Dir.
Proof.
  destruct (save_document_keeps_entries reports_storage informe_entity
              taken_root
              (fst (save_document reports_storage informe_entity taken_root))
              (snd (save_document reports_storage informe_entity
                      taken_root)))
    as (Hkeep & _).
  - apply well_formedb_spec. vm_compute. reflexivity.
  - right. vm_compute. reflexivity.
  - apply surjective_pairing.
  - split; apply Hkeep; vm_compute; reflexivity.
Defined.

End SavingFrame.

(** ** Setting the storage up *)

Section StorageSetUp.
Import Py Fs FileStorage StorageSpec Scenarios.

(** X11.  [FileStorage(output_dir)] on a well-formed file system in which no
    regular file stands where the output root or one of its ancestors
    should be: the constructor returns, the root is a directory
    afterwards, the file system is still well formed, and nothing that
    existed has changed; these are the conditions under which saving
    keeps earlier results. *)
Theorem storage_root_is_ready
    (root : list string) (fs : FS)
    (Hwf : well_formed fs)
    (Hfree : forall q c, q ∈ ancestors root -> fs !! q <> Some (File c)) :
  let fs' := snd (__init__ root fs) in
  exists self,
    fst (__init__ root fs) = Return self
    /\ output_dir self = root
    /\ is_directory fs' root
    /\ well_formed fs'
    /\ (forall p n, fs !! p = Some n -> fs' !! p = Some n)
    /\ (forall p, p ∉ ancestors root -> fs' !! p = fs !! p).
Proof.
  cbv zeta.
  assert (Hclear : forall q, q ∈ ancestors root -> is_file fs q = false).
  { intros q Hq. apply is_file_false. intros c. now apply Hfree. }
  assert (Hmk : mkdir root fs = (Return tt, ensure_dirs root fs)).
  { apply mkdir_clear.
    - intros q Hq. apply Hclear.
      apply ancestors_spec in Hq as (n & Hn & ->).
      apply ancestors_spec. exists n.
      assert (Hlen : (length (parent root) <= length root)%nat).
      { unfold parent. destruct root as [|x r] using rev_ind; [done|].
        rewrite removelast_last, length_app. lia. }
      split; [lia|].
      unfold parent in *. destruct root as [|x r _] using rev_ind;
        [simpl in Hn; lia|].
      rewrite removelast_last in *. now rewrite take_app_le by lia.
    - destruct root as [|x r _] using rev_ind; [reflexivity|].
      apply Hclear. apply (self_in_ancestors r x). }
  unfold __init__. rewrite Hmk. cbn [fst snd].
  exists (mkFileStorage root).
  assert (Hanc : forall q, q ∈ ancestors root ->
                            ensure_dirs root fs !! q = Some Dir).
  { intros q Hq. destruct (fs !! q) as [[|c]|] eqn:E.
    - now apply lookup_mkdir_old.
    - exfalso. exact (Hfree q c Hq E).
    - now apply lookup_mkdir_new. }
  split; [reflexivity|]. split; [reflexivity|]. split; [|split; [|split]].
  - destruct root as [|x root]; [now left|]. right. apply Hanc.
    apply ancestors_spec. exists (length (x :: root)).
    split; [simpl; lia|]. symmetry. now apply take_ge.
  - intros q Hq.
    destruct (fs !! q) as [n|] eqn:E.
    + destruct (Hwf q) as [Hnil|Hdir]; [rewrite E; eauto|now left|].
      right. now apply lookup_mkdir_old.
    + destruct (decide (q ∈ ancestors root)) as [Hin|Hout].
      * apply ancestors_spec in Hin as (n & Hn & ->).
        destruct n as [|n]; [lia|].
        rewrite parent_take by lia.
        destruct n as [|n]; [left; now rewrite take_0|].
        right. apply Hanc, ancestors_spec. exists (S n). split; [lia|done].
      * rewrite lookup_mkdir_other, E in Hq by exact Hout.
        now destruct Hq.
  - intros p n Hp. now apply lookup_mkdir_old.
  - intros p Hp. now apply lookup_mkdir_other.
Qed.

Lemma storage_root_witness :
  is_directory (snd (__init__ ["resultado"] pdfs_only)) ["resultado"]
  /\ snd (__init__ ["resultado"] pdfs_only) !! ["pdfs"; "informe.pdf"]
     = Some (File pdf_bytes).
Proof.
  destruct (storage_root_is_ready ["resultado"] pdfs_only)
    as (self & _ & _ & Hroot & _ & Hkeep & _).
  - apply well_formedb_spec. vm_compute. reflexivity.
  - intros q c Hq. apply list_elem_of_singleton in Hq. subst q.
    vm_compute. discriminate.
  - split; [exact Hroot|]. apply Hkeep. vm_compute. reflexivity.
Defined.

End StorageSetUp.

(** ** The two orchestrators, on any ports *)

Section OrchestratorsAgree.
Import Py Fs Cv Ports FileStorage UseCases StorageSpec PipelineSpec.
Context {A T : Type} `{!OCRPort A} `{!TableExtractorPort T}.

(** X16.  When recognition, the confidence query or table extraction raises,
    both orchestrators raise a [ProcessingError] made of their prefix and
    the message of that exception, and the file system is as it was:
    storage is not reached, no directory is allocated. *)
Theorem failed_extraction_writes_nothing
    (ocr0 : A) (te : T) (storage0 : FileStorage) (w : env) (uuid4 : string)
    (elapsed : Q) (pdf_path : list string) (fs : FS) (e : exn) (ocr' : A)
    (Hfail : extraction_raises ocr0 te w pdf_path e ocr') :
  ProcessDocument.execute (ProcessDocument.__init__ ocr0 te storage0)
    w uuid4 elapsed pdf_path fs
  = (Raise (mkExn ProcessingError
              (("Error procesando " ++ str pdf_path ++ ": ") ++ exn_str e)),
     (ocr', fs))
  /\ DocumentProcessor.process (DocumentProcessor.__init__ ocr0 te storage0)
       w uuid4 pdf_path fs
     = (Raise (mkExn ProcessingError
                 ("Error procesando documento: " ++ exn_str e)),
        (ocr', fs)).
Proof.
  unfold ProcessDocument.execute, ProcessDocument.execute_body,
    ExtractDocumentTextUseCase.execute, ExtractTablesUseCase.execute,
    DocumentProcessor.process, DocumentProcessor.process_body, wrap_run.
  unfold mbind, result_bind, bind.
  cbn [ProcessDocument.__init__ ProcessDocument.extract_text_use_case
       ProcessDocument.extract_tables_use_case
       ExtractDocumentTextUseCase.ocr ExtractTablesUseCase.table_extractor
       DocumentProcessor.ocr DocumentProcessor.table_extractor].
  destruct Hfail as [H1|[(text & ocr1 & H1 & H2)
                        |(text & ocr1 & c & H1 & H2 & H3)]].
  - rewrite H1. split; reflexivity.
  - rewrite H1, H2. split; reflexivity.
  - rewrite H1, H2, H3. split; reflexivity.
Qed.

(** Whatever goes wrong inside [execute], what leaves it is a
    [ProcessingError]. *)
Lemma execute_only_processing_error
    (ocr0 : A) (te : T) (storage0 : FileStorage) (w : env) (uuid4 : string)
    (elapsed : Q) (pdf_path : list string) (fs : FS) (e : exn) (st : A * FS) :
  ProcessDocument.execute (ProcessDocument.__init__ ocr0 te storage0)
    w uuid4 elapsed pdf_path fs = (Raise e, st) ->
  exn_cls e = ProcessingError.
Proof.
  unfold ProcessDocument.execute, wrap_run.
  destruct (ProcessDocument.execute_body _ w uuid4 elapsed pdf_path fs)
    as [[d|e0|] st0]; intros [= <- <-] || intros [=]; reflexivity.
Qed.

(** X17.  The two orchestrators do the same thing: they leave the same adapter
    and the same file system; when one returns a document so does the
    other, and the documents differ only in [processing_time], which
    [execute] sets and [process] does not; when one raises so does the
    other, both a [ProcessingError] about the same inner message, each
    with its own prefix.  No other exception leaves either of them. *)
Theorem execute_and_process_agree
    (ocr0 : A) (te : T) (storage0 : FileStorage) (w : env) (uuid4 : string)
    (elapsed : Q) (pdf_path : list string) (fs : FS) :
  let run_e :=
    ProcessDocument.execute (ProcessDocument.__init__ ocr0 te storage0)
      w uuid4 elapsed pdf_path fs in
  let run_p :=
    DocumentProcessor.process (DocumentProcessor.__init__ ocr0 te storage0)
      w uuid4 pdf_path fs in
  snd run_e = snd run_p
  /\ match fst run_e, fst run_p with
     | Return de, Return dp =>
         dp = with_processing_time de None
         /\ Models.processing_time de = Some elapsed
     | Raise ee, Raise ep =>
         exn_cls ee = ProcessingError
         /\ exn_cls ep = ProcessingError
         /\ exists inner,
              exn_str ee
              = ("Error procesando " ++ str pdf_path ++ ": ") ++ inner
              /\ exn_str ep = "Error procesando documento: " ++ inner
     | OutOfFuel, OutOfFuel => True
     | _, _ => False
     end.
Proof.
  cbv zeta.
  unfold ProcessDocument.execute, ProcessDocument.execute_body,
    ExtractDocumentTextUseCase.execute, ExtractTablesUseCase.execute,
    SaveDocumentUseCase.execute,
    DocumentProcessor.process, DocumentProcessor.process_body, save,
    wrap_run, name_of.
  unfold mbind, result_bind, bind.
  cbn [ProcessDocument.__init__ ProcessDocument.extract_text_use_case
       ProcessDocument.extract_tables_use_case
       ProcessDocument.save_document_use_case
       ExtractDocumentTextUseCase.ocr ExtractTablesUseCase.table_extractor
       SaveDocumentUseCase.storage
       DocumentProcessor.ocr DocumentProcessor.table_extractor
       DocumentProcessor.storage].
  destruct (port_extract_text ocr0 w pdf_path) as [[text|e|] ocr1];
    [|cbn; split; [reflexivity|]; repeat split; eauto
     |cbn; split; [reflexivity|exact I]].
  destruct (port_get_confidence ocr1) as [[conf|e|] ocr2];
    [|cbn; split; [reflexivity|]; repeat split; eauto
     |cbn; split; [reflexivity|exact I]].
  destruct (port_extract_tables te pdf_path) as [tables|e|];
    [|cbn; split; [reflexivity|]; repeat split; eauto
     |cbn; split; [reflexivity|exact I]].
  destruct (save_document storage0 _ fs) as [[gf|e|] fs'];
    [|cbn; split; [reflexivity|]; repeat split; eauto
     |cbn; split; [reflexivity|exact I]].
  destruct (first_parent gf) as [d|]; cbn.
  - split; [reflexivity|]. split; reflexivity.
  - split; [reflexivity|]. repeat split; eauto.
Qed.

(** The storage step of a run that returned, with the directory it
    used. *)
Lemma run_saved
    (ocr0 : A) (te : T) (storage0 : FileStorage) (w : env) (uuid4 : string)
    (elapsed : Q) (pdf_path : list string) (fs : FS)
    (doc : Models.Document) (st : A * FS) :
  ProcessDocument.execute (ProcessDocument.__init__ ocr0 te storage0)
    w uuid4 elapsed pdf_path fs = (Return doc, st)
  \/ DocumentProcessor.process (DocumentProcessor.__init__ ocr0 te storage0)
       w uuid4 pdf_path fs = (Return doc, st) ->
  exists c gf,
    let d := div (output_dir storage0) c in
    let document :=
      Entities.Document_init uuid4 (stem pdf_path)
        (Models.extracted_text doc) (Models.tables doc) (Some pdf_path) in
    fs !! d = None
    /\ save_outcome d document fs = (Return gf, snd st)
    /\ Models.name doc = c
    /\ Models.output_directory doc = Some d
    /\ Models.generated_files doc = Some gf.
Proof.
  intros Hrun.
  destruct (run_returns ocr0 te storage0 w uuid4 elapsed pdf_path fs doc st
              Hrun)
    as (text & conf & ocr1 & tables & gf & d & _ & _ & _ & Hsave & Hpar
        & Hname & <- & <- & _ & Hdir & Hgf).
  apply save_document_returned in Hsave as (k & Hfree & _ & Hsave).
  cbv zeta in Hfree, Hsave.
  apply exists_false in Hfree. unfold candidate_path in *.
  cbn [Entities.name Entities.Document_init] in *.
  destruct (save_outcome_files _ _ _ fs gf (snd st) Hfree Hsave)
    as (Hfirst & _).
  rewrite Hpar in Hfirst. injection Hfirst as ->.
  exists (candidate (stem pdf_path) k), gf. cbv zeta.
  split; [exact Hfree|]. split; [exact Hsave|].
  split; [now rewrite Hname, name_div|]. split; [exact Hdir|exact Hgf].
Qed.

(** X18.  After a run that returned, every file the document lists exists,
    directly inside the document's output directory; the text file holds
    the document's text; and the metadata file records the stem of the
    source, the number of characters of the text and the number of
    tables, but neither the confidence nor the processing time, which are
    attached to the document only after the files are written. *)
Theorem returned_files_exist
    (ocr0 : A) (te : T) (storage0 : FileStorage) (w : env) (uuid4 : string)
    (elapsed : Q) (pdf_path : list string) (fs : FS)
    (doc : Models.Document) (st : A * FS)
    (Hrun :
       ProcessDocument.execute (ProcessDocument.__init__ ocr0 te storage0)
         w uuid4 elapsed pdf_path fs = (Return doc, st)
       \/ DocumentProcessor.process
            (DocumentProcessor.__init__ ocr0 te storage0)
            w uuid4 pdf_path fs = (Return doc, st)) :
  exists d gf md,
    Models.output_directory doc = Some d
    /\ Models.generated_files doc = Some gf
    /\ gf <> []
    /\ snd st !! d = Some Dir
    /\ Forall (fun f => parent f = d
                        /\ exists c, snd st !! f = Some (File c)) gf
    /\ snd st !! text_file d
       = Some (File (Text (Models.extracted_text doc)))
    /\ snd st !! metadata_file d = Some (File (MetadataJson md))
    /\ md_name md = stem pdf_path
    /\ md_text_length md = len (Models.extracted_text doc)
    /\ md_tables_count md = Z.of_nat (List.length (Models.tables doc))
    /\ md_confidence md = None
    /\ md_processing_time md = None.
Proof.
  destruct (run_saved ocr0 te storage0 w uuid4 elapsed pdf_path fs doc st
              Hrun)
    as (c & gf & Hfree & Hsave & _ & Hdir & Hgf).
  destruct (save_outcome_files _ _ _ fs gf (snd st) Hfree Hsave)
    as (_ & Hd & Hall & _ & _ & _ & Htext & Hmd & Hlen).
  eexists _, gf, _.
  split; [exact Hdir|]. split; [exact Hgf|].
  split; [intros ->; simpl in Hlen; lia|].
  split; [exact Hd|]. split; [exact Hall|].
  split; [exact Htext|]. split; [exact Hmd|].
  repeat split.
Qed.

(** X19.  A second run never touches what an earlier run left: started from a
    well-formed file system whose output root exists, two runs that
    return, one after the other and whatever their sources, give
    documents with different names and different output directories, and
    every entry present after the first run, its files included, is
    unchanged after the second. *)
Theorem reprocessing_keeps_results
    (ocr0 ocr1 : A) (te : T) (storage0 : FileStorage) (w : env)
    (uuid4 uuid4' : string) (elapsed elapsed' : Q)
    (pdf_path pdf_path' : list string) (fs fs1 : FS)
    (doc doc' : Models.Document) (st : A * FS)
    (Hwf : well_formed fs)
    (Hroot : is_directory fs (output_dir storage0))
    (Hfirst :
       ProcessDocument.execute (ProcessDocument.__init__ ocr0 te storage0)
         w uuid4 elapsed pdf_path fs = (Return doc, (ocr1, fs1))
       \/ DocumentProcessor.process
            (DocumentProcessor.__init__ ocr0 te storage0)
            w uuid4 pdf_path fs = (Return doc, (ocr1, fs1)))
    (Hsecond :
       ProcessDocument.execute (ProcessDocument.__init__ ocr1 te storage0)
         w uuid4' elapsed' pdf_path' fs1 = (Return doc', st)
       \/ DocumentProcessor.process
            (DocumentProcessor.__init__ ocr1 te storage0)
            w uuid4' pdf_path' fs1 = (Return doc', st)) :
  Models.name doc <> Models.name doc'
  /\ Models.output_directory doc <> Models.output_directory doc'
  /\ (forall p n, fs1 !! p = Some n -> snd st !! p = Some n)
  /\ (forall gf, Models.generated_files doc = Some gf ->
        Forall (fun f => is_Some (fs1 !! f) /\ snd st !! f = fs1 !! f) gf)
  /\ well_formed (snd st).
Proof.
  destruct (run_saved ocr0 te storage0 w uuid4 elapsed pdf_path fs doc
              (ocr1, fs1) Hfirst)
    as (c & gf & Hfree & Hsave & Hname & Hdir & Hgf).
  destruct (run_saved ocr1 te storage0 w uuid4' elapsed' pdf_path' fs1 doc'
              st Hsecond)
    as (c' & gf' & Hfree' & Hsave' & Hname' & Hdir' & Hgf').
  cbn [snd] in Hsave.
  destruct (save_outcome_files _ _ _ fs gf fs1 Hfree Hsave)
    as (_ & Hd & Hall & _).
  destruct (save_outcome_keeps _ _ _ fs _ fs1 Hwf Hroot Hfree Hsave)
    as (_ & Hwf1 & Hroot1 & _).
  destruct (save_outcome_keeps _ _ _ fs1 _ (snd st) Hwf1 Hroot1 Hfree' Hsave')
    as (Hkeep & Hwf2 & _).
  assert (Hne : c <> c').
  { intros <-. rewrite Hd in Hfree'. discriminate. }
  split; [congruence|]. split.
  { rewrite Hdir, Hdir'. intros [= E]. apply div_inj in E. contradiction. }
  split; [exact Hkeep|]. split; [|exact Hwf2].
  intros gf0 Hgf0. rewrite Hgf in Hgf0. injection Hgf0 as <-.
  eapply Forall_impl; [exact Hall|].
  intros f (_ & x & Hx). cbn beta. split; [rewrite Hx; eauto|].
  rewrite Hx. now apply Hkeep.
Qed.

End OrchestratorsAgree.

Section MoreOrchestratorScenarios.
Import Py Fs Cv Ports FileStorage UseCases StorageSpec PipelineSpec Scenarios.

(** A run is known by the document it returns and the adapter it leaves;
    the file system it leaves is whatever the run computes. *)
Lemma run_with_adapter {D S F : Type} (x : D * (S * F)) (r : D) (a : S) :
  fst x = r -> fst (snd x) = a -> x = (r, (a, snd (snd x))).
Proof. destruct x as [r0 [a0 f0]]. cbn. now intros <- <-. Qed.

Lemma run_with_rest {D R : Type} (x : D * R) (r : D) :
  fst x = r -> x = (r, snd x).
Proof. intros <-. now destruct x. Qed.

Lemma failed_extraction_witness :
  ProcessDocument.execute basic_pipeline office_env "7f3c" 2 no_such_pdf
    reports_root
  = (Raise (mkExn ProcessingError
              ("Error procesando pdfs/no_such.pdf: "
               ++ "Error en OCR básico: Unable to get page count.")),
     (basic_adapter, reports_root)).
Proof.
  apply (failed_extraction_writes_nothing basic_adapter
           AdapterFactory.create_table_extractor reports_storage office_env
           "7f3c" 2 no_such_pdf reports_root
           (mkExn ProcessingError
              "Error en OCR básico: Unable to get page count.")
           basic_adapter).
  left. reflexivity.
Defined.

Lemma returned_files_exist_witness :
  exists d md,
    Models.output_directory informe_01_document = Some d
    /\ snd (snd (ProcessDocument.execute basic_pipeline office_env "7f3c" 2
                   informe_pdf taken_root)) !! metadata_file d
       = Some (File (MetadataJson md))
    /\ md_name md = "informe"
    /\ md_confidence md = None.
Proof.
  destruct (returned_files_exist basic_adapter
              AdapterFactory.create_table_extractor reports_storage
              office_env "7f3c" 2 informe_pdf taken_root
              informe_01_document
              (snd (ProcessDocument.execute basic_pipeline office_env
                      "7f3c" 2 informe_pdf taken_root)))
    as (d & gf & md & Hd & _ & _ & _ & _ & _ & Hmd & Hname & _ & _ & Hc & _).
  - left. apply run_with_rest. vm_compute. reflexivity.
  - exists d, md. split; [exact Hd|]. split; [exact Hmd|].
    split; [exact Hname|exact Hc].
Defined.

Lemma reprocessing_keeps_results_witness :
  Models.name informe_document <> Models.name informe_01_document
  /\ Models.output_directory informe_document
     <> Models.output_directory informe_01_document.
Proof.
  destruct (reprocessing_keeps_results basic_adapter basic_adapter
              AdapterFactory.create_table_extractor reports_storage
              office_env "7f3c" "9a1e" 2 2 informe_pdf informe_pdf
              reports_root
              (snd (snd (ProcessDocument.execute basic_pipeline office_env
                           "7f3c" 2 informe_pdf reports_root)))
              informe_document informe_01_document
              (snd (ProcessDocument.execute basic_pipeline office_env
                      "9a1e" 2 informe_pdf
                      (snd (snd (ProcessDocument.execute basic_pipeline
                                   office_env "7f3c" 2 informe_pdf
                                   reports_root))))))
    as (Hname & Hdir & _).
  - apply well_formedb_spec. vm_compute. reflexivity.
  - right. vm_compute. reflexivity.
  - left. apply run_with_adapter; vm_compute; reflexivity.
  - left. apply run_with_rest. vm_compute. reflexivity.
  - split; [exact Hname|exact Hdir].
Defined.

End MoreOrchestratorScenarios.

(** ** Reading a stored document back *)

Section ReadBack.
Import Py Fs PyDict Json FileStorage FileStorageRead StorageSpec Scenarios.

Lemma has_char_app (c : ascii) (s t : string) :
  has_char c (s ++ t) = has_char c s || has_char c t.
Proof.
  induction s as [|x s IH]; [reflexivity|].
  change (has_char c (String x (s ++ t))
          = has_char c (String x s) || has_char c t).
  cbn [has_char]. rewrite IH. now rewrite orb_assoc.
Qed.

Lemma has_magic_app (s t : string) :
  has_magic (s ++ t) = has_magic s || has_magic t.
Proof.
  unfold has_magic. rewrite !has_char_app.
  destruct (has_char "*" s), (has_char "?" s), (has_char "[" s),
    (has_char "*" t), (has_char "?" t), (has_char "[" t); reflexivity.
Qed.

(** A printed counter has digits only. *)
Lemma has_magic_uint (u : Decimal.uint) :
  has_magic (NilEmpty.string_of_uint u) = false.
Proof.
  induction u as [|u IH|u IH|u IH|u IH|u IH|u IH|u IH|u IH|u IH|u IH];
    [reflexivity|..];
    cbn [NilEmpty.string_of_uint];
    match goal with
    | |- has_magic (String ?c ?s) = false =>
        change (String c s) with (String c "" ++ s)
    end;
    rewrite has_magic_app, IH; reflexivity.
Qed.

Lemma has_magic_candidate (base : string) (k : nat) :
  has_magic base = false -> has_magic (candidate base k) = false.
Proof.
  intros Hbase. destruct k as [|k]; [exact Hbase|].
  unfold candidate, numbered, fmt_02d.
  rewrite !has_magic_app, Hbase.
  destruct (String.length _ <? 2)%nat;
    rewrite ?has_magic_app, has_magic_uint; reflexivity.
Qed.

(** The tables file is written exactly when there are tables. *)
Lemma save_outcome_tables
    (d : list string) (document : Entities.Document) (fs : FS)
    (gf : list (list string)) (fs' : FS) :
  save_outcome d document fs = (Return gf, fs') ->
  fs' !! tables_file d
  = if decide (Entities.tables document = [])
    then fs !! tables_file d
    else Some (File (TablesJson (Entities.tables document))).
Proof.
  intros Hsave.
  assert (Ntt : text_file d <> tables_file d)
    by (apply div_neq; discriminate).
  assert (Nbp : tables_file d <> pdf_copy d)
    by (apply div_neq; discriminate).
  assert (Nbm : tables_file d <> metadata_file d)
    by (apply div_neq; discriminate).
  assert (Hb : ensure_dirs d fs !! tables_file d = fs !! tables_file d).
  { apply lookup_mkdir_other, child_not_ancestor. }
  unfold save_outcome, staged_fs, staged_files in Hsave.
  destruct (decide (Entities.tables document = []));
    destruct (Entities.source_path document) as [pdf_path|];
    cbv zeta in Hsave;
    try match type of Hsave with
      | context [?f !! pdf_path] => destruct (f !! pdf_path) as [[|x]|]
      end;
    try discriminate Hsave;
    injection Hsave as <- <-;
    lookup_writes; try exact Hb; reflexivity.
Qed.

Lemma load_fields {B : Type} (md : metadata) (document : Document)
    (k : Document -> result B) :
  (document ← load_field (of_metadata md) "id" set_id document;
   document ← load_field (of_metadata md) "confidence" set_confidence
                document;
   document ← load_field (of_metadata md) "processing_time"
                set_processing_time document;
   k document)
  = k (mkDocument (of_option_str (md_id md)) (name document)
         (text document) (tables document)
         (of_option_float (md_confidence md))
         (of_option_float (md_processing_time md))).
Proof. reflexivity. Qed.

Lemma glob_plain (lib : io) (fs : FS) (d : list string) (pattern : string)
    (n : node) :
  has_magic pattern = false -> fs !! div d pattern = Some n ->
  glob lib fs d pattern = [div d pattern].
Proof.
  intros Hp Hn. unfold glob, exists_. rewrite Hp.
  rewrite bool_decide_eq_true_2; [reflexivity|]. rewrite Hn. eauto.
Qed.

Lemma glob_plain_none (lib : io) (fs : FS) (d : list string)
    (pattern : string) :
  has_magic pattern = false -> fs !! div d pattern = None ->
  glob lib fs d pattern = [].
Proof.
  intros Hp Hn. unfold glob, exists_. rewrite Hp.
  rewrite bool_decide_eq_false_2; [reflexivity|]. rewrite Hn.
  apply is_Some_None.
Qed.

Lemma open_read_file (fs : FS) (p : list string) (c : content) :
  fs !! p = Some (File c) -> open_read fs p = Return c.
Proof. intros H. unfold open_read. now rewrite H. Qed.

(** A text without carriage return is read as it is. *)
Lemma universal_newlines_plain (s : string) :
  has_char "013" s = false -> universal_newlines s = s.
Proof.
  induction s as [|c s IH]; [reflexivity|].
  cbn [has_char universal_newlines]. intros H.
  apply orb_false_iff in H as [Hc Hs]. rewrite Hc.
  now rewrite (IH Hs).
Qed.

(** No carriage return is ever read. *)
Lemma universal_newlines_no_cr (s : string) :
  has_char "013" (universal_newlines s) = false
  /\ forall c, has_char "013" (universal_newlines (String c s)) = false.
Proof.
  induction s as [|x s [IH1 IH2]].
  - split; [reflexivity|]. intros c. cbn [universal_newlines].
    destruct (Ascii.eqb c "013") eqn:E; [reflexivity|].
    cbn [has_char]. now rewrite E.
  - split; [apply IH2|]. intros c.
    change (universal_newlines (String c (String x s)))
      with (if Ascii.eqb c "013"
            then if Ascii.eqb x "010"
                 then String "010" (universal_newlines s)
                 else String "010" (universal_newlines (String x s))
            else String c (universal_newlines (String x s))).
    destruct (Ascii.eqb c "013") eqn:E.
    + destruct (Ascii.eqb x "010"); cbn [has_char];
        [exact IH1 | exact (IH2 x)].
    + cbn [has_char]. rewrite E. exact (IH2 x).
Qed.

(** X12.  A document that was saved is read back under the name of its
    directory, with the tables and the identifier that were saved and
    with the text that was saved once its carriage returns are read as
    line feeds: the text read back has no carriage return, and it is the
    text saved when that had none.  Before the save the same name gave
    [None].  The name read back is the name saved exactly when no counter
    was appended. *)
Theorem saved_document_is_read_back
    (self : FileStorage) (lib : io) (uuid4 : string)
    (document : Entities.Document) (fs : FS)
    (gf : list (list string)) (fs' : FS)
    (Hwf : well_formed fs)
    (Hplain : has_magic (Entities.name document) = false)
    (Hsave : save_document self document fs = (Return gf, fs')) :
  exists d,
    first_parent gf = Some d
    /\ get_document self lib uuid4 (Fs.name d) fs = Return None
    /\ get_document self lib uuid4 (Fs.name d) fs'
       = Return (Some (stored d document))
    /\ has_char "013" (text (stored d document)) = false
    /\ (has_char "013" (Entities.text document) = false ->
        text (stored d document) = Entities.text document)
    /\ (name (stored d document) = Entities.name document <->
        exists_ fs (div (output_dir self) (Entities.name document)) = false).
Proof.
  apply save_document_returned in Hsave as (k & Hfree & Hused & Hsave).
  cbv zeta in Hfree, Hused, Hsave.
  pose proof Hfree as Hfreeb.
  apply exists_false in Hfree. unfold candidate_path in *.
  set (c := candidate (Entities.name document) k) in *.
  set (d := div (output_dir self) c) in *.
  destruct (save_outcome_files _ _ document fs gf fs' Hfree Hsave)
    as (Hfirst & Hd & _ & _ & _ & _ & Htext & Hmd & _).
  fold d in Hfirst, Hd, Htext, Hmd.
  pose proof (save_outcome_tables d document fs gf fs' Hsave) as Htab.
  assert (Hname : Fs.name d = c) by apply name_div.
  assert (Hc : has_magic c = false) by now apply has_magic_candidate.
  assert (Mm : has_magic (c ++ "_metadata.json") = false)
    by (rewrite has_magic_app, Hc; reflexivity).
  assert (Mt : has_magic (c ++ "_texto.txt") = false)
    by (rewrite has_magic_app, Hc; reflexivity).
  assert (Mb : has_magic (c ++ "_tablas.json") = false)
    by (rewrite has_magic_app, Hc; reflexivity).
  assert (Hchild : forall x, fs !! div d x = None).
  { intros x. destruct (fs !! div d x) as [n|] eqn:E; [|reflexivity].
    destruct (Hwf (div d x)) as [Hnil|Hdir]; [rewrite E; eauto| |].
    - rewrite parent_div in Hnil. unfold d, div in Hnil.
      now destruct (output_dir self).
    - rewrite parent_div in Hdir. congruence. }
  exists d. split; [exact Hfirst|]. split; [|split; [|split; [|split]]].
  - unfold get_document. rewrite Hname. fold d. now rewrite Hfreeb.
  - unfold get_document. rewrite Hname. fold d.
    unfold exists_, is_dir. rewrite Hd.
    rewrite bool_decide_eq_true_2 by eauto. cbn [negb orb].
    unfold text_file, tables_file, metadata_file in *.
    rewrite Hname in *.
    rewrite (glob_plain lib fs' d _ _ Mm Hmd). cbv beta iota.
    rewrite (open_read_file fs' _ _ Hmd).
    unfold mbind, result_bind. cbn [bind json_load].
    rewrite (glob_plain lib fs' d _ _ Mt Htext). cbv beta iota.
    rewrite (open_read_file fs' _ _ Htext).
    cbn [bind f_read].
    destruct (decide (Entities.tables document = [])) as [Hnil|Hcons].
    + rewrite Hchild in Htab.
      rewrite (glob_plain_none lib fs' d _ Mb Htab).
      cbn [bind].
      set (t := universal_newlines (Entities.text document)).
      change (Document_init uuid4 c t (JList []))
        with (mkDocument (JStr uuid4) c t (JList []) JNull JNull).
      pose proof (load_fields (metadata_of document)
                    (mkDocument (JStr uuid4) c t (JList []) JNull JNull)
                    (fun document => Return (Some document))) as Hload.
      unfold mbind, result_bind in Hload. rewrite Hload.
      unfold stored. rewrite Hname, Hnil. reflexivity.
    + rewrite (glob_plain lib fs' d _ _ Mb Htab). cbv beta iota.
      rewrite (open_read_file fs' _ _ Htab). cbn [bind json_load].
      assert (Htruthy : truthy (of_tables (Entities.tables document)) = true).
      { unfold of_tables. destruct (Entities.tables document); [done|].
        reflexivity. }
      unfold Document_init. rewrite Htruthy.
      pose proof (load_fields (metadata_of document)
                    (mkDocument (JStr uuid4) c
                       (universal_newlines (Entities.text document))
                       (of_tables (Entities.tables document)) JNull JNull)
                    (fun document => Return (Some document))) as Hload.
      unfold mbind, result_bind in Hload. rewrite Hload.
      unfold stored. rewrite Hname. reflexivity.
  - cbn [text stored]. apply universal_newlines_no_cr.
  - cbn [text stored]. apply universal_newlines_plain.
  - cbn [name stored]. rewrite Hname. unfold c. split.
    + intros E. destruct k as [|k]; [exact Hfreeb|].
      exfalso. apply (numbered_not_base _ _ E).
    + intros H0. destruct k as [|k]; [reflexivity|].
      specialize (Hused 0%nat ltac:(lia)). cbn [candidate] in Hused.
      congruence.
Qed.

Lemma saved_document_read_back_witness :
  get_document reports_storage strict_io "0000" "informe_01"
    (snd (save_document reports_storage informe_entity taken_root))
  = Return (Some (stored ["resultado"; "informe_01"] informe_entity))
  /\ get_document reports_storage strict_io "0000" "informe_01" taken_root
     = Return None.
Proof.
  destruct (saved_document_is_read_back reports_storage strict_io "0000"
              informe_entity taken_root informe_01_files
              (snd (save_document reports_storage informe_entity
                      taken_root)))
    as (d & Hd & Hbefore & Hafter & _).
  - apply well_formedb_spec. vm_compute. reflexivity.
  - reflexivity.
  - apply surjective_pairing_fst. vm_compute. reflexivity.
  - cbn in Hd. injection Hd as <-. split; [exact Hafter|exact Hbefore].
Defined.



End ReadBack.

(** ** The controller, as the command line wires it *)

Section CommandLineController.
Import Py Fs Cv Ports FileStorage UseCases PyDict Controllers Scenarios.
Context {A T : Type} `{!OCRPort A} `{!TableExtractorPort T}.

(** The documents the orchestrators return have no attribute [text]. *)
Lemma document_has_no_text (d : Models.Document) :
  getattr d "text"
  = Raise (mkExn (Builtin "AttributeError")
             "'Document' object has no attribute 'text'").
Proof. reflexivity. Qed.

(** X20.  With the use case the command line hands it, [process_pdf] never
    raises and never reports success.  When the run itself returned a
    document, the output directory has been written all the same, and the
    answer is the failure of reading [document.text], an attribute the
    returned document does not have; when the run raised, the answer
    carries its message.  In the other two modes the controller has no use
    case to call and says so. *)
Theorem command_line_controller_never_succeeds
    (ocr0 : A) (te : T) (storage0 : FileStorage)
    (repr : value -> string) (w : env) (uuid4 : string) (elapsed : Q)
    (pdf_path : list string) (fs : FS) :
  let use_case := ProcessDocument.__init__ ocr0 te storage0 in
  let controller := __init__ use_case in
  let run := ProcessDocument.execute use_case w uuid4 elapsed pdf_path fs in
  let answer := process_pdf controller repr w uuid4 elapsed pdf_path fs in
  snd answer = snd run
  /\ match fst run, fst answer with
     | Return document, Return result =>
         dict_get result "success" = Some (VBool false)
         /\ dict_get result "message"
            = Some (VStr ("Error inesperado: "
                          ++ "'Document' object has no attribute 'text'"))
     | Raise e, Return result =>
         dict_get result "success" = Some (VBool false)
         /\ dict_get result "error" = Some (VStr (exn_str e))
         /\ dict_get result "message" = Some (VStr ("Error: " ++ exn_str e))
     | OutOfFuel, OutOfFuel => True
     | _, _ => False
     end
  /\ (exists result,
        extract_document_text controller w pdf_path = (Return result, None)
        /\ dict_get result "success" = Some (VBool false))
  /\ (exists result,
        extract_document_tables controller pdf_path = Return result
        /\ dict_get result "success" = Some (VBool false)).
Proof.
  cbv zeta. split; [|split; [|split]].
  - unfold process_pdf, process_pdf_body, __call__.
    cbn [process_document __init__].
    destruct (ProcessDocument.execute _ w uuid4 elapsed pdf_path fs)
      as [[document|e|] st] eqn:E; try reflexivity.
    + destruct (exn_cls e); reflexivity.
  - unfold process_pdf, process_pdf_body, __call__.
    cbn [process_document __init__].
    pose proof (execute_only_processing_error ocr0 te storage0 w uuid4
                  elapsed pdf_path fs) as Hcls.
    destruct (ProcessDocument.execute _ w uuid4 elapsed pdf_path fs)
      as [[document|e|] st] eqn:E; cbn [fst snd].
    + split; reflexivity.
    + cbv beta iota. rewrite (Hcls e st eq_refl). repeat split.
    + exact I.
  - eexists. split; reflexivity.
  - eexists. split; reflexivity.
Qed.

End CommandLineController.

(** ** Adding page texts to a document *)

Section AddText.
Import Py Fs ModelsMethods Scenarios.

Lemma string_app_nil_r (s : string) : s ++ "" = s.
Proof.
  induction s as [|c s IH]; [reflexivity|].
  change (String c (s ++ "") = String c s). now rewrite IH.
Qed.

(** A separator in front of every text. *)
Lemma join_cons (sep t : string) (rest : list string) :
  join sep (t :: rest)
  = t ++ fold_right (fun x acc => sep ++ x ++ acc) "" rest.
Proof.
  revert t. induction rest as [|u rest IH]; intros t.
  - cbn. now rewrite string_app_nil_r.
  - change (join sep (t :: u :: rest)) with (t ++ sep ++ join sep (u :: rest)).
    rewrite IH. reflexivity.
Qed.

Lemma add_text_frame (d : Models.Document) (text : string) :
  Models.name (add_text d text) = Models.name d
  /\ Models.source_path (add_text d text) = Models.source_path d
  /\ Models.tables (add_text d text) = Models.tables d.
Proof. unfold add_text. destruct (negb _); repeat split. Qed.

Lemma app_not_empty (s t : string) : s <> "" -> s ++ t <> "".
Proof. destruct s; [done|]. intros _ H. discriminate H. Qed.

Lemma add_texts_after (texts : list string) : forall d,
  Models.extracted_text d <> "" ->
  Models.extracted_text (fold_left add_text texts d)
  = Models.extracted_text d
    ++ fold_right
         (fun x acc => String "010" (String "010" "") ++ x ++ acc) "" texts.
Proof.
  induction texts as [|t texts IH]; intros d Hd.
  - cbn. now rewrite string_app_nil_r.
  - cbn [fold_left fold_right]. pose proof Hd as Hd'.
    apply String.eqb_neq in Hd'. rewrite IH.
    + unfold add_text. rewrite Hd'. cbn [negb set_extracted_text
                                           Models.extracted_text].
      rewrite <- !string_app_assoc. reflexivity.
    + unfold add_text. rewrite Hd'. cbn. now apply app_not_empty.
Qed.

(** X21.  Adding the texts of the pages one after the other to a document that
    has no text yet gives the texts joined by one blank line, as the
    adapters join them, except that empty texts at the front leave no
    trace; the other fields are untouched. *)
Theorem add_text_joins (d : Models.Document) (texts : list string)
    (Hfresh : Models.extracted_text d = "") :
  let d' := fold_left add_text texts d in
  Models.extracted_text d'
  = join (String "010" (String "010" "")) (drop_empty texts)
  /\ Models.name d' = Models.name d
  /\ Models.tables d' = Models.tables d
  /\ (forall t rest, texts = t :: rest -> t <> "" ->
        Models.extracted_text d'
        = join (String "010" (String "010" "")) texts).
Proof.
  cbv zeta.
  assert (Hjoin : forall texts d,
            Models.extracted_text d = "" ->
            Models.extracted_text (fold_left add_text texts d)
            = join (String "010" (String "010" "")) (drop_empty texts)).
  { clear. induction texts as [|t texts IH]; intros d Hd.
    - exact Hd.
    - cbn [fold_left drop_empty].
      destruct (String.eqb t "") eqn:Et.
      + apply String.eqb_eq in Et. subst t. apply IH.
        unfold add_text. rewrite Hd. reflexivity.
      + rewrite add_texts_after.
        * rewrite join_cons. unfold add_text. rewrite Hd. reflexivity.
        * unfold add_text. rewrite Hd. cbn. now apply String.eqb_neq. }
  assert (Hframe : forall texts d,
            Models.name (fold_left add_text texts d) = Models.name d
            /\ Models.tables (fold_left add_text texts d) = Models.tables d).
  { clear. induction texts as [|t texts IH]; intros d; [now split|].
    cbn [fold_left]. destruct (IH (add_text d t)) as (H1 & H2).
    destruct (add_text_frame d t) as (F1 & _ & F3).
    rewrite H1, H2, F1, F3. now split. }
  split; [now apply Hjoin|].
  destruct (Hframe texts d) as (H1 & H2).
  split; [exact H1|]. split; [exact H2|].
  intros t rest -> Ht. rewrite Hjoin by exact Hfresh.
  cbn [drop_empty]. apply String.eqb_neq in Ht. now rewrite Ht.
Qed.

Lemma add_text_joins_witness :
  Models.extracted_text
    (fold_left add_text [""; "Estimado cliente"; ""; "Atentamente"]
       blank_document)
  = "Estimado cliente"
    ++ String "010" (String "010" "")
    ++ String "010" (String "010" "Atentamente").
Proof.
  apply (add_text_joins blank_document
           [""; "Estimado cliente"; ""; "Atentamente"] eq_refl).
Defined.

End AddText.

(** ** Listing the stored documents *)

Section Listing.
Import Py Fs PyDict Json FileStorage FileStorageRead FileStorageList
  StorageSpec Scenarios.

Lemma dict_get_set {V : Type} (d : list (string * V)) (key : string) (v : V) :
  dict_get (dict_set d key v) key = Some v.
Proof.
  unfold dict_get. induction d as [|[k x] d IH]; cbn.
  - rewrite bool_decide_eq_true_2 by reflexivity. reflexivity.
  - destruct (String.eqb k key) eqn:E; cbn.
    + apply String.eqb_eq in E. subst k.
      rewrite bool_decide_eq_true_2 by reflexivity. reflexivity.
    + apply String.eqb_neq in E.
      rewrite bool_decide_eq_false_2 by exact E. exact IH.
Qed.

(** Every entry of the listing carries the name of its directory as
    [id]. *)
Lemma document_entry_id (lib : io) (os : scan) (fs : FS)
    (doc_dir : list string) (entry : json) :
  document_entry lib os fs doc_dir = Return entry ->
  exists entries,
    entry = JDict entries
    /\ dict_get entries "id" = Some (JStr (Fs.name doc_dir)).
Proof.
  unfold document_entry.
  destruct (glob lib fs doc_dir _) as [|metadata_file rest].
  - intros [= <-]. eexists. split; reflexivity.
  - destruct (open_read fs metadata_file) as [f|e|]; try discriminate.
    cbn. destruct (json_load lib f) as [metadata|e|]; try discriminate.
    cbn. destruct metadata; try discriminate.
    cbn. intros [= <-]. eexists. split; [reflexivity|].
    apply dict_get_set.
Qed.

Lemma entries_loop_acc (lib : io) (os : scan) (fs : FS)
    (dirs : list (list string)) : forall acc,
  entries_loop lib os fs dirs acc
  = (rs ← entries_loop lib os fs dirs []; Return (acc ++ rs)%list).
Proof.
  induction dirs as [|d dirs IH]; intros acc; cbn.
  - now rewrite app_nil_r.
  - destruct (document_entry lib os fs d) as [entry|e|]; cbn;
      try reflexivity.
    rewrite (IH (acc ++ [entry])%list), (IH [entry]).
    destruct (entries_loop lib os fs dirs []) as [rs|e|]; cbn;
      try reflexivity.
    f_equal. rewrite <- (app_assoc acc [entry] rs). reflexivity.
Qed.

Lemma entries_loop_app (lib : io) (os : scan) (fs : FS)
    (l1 l2 : list (list string)) (r1 r2 : list json) :
  entries_loop lib os fs l1 [] = Return r1 ->
  entries_loop lib os fs l2 [] = Return r2 ->
  entries_loop lib os fs (l1 ++ l2) [] = Return (r1 ++ r2)%list.
Proof.
  revert r1. induction l1 as [|d l1 IH]; intros r1 H1 H2.
  - cbn in H1. injection H1 as <-. exact H2.
  - cbn in H1 |- *.
    destruct (document_entry lib os fs d) as [entry|e|]; try discriminate.
    cbn in H1 |- *. rewrite entries_loop_acc in H1.
    rewrite entries_loop_acc.
    destruct (entries_loop lib os fs l1 []) as [rs|e|] eqn:E;
      try discriminate.
    cbn in H1. injection H1 as <-.
    rewrite (IH rs eq_refl H2). cbn. reflexivity.
Qed.

Lemma entries_loop_each (lib : io) (os : scan) (fs : FS)
    (dirs : list (list string)) : forall results,
  entries_loop lib os fs dirs [] = Return results ->
  Forall2 (fun d r => document_entry lib os fs d = Return r) dirs results.
Proof.
  induction dirs as [|d dirs IH]; intros results H.
  - cbn in H. injection H as <-. constructor.
  - cbn in H.
    destruct (document_entry lib os fs d) as [entry|e|] eqn:E;
      try discriminate.
    cbn in H. rewrite entries_loop_acc in H.
    destruct (entries_loop lib os fs dirs []) as [rs|e|] eqn:E';
      try discriminate.
    cbn in H. injection H as <-. constructor; [exact E|]. now apply IH.
Qed.

Lemma insert_desc_elem {X : Type} (key : X -> Q) (x y : X) (l : list X) :
  y ∈ insert_desc key x l <-> y = x \/ y ∈ l.
Proof.
  induction l as [|z l IH]; cbn.
  - rewrite list_elem_of_singleton, elem_of_nil. tauto.
  - destruct (Qlt_bool (key x) (key z)).
    + rewrite !elem_of_cons, IH. tauto.
    + rewrite !elem_of_cons. tauto.
Qed.

Lemma sort_desc_elem {X : Type} (key : X -> Q) (y : X) (l : list X) :
  y ∈ sort_desc key l <-> y ∈ l.
Proof.
  unfold sort_desc. induction l as [|x l IH]; cbn; [reflexivity|].
  rewrite insert_desc_elem, IH, elem_of_cons. tauto.
Qed.

(** A slice that starts at [a >= 0] and has room for [b >= 0] elements. *)
Lemma slice_page {X : Type} (l : list X) (a b : Z) :
  (0 <= a)%Z -> (0 <= b)%Z ->
  slice l a (a + b) = take (Z.to_nat b) (drop (Z.to_nat a) l).
Proof.
  intros Ha Hb. unfold slice.
  assert (Ea : (a <? 0)%Z = false) by lia.
  assert (Eb : (a + b <? 0)%Z = false) by lia.
  rewrite Ea, Eb.
  destruct (Z_le_gt_dec (Z.of_nat (length l)) a) as [Hbig|Hsmall].
  - rewrite !drop_ge by lia. now rewrite !take_nil.
  - rewrite (Z.min_l a) by lia.
    destruct (Z_le_gt_dec (a + b) (Z.of_nat (length l))) as [Hfit|Hover].
    + rewrite Z.min_l by lia. f_equal. lia.
    + rewrite Z.min_r by lia.
      rewrite !take_ge; [reflexivity| |]; rewrite length_drop; lia.
Qed.

Lemma Forall2_right {X Y : Type} (P : X -> Y -> Prop) (Q : Y -> Prop)
    (l : list X) (k : list Y) :
  Forall2 P l k -> (forall x y, x ∈ l -> P x y -> Q y) -> Forall Q k.
Proof.
  induction 1 as [|x y l k Hxy _ IH]; intros H; constructor.
  - apply (H x y); [left|exact Hxy].
  - apply IH. intros x' y' Hin. apply H. now right.
Qed.

(** X14.  A page of the listing, for an offset and a limit that are not
    negative, has at most [limit] entries, and every entry carries as [id]
    the name of a directory that the scan of the output root found. *)
Theorem listed_page
    (self : FileStorage) (lib : io) (os : scan) (limit offset : Z) (fs : FS)
    (results : list json)
    (Hoffset : (0 <= offset)%Z) (Hlimit : (0 <= limit)%Z)
    (Hlist : list_documents self lib os limit offset fs = Return results) :
  exists listing,
    iterdir os fs (output_dir self) = Return listing
    /\ (Z.of_nat (List.length results) <= limit)%Z
    /\ Forall
         (fun r =>
            exists d entries,
              d ∈ listing /\ is_dir fs d = true
              /\ r = JDict entries
              /\ dict_get entries "id" = Some (JStr (Fs.name d)))
         results.
Proof.
  unfold list_documents, doc_dirs in Hlist.
  destruct (iterdir os fs (output_dir self)) as [listing|e|] eqn:E;
    try discriminate Hlist.
  cbn in Hlist. rewrite slice_page in Hlist by assumption.
  apply entries_loop_each in Hlist.
  exists listing. split; [reflexivity|]. split.
  - rewrite <- (Forall2_length _ _ _ Hlist), length_take. lia.
  - eapply Forall2_right; [exact Hlist|].
    intros d r Hin Hentry. cbn beta in Hentry.
    apply document_entry_id in Hentry as (entries & -> & Hid).
    exists d, entries.
    apply subseteq_take in Hin. apply subseteq_drop in Hin.
    apply sort_desc_elem in Hin.
    apply list_elem_of_In, filter_In in Hin as (Hin & Hdir).
    split; [now apply list_elem_of_In|]. split; [exact Hdir|].
    split; [reflexivity|exact Hid].
Qed.

Lemma listed_page_witness :
  exists listing,
    iterdir two_documents_scan stored_root (output_dir reports_storage)
    = Return listing
    /\ (Z.of_nat (List.length [informe_01_entry]) <= 1)%Z.
Proof.
  destruct (listed_page reports_storage strict_io two_documents_scan 1 0
              stored_root [informe_01_entry])
    as (listing & Hscan & Hlen & _).
  - lia.
  - lia.
  - vm_compute. reflexivity.
  - exists listing. split; [exact Hscan|exact Hlen].
Defined.

(** X15.  Pages follow one another without gap or overlap: the first [a]
    documents followed by the next [b] are the first [a + b]. *)
Theorem consecutive_pages_join
    (self : FileStorage) (lib : io) (os : scan) (a b : Z) (fs : FS)
    (first next : list json)
    (Ha : (0 <= a)%Z) (Hb : (0 <= b)%Z)
    (Hfirst : list_documents self lib os a 0 fs = Return first)
    (Hnext : list_documents self lib os b a fs = Return next) :
  list_documents self lib os (a + b) 0 fs = Return (first ++ next)%list.
Proof.
  unfold list_documents in *.
  destruct (doc_dirs self os fs) as [dirs|e|]; try discriminate Hfirst.
  cbn in *.
  rewrite slice_page in Hfirst, Hnext |- * by lia.
  rewrite drop_0 in Hfirst |- *.
  replace (take (Z.to_nat (a + b)) dirs)
    with (take (Z.to_nat a) dirs
          ++ take (Z.to_nat b) (drop (Z.to_nat a) dirs))%list.
  - now apply entries_loop_app.
  - rewrite take_take_drop. f_equal. lia.
Qed.

Lemma consecutive_pages_witness :
  list_documents reports_storage strict_io two_documents_scan (1 + 1) 0
    stored_root
  = Return [informe_01_entry; informe_entry].
Proof.
  apply (consecutive_pages_join reports_storage strict_io
           two_documents_scan 1 1 stored_root
           [informe_01_entry] [informe_entry]).
  - lia.
  - lia.
  - vm_compute. reflexivity.
  - vm_compute. reflexivity.
Defined.

End Listing.
